(** * external-dns: the file source and the Shaman provider

    A shallow embedding of [source/sourcefile.go] and of the Shaman DNS
    provider, with the properties of both that the specification states.

    Go values are modelled as follows.
    - [string] is [string]; [[]T] is [list T]; a [map[string]T] is a
      [gmap string T], and a [range] over it visits the keys in an order
      chosen by the runtime, here by a seed (see [rangeOrder]).
    - A function returning [(T, error)] returns a pair [T * option error],
      [None] being the [nil] error. Calls into the operating system, the JSON
      decoder and the remote client return a [result].
    - [uint8(x)] is [x mod 256] on [Z]. *)

From Stdlib Require Import ZArith String Ascii List Permutation Lia.
From Stdlib.Strings Require Import Byte.
From stdpp Require Import gmap strings list fin_maps.

Import ListNotations.
Local Open Scope string_scope.
Local Open Scope Z_scope.
Local Open Scope list_scope.

(** ** Errors and results *)

(** A Go [error] value: the message it carries. *)
Definition error := string.

Inductive result (A : Type) : Type :=
| Ok (a : A)
| Err (e : error).
Arguments Ok {A} a.
Arguments Err {A} e.

(** [uint8(x)] for an integer [x] of any wider type. *)
Definition uint8 (x : Z) : Z := x mod 256.

(** ** The host's endpoint package *)

Module endpoint.

(** Modelled from the spec: the host's [endpoint.Endpoint] type, of which
    this repository reads and writes the fields [DNSName], [Targets],
    [RecordType] and [RecordTTL] (an [int64]). *)
Record Endpoint := mkEndpoint {
  DNSName : string;
  Targets : list string;
  RecordType : string;
  RecordTTL : Z;
}.

(** [endpoint.RecordTypeA] *)
Definition RecordTypeA : string := "A".

(** The zero value [endpoint.Endpoint{}]. *)
Definition zero : Endpoint :=
  {| DNSName := ""; Targets := []; RecordType := ""; RecordTTL := 0 |}.

End endpoint.
Import endpoint.

(** ** The host framework

    What the code calls in the host: the endpoint constructors, the test
    [endpoint.TTL.IsConfigured], [provider.SupportedRecordType], and the
    domain filter with its method [Match]. *)

Class Host := {
  NewEndpoint : string -> string -> list string -> Endpoint;
  NewEndpointWithTTL : string -> string -> Z -> list string -> Endpoint;
  IsConfigured : Z -> bool;
  SupportedRecordType : string -> bool;
  DomainFilter : Type;
  Match : DomainFilter -> string -> bool;
}.

(** Modelled from the spec: the host's [plan.Changes], the endpoint lists a
    provider is handed. An endpoint in a list is never a [nil] pointer. *)
Module plan.
Record Changes := mkChanges {
  Create : list Endpoint;
  UpdateOld : list Endpoint;
  UpdateNew : list Endpoint;
  Delete : list Endpoint;
}.
End plan.

(** ** Logging *)

Inductive Level := Debug | Info | Error.

(** ** Ranging over a Go map

    [for k, v := range m] visits every entry of [m] once, in an order the
    runtime chooses. [rangeOrder seed l n] takes the entries [l] in the order
    the seed gives: its first number (modulo what is left) picks the entry
    visited first, and so on. Every seed gives a permutation of [l] and every
    permutation has a seed, see [rangeOrder_Permutation] and
    [rangeOrder_complete]. *)

Fixpoint rangeOrder {A : Type} (seed : list nat) (l : list A) (fuel : nat)
  : list A :=
  match fuel with
  | O => []
  | S fuel =>
      let i := (hd 0%nat seed mod length l)%nat in
      match l !! i with
      | None => []
      | Some x => x :: rangeOrder (tl seed) (delete i l) fuel
      end
  end.

Definition rangeMap {V : Type} (seed : list nat) (m : gmap string V)
  : list (string * V) :=
  let kvs := map_to_list m in rangeOrder seed kvs (length kvs).

(** ** The file source, [source/sourcefile.go] *)

Module FileSource.

Record sourceEndpoint := mkSourceEndpoint {
  DnsName : string;
  Addresses : list string;
}.

Abbreviation sourceEndpoints := (list sourceEndpoint).

Record fileSource := mkFileSource {
  dnsNameBase : string;
  fileName : string;
}.

(** What [os.Stat] reports about a path that exists. *)
Record FileInfo := mkFileInfo { IsDir : bool }.

(** The operating system and the JSON decoder the source calls. *)
Class OS := {
  File : Type;
  os_Stat : string -> result FileInfo;
  os_IsNotExist : error -> bool;
  os_Open : string -> result File;
  ioutil_ReadAll : File -> result (list byte);
  json_Unmarshal : list byte -> result sourceEndpoints;
}.

Section WithOS.

Context {os : OS} {host : Host}.

(** [NewFileSource]: the source (a [nil] source is [None]), the error,
    and the lines logged at error level. The lines the source logs at debug
    level, here and below, are left out. *)
Definition NewFileSource (fqdnTemplate sourceFileName : string)
  : (option fileSource * option error) * list (Level * string) :=
  match os_Stat sourceFileName with
  | Ok i =>
      (* here [err == nil] *)
      let err : option error := None in
      if IsDir i then
        ((None, err), [(Error, sourceFileName +:+ " is a directory.")])
      else
        ((Some {| dnsNameBase := fqdnTemplate; fileName := sourceFileName |},
          None), [])
  | Err e =>
      let err := Some e in
      if os_IsNotExist e then
        ((None, err),
         [(Error, "File " +:+ sourceFileName +:+ " does not exist.")])
      else
        ((None, err),
         [(Error, "Error occurred when testing file " +:+ sourceFileName
                    +:+ " : " +:+ e +:+ ".")])
  end.

(** [readFileToStruct]. A [nil] and an empty [data] are both [[]]: the
    code answers the two alike. *)
Definition readFileToStruct (fs : fileSource)
  : sourceEndpoints * option error :=
  match os_Open (fileName fs) with
  | Err err => ([], Some err)
  | Ok jsonFile =>
      match ioutil_ReadAll jsonFile with
      | Err err => ([], Some err)
      | Ok data =>
          if (length data =? 0)%nat then ([], None)
          else
            match json_Unmarshal data with
            | Err err => ([], Some err)
            | Ok res => (res, None)
            end
      end
  end.

(** One turn of the loop of [generateEndpoints]: [endpoints[i] = ...].
    A slot of [[]*endpoint.Endpoint] that is still [nil] is [None]. *)
Definition generateStep (base : string)
    (endpoints : list (option Endpoint)) (iv : nat * sourceEndpoint)
  : list (option Endpoint) :=
  let '(i, v) := iv in
  let dnsname := DnsName v +:+ "." +:+ base in
  if String.eqb (DnsName v) "" || (length (Addresses v) =? 0)%nat then
    <[i := Some endpoint.zero]> endpoints
  else
    <[i := Some (NewEndpoint dnsname RecordTypeA (Addresses v))]> endpoints.

Definition generateEndpoints (fs : fileSource)
  : list (option Endpoint) * option error :=
  match readFileToStruct fs with
  | (_, Some err) => ([], Some err)
  | (f, None) =>
      let endpoints := replicate (length f) None in
      (fold_left (generateStep (dnsNameBase fs)) (imap pair f) endpoints,
       None)
  end.

Definition Endpoints (fs : fileSource)
  : list (option Endpoint) * option error :=
  match generateEndpoints fs with
  | (_, Some err) => ([], Some err)
  | (endpoints, None) => (endpoints, None)
  end.

(** What a record of the file becomes, as the specification has it. *)
Definition endpointOf (base : string) (v : sourceEndpoint) : Endpoint :=
  if String.eqb (DnsName v) "" then endpoint.zero
  else match Addresses v with
       | [] => endpoint.zero
       | _ :: _ =>
           NewEndpoint (DnsName v +:+ "." +:+ base) RecordTypeA
             (Addresses v)
       end.

End WithOS.

End FileSource.

(** ** The Shaman client library

    Modelled from the spec: the types of [shaman-client-go] the provider
    uses, a remote domain being a name and a sequence of records with a type,
    a class, an address and a TTL. The code converts to the TTL of a record
    with [uint8]; the model keeps a TTL in [Z] and writes out every
    conversion of the code. [Type] being reserved, the field is [Type_]. *)

Module shaman.

Module DNSRecord.
Record t := mk {
  TTL : Z;
  Class : string;
  Type_ : string;
  Address : string;
}.
End DNSRecord.
Abbreviation DNSRecord := DNSRecord.t.

Module DNSRecordResponse.
Record t := mk {
  TTL : Z;
  Class : string;
  Type_ : string;
  Address : string;
}.
End DNSRecordResponse.
Abbreviation DNSRecordResponse := DNSRecordResponse.t.

Module Domain.
Record t := mk {
  Domain : string;
  Records : list DNSRecord;
}.
End Domain.
Abbreviation Domain := Domain.t.

Module DomainResponse.
Record t := mk {
  Domain : string;
  Records : list DNSRecordResponse;
}.
End DomainResponse.
Abbreviation DomainResponse := DomainResponse.t.

Abbreviation DomainsResponse := (list string).

Record MsgResponse := mkMsgResponse { Msg : string }.

End shaman.
Import shaman.

(** ** The Shaman provider *)

Module Shaman.

Definition defaultShamanRecordTTL : Z := 60.
Definition defaultShamanRecordClass : string := "IN".
Definition shamanCreate : string := "CREATE".
Definition shamanDelete : string := "DELETE".
Definition shamanUpdate : string := "UPDATE".

Definition isAction (a : string) : Prop :=
  a = shamanCreate \/ a = shamanUpdate \/ a = shamanDelete.

(** The interface [shamanDNS], with the four methods the provider calls
    (it never calls the other five). The remote service has a state [St]; a
    call answers and steps it. *)
Class shamanDNS (St : Type) := {
  GetDomains : St -> result DomainsResponse * St;
  GetRecords : string -> St -> result DomainResponse * St;
  DeleteDomain : string -> St -> result MsgResponse * St;
  ReplaceDomainRecords :
    string -> list DNSRecord -> St -> result DomainResponse * St;
}.

Record ShamanProvider {host : Host} := mkShamanProvider {
  domainFilter : DomainFilter;
  DryRun : bool;
}.

Module shamanChangeSet.
Record t := mk {
  Action : string;
  ResourceRecordSet : Domain;
}.
(** [shamanChangeSet{}] *)
Definition zero : t :=
  {| Action := ""; ResourceRecordSet := Domain.mk "" [] |}.
End shamanChangeSet.
Abbreviation shamanChangeSet := shamanChangeSet.t.

Module shamanChange.
Record t := mk {
  Domain : string;
  Changes : list shamanChangeSet;
}.
End shamanChange.
Abbreviation shamanChange := shamanChange.t.

(** *** The world a call runs in *)

(** A call to the remote client, with its answer. *)
Inductive Event :=
| EvGetDomains (r : result DomainsResponse)
| EvGetRecords (domainName : string) (r : result DomainResponse)
| EvDeleteDomain (domainName : string) (r : result MsgResponse)
| EvReplaceDomainRecords (domainName : string) (records : list DNSRecord)
    (r : result DomainResponse).

(** A line of the log: [log.WithFields] with the fields of a record,
    [log.Errorf] with a domain and an error, [log.WithFields] with a domain
    and its records. *)
Inductive LogEntry :=
| LogRecord (lvl : Level) (msg domain : string) (r : DNSRecord)
    (action : string)
| LogErrorf (msg domain : string) (err : error)
| LogDomain (lvl : Level) (msg domain : string) (records : list DNSRecord).

Record World (St : Type) := mkWorld {
  remote : St;
  trace : list Event;
  logs : list LogEntry;
}.
Arguments mkWorld {St}.
Arguments remote {St}.
Arguments trace {St}.
Arguments logs {St}.

(** The first error a fetch answered with, if any. *)
Fixpoint fetchError (evs : list Event) : option error :=
  match evs with
  | [] => None
  | EvGetDomains (Err e) :: _ => Some e
  | EvGetRecords _ (Err e) :: _ => Some e
  | _ :: evs => fetchError evs
  end.

Section Monad.

Context {St : Type}.

(** Code that calls the client and logs. *)
Definition M (A : Type) : Type := World St -> A * World St.

Definition ret {A : Type} (a : A) : M A := fun w => (a, w).

Definition bind {A B : Type} (m : M A) (k : A -> M B) : M B :=
  fun w => let (a, w') := m w in k a w'.

Definition log (e : LogEntry) : M unit :=
  fun w => (tt, mkWorld (remote w) (trace w) (logs w ++ [e])).

(** A client call: the remote state steps and the event is recorded. *)
Definition call {A : Type} (f : St -> result A * St)
    (ev : result A -> Event) : M (result A) :=
  fun w =>
    let (r, s) := f (remote w) in
    (r, mkWorld s (trace w ++ [ev r]) (logs w)).

(** [for _, b := range l { a = f(a, b) }] *)
Fixpoint forM {A B : Type} (l : list B) (f : A -> B -> M A) (a : A)
  : M A :=
  match l with
  | [] => ret a
  | b :: l => bind (f a b) (forM l f)
  end.

End Monad.

Declare Scope go_scope.
Delimit Scope go_scope with go.
Notation "x <- m ;; k" := (bind m (fun x => k))
  (at level 100, m at next level, right associativity) : go_scope.
Notation "m ;; k" := (bind m (fun _ => k))
  (at level 100, right associativity) : go_scope.
Local Open Scope go_scope.

Section Provider.

Context {host : Host} {St : Type} {client : shamanDNS St}.

(** *** [Domains] *)

Definition Domains (p : ShamanProvider)
  : M (St := St) (DomainsResponse * option error) :=
  r <- call GetDomains EvGetDomains ;;
  match r with
  | Err err => ret ([], Some err)
  | Ok res =>
      ret (fold_left
             (fun result d =>
                if negb (Match (domainFilter p) d) then result
                else result ++ [d])
             res [], None)
  end.

(** *** [sameShamanDNSRecord] *)

Definition sameShamanDNSRecord (left right : DNSRecord) : bool :=
  String.eqb (DNSRecord.Class left) (DNSRecord.Class right)
  && String.eqb (DNSRecord.Type_ left) (DNSRecord.Type_ right)
  && String.eqb (DNSRecord.Address left) (DNSRecord.Address right).

(** *** [shamanGroupByNameAndType] *)

(** One turn of the first loop: [groups[groupBy] = append(...)]. *)
Definition groupStep (domain : string)
    (groups : gmap string (list DNSRecordResponse))
    (r : DNSRecordResponse) : gmap string (list DNSRecordResponse) :=
  if negb (SupportedRecordType (DNSRecordResponse.Type_ r)) then groups
  else
    let groupBy := domain +:+ DNSRecordResponse.Type_ r in
    let groups :=
      match groups !! groupBy with
      | Some _ => groups
      | None => <[groupBy := []]> groups
      end in
    <[groupBy := default [] (groups !! groupBy) ++ [r]]> groups.

(** One turn of the second loop. No group is empty ([groupStep_nonempty]),
    so [records[0]] is in range. *)
Definition endpointStep (domain : string) (endpoints : list Endpoint)
    (kv : string * list DNSRecordResponse) : list Endpoint :=
  let records := kv.2 in
  let targets := map DNSRecordResponse.Address records in
  match records with
  | [] => endpoints
  | r0 :: _ =>
      endpoints ++
        [NewEndpointWithTTL domain (DNSRecordResponse.Type_ r0)
           (uint8 (DNSRecordResponse.TTL r0)) targets]
  end.

Definition shamanGroupByNameAndType (seed : list nat)
    (domainRecords : DomainResponse) : list Endpoint :=
  let domain := DomainResponse.Domain domainRecords in
  let groups :=
    fold_left (groupStep domain) (DomainResponse.Records domainRecords) ∅ in
  fold_left (endpointStep domain) (rangeMap seed groups) [].

(** *** [Records]

    The loop ranges over a map once for every domain; [seeds i] is the
    order of the range for the domain at index [i]. *)

Fixpoint recordsLoop (seeds : nat -> list nat) (domains : list string)
    (endpoints : list Endpoint)
  : M (St := St) (list Endpoint * option error) :=
  match domains with
  | [] => ret (endpoints, None)
  | domain :: domains =>
      r <- call (GetRecords domain) (EvGetRecords domain) ;;
      match r with
      | Err err => ret ([], Some err)
      | Ok records =>
          recordsLoop (fun i => seeds (S i)) domains
            (endpoints ++ shamanGroupByNameAndType (seeds O) records)
      end
  end.

Definition Records (p : ShamanProvider) (seeds : nat -> list nat)
  : M (St := St) (list Endpoint * option error) :=
  de <- Domains p ;;
  match de with
  | (_, Some err) => ret ([], Some err)
  | (domains, None) => recordsLoop seeds domains []
  end.

(** *** [newShamanChanges] *)

(** The orders in which one call ranges over its maps: over
    [allendpoints], over [groups], and over the map of the actions of
    each domain. *)
Record RangeSeeds := mkRangeSeeds {
  allendpointsSeed : list nat;
  groupsSeed : list nat;
  actionsSeed : string -> list nat;
}.

(** The map literal with the three actions as keys. *)
Definition actionsMap {V : Type} (create update delete : V)
  : gmap string V :=
  <[shamanCreate := create]>
    (<[shamanUpdate := update]> (<[shamanDelete := delete]> ∅)).

(** [resourceRecordSet]: one record for every target. The TTL goes through
    [int] and then [uint8]; both keep the value modulo 256. *)
Definition resourceRecordSet (e : Endpoint) : list DNSRecord :=
  let ttl :=
    if IsConfigured (RecordTTL e) then RecordTTL e
    else defaultShamanRecordTTL in
  map (fun target =>
         {| DNSRecord.TTL := uint8 ttl;
            DNSRecord.Type_ := RecordType e;
            DNSRecord.Address := target;
            DNSRecord.Class := defaultShamanRecordClass |})
    (Targets e).

(** One turn of the inner loop over the endpoints of [action]. *)
Definition addEndpoint (action : string)
    (groups : gmap string (gmap string (list DNSRecord))) (e : Endpoint)
  : gmap string (gmap string (list DNSRecord)) :=
  let groupBy := DNSName e in
  let groups :=
    match groups !! groupBy with
    | Some _ => groups
    | None => <[groupBy := actionsMap [] [] []]> groups
    end in
  let actions := default ∅ (groups !! groupBy) in
  <[groupBy :=
      <[action := default [] (actions !! action) ++ resourceRecordSet e]>
        actions]> groups.

Definition groupEndpoints (seed : list nat)
    (allendpoints : gmap string (list Endpoint))
  : gmap string (gmap string (list DNSRecord)) :=
  fold_left
    (fun groups ae => fold_left (addEndpoint ae.1) ae.2 groups)
    (rangeMap seed allendpoints) ∅.

(** One turn of the loop over [groups]. [changes] is declared before the
    loop and lives across its turns. *)
Definition domainStep (o : RangeSeeds)
    (st : list shamanChangeSet * list shamanChange)
    (dv : string * gmap string (list DNSRecord))
  : list shamanChangeSet * list shamanChange :=
  let '(changes, changesResponse) := st in
  let '(d, v) := dv in
  let changeSet : list shamanChangeSet := [] in
  let changes :=
    fold_left
      (fun changes avv =>
         let change := {| Domain.Domain := d; Domain.Records := avv.2 |} in
         changes ++
           [{| shamanChangeSet.Action := avv.1;
               shamanChangeSet.ResourceRecordSet := change |}])
      (rangeMap (actionsSeed o d) v) changes in
  let changeSet := changeSet ++ changes in
  let domainChange :=
    {| shamanChange.Domain := d; shamanChange.Changes := changeSet |} in
  (changes, changesResponse ++ [domainChange]).

Definition newShamanChanges (o : RangeSeeds)
    (endpointsCreate endpointsUpdate endpointsDelete : list Endpoint)
  : list shamanChange :=
  let allendpoints :=
    actionsMap endpointsCreate endpointsUpdate endpointsDelete in
  let groups := groupEndpoints (allendpointsSeed o) allendpoints in
  (fold_left (domainStep o) (rangeMap (groupsSeed o) groups) ([], [])).2.

(** *** [submitChanges] *)

Definition domainFound (domains : DomainsResponse) (name : string) : Z :=
  fold_left (fun found d => if String.eqb d name then 1 else found)
    domains 0.

(** [currentChangeSet]: the first change set with the action, or
    [&shamanChangeSet{}]. *)
Fixpoint currentChangeSet (action : string)
    (changes : list shamanChangeSet) : shamanChangeSet :=
  match changes with
  | [] => shamanChangeSet.zero
  | changeset :: changes =>
      if String.eqb (shamanChangeSet.Action changeset) action
      then changeset
      else currentChangeSet action changes
  end.

Definition createRecord (domain : string)
    (plannedRecords : list DNSRecord) (ccs : DNSRecord)
  : M (St := St) (list DNSRecord) :=
  proceed <-
    forM plannedRecords
      (fun proceed pr =>
         if sameShamanDNSRecord pr ccs then
           log (LogRecord Error
                  "Record requested to be created but already exists."
                  domain ccs shamanCreate) ;;
           ret false
         else ret proceed)
      true ;;
  if proceed : bool then
    log (LogRecord Info "Record requested to be created."
           domain ccs shamanCreate) ;;
    ret (plannedRecords ++ [ccs])
  else ret plannedRecords.

Definition updateRecord (domain : string)
    (plannedRecords : list DNSRecord) (ccs : DNSRecord)
  : M (St := St) (list DNSRecord) :=
  pf <-
    forM (imap pair plannedRecords)
      (fun (pf : list DNSRecord * bool) (ipr : nat * DNSRecord) =>
         if sameShamanDNSRecord ipr.2 ccs then
           log (LogRecord Info "Record requested to be modified."
                  domain ccs shamanUpdate) ;;
           ret (<[ipr.1 :=
                    {| DNSRecord.Type_ := DNSRecord.Type_ ccs;
                       DNSRecord.TTL := DNSRecord.TTL ccs;
                       DNSRecord.Class := DNSRecord.Class ccs;
                       DNSRecord.Address := DNSRecord.Address ccs |}]>
                  pf.1, true)
         else ret pf)
      (plannedRecords, false) ;;
  if negb pf.2 then
    log (LogRecord Error
           "Record requested to be modified but it does not exist."
           domain ccs shamanUpdate) ;;
    ret pf.1
  else ret pf.1.

Definition deleteRecord (domain : string)
    (plannedRecords : list DNSRecord) (ccs : DNSRecord)
  : M (St := St) (list DNSRecord) :=
  let idx :=
    fold_left
      (fun (idx : Z) (ipr : nat * DNSRecord) =>
         if sameShamanDNSRecord ipr.2 ccs then Z.of_nat ipr.1 else idx)
      (imap pair plannedRecords) (-1) in
  if idx =? -1 then
    log (LogRecord Error
           "Record requested to be deleted but it does not exist."
           domain ccs shamanDelete) ;;
    ret plannedRecords
  else
    log (LogRecord Info "Record requested to be deleted."
           domain ccs shamanDelete) ;;
    ret (take (Z.to_nat idx) plannedRecords
           ++ drop (Z.to_nat (idx + 1)) plannedRecords).

(** The records of a change set of [c] with the given action. *)
Definition requested (action : string) (c : shamanChange)
  : list DNSRecord :=
  Domain.Records
    (shamanChangeSet.ResourceRecordSet
       (currentChangeSet action (shamanChange.Changes c))).

(** One turn of the planning loop; [Err] is the [return err] in it. *)
Definition planChange (domains : DomainsResponse) (c : shamanChange)
  : M (St := St) (result Domain) :=
  let domain := shamanChange.Domain c in
  seeded <-
    (if domainFound domains domain =? 1 then
       r <- call (GetRecords domain) (EvGetRecords domain) ;;
       match r with
       | Err err => ret (Err err)
       | Ok records =>
           ret (Ok (fold_left
                      (fun plannedRecords record =>
                         plannedRecords ++
                           [{| DNSRecord.TTL := DNSRecordResponse.TTL record;
                               DNSRecord.Class :=
                                 DNSRecordResponse.Class record;
                               DNSRecord.Type_ :=
                                 DNSRecordResponse.Type_ record;
                               DNSRecord.Address :=
                                 DNSRecordResponse.Address record |}])
                      (DomainResponse.Records records) []))
       end
     else ret (Ok [])) ;;
  match seeded with
  | Err err => ret (Err err)
  | Ok plannedRecords =>
      plannedRecords <-
        forM (requested shamanCreate c) (createRecord domain)
          plannedRecords ;;
      plannedRecords <-
        forM (requested shamanUpdate c) (updateRecord domain)
          plannedRecords ;;
      plannedRecords <-
        forM (requested shamanDelete c) (deleteRecord domain)
          plannedRecords ;;
      ret (Ok {| Domain.Domain := domain;
                 Domain.Records := plannedRecords |})
  end.

Fixpoint planChanges (domains : DomainsResponse)
    (changes : list shamanChange) (plannedDomains : list Domain)
  : M (St := St) (result (list Domain)) :=
  match changes with
  | [] => ret (Ok plannedDomains)
  | c :: changes =>
      r <- planChange domains c ;;
      match r with
      | Err err => ret (Err err)
      | Ok pd => planChanges domains changes (plannedDomains ++ [pd])
      end
  end.

(** One turn of the loop that applies the plan. *)
Definition applyDomain (_ : unit) (pd : Domain) : M (St := St) unit :=
  if (0 <? length (Domain.Records pd))%nat then
    r <- call (ReplaceDomainRecords (Domain.Domain pd) (Domain.Records pd))
           (EvReplaceDomainRecords (Domain.Domain pd) (Domain.Records pd)) ;;
    match r with
    | Err err =>
        log (LogErrorf "Mr Clouseau, we had an error with domain %v: %v"
               (Domain.Domain pd) err)
    | Ok _ =>
        log (LogDomain Debug "Record set applied to domain."
               (Domain.Domain pd) (Domain.Records pd))
    end
  else
    r <- call (DeleteDomain (Domain.Domain pd))
           (EvDeleteDomain (Domain.Domain pd)) ;;
    match r with
    | Err err =>
        log (LogErrorf "Mr Kato, we had an error with domain %v: %v"
               (Domain.Domain pd) err)
    | Ok _ =>
        log (LogDomain Debug "Domain delete due to empty recordset."
               (Domain.Domain pd) (Domain.Records pd))
    end.

Definition submitChanges (p : ShamanProvider)
    (changes : list shamanChange) : M (St := St) (option error) :=
  if (length changes =? 0)%nat then ret None
  else
    de <- Domains p ;;
    match de with
    | (_, Some err) => ret (Some err)
    | (domains, None) =>
        r <- planChanges domains changes [] ;;
        match r with
        | Err err => ret (Some err)
        | Ok plannedDomains =>
            if DryRun p then ret None
            else forM plannedDomains applyDomain tt ;; ret None
        end
    end.

(** *** [ApplyChanges] *)

Definition ApplyChanges (p : ShamanProvider) (o : RangeSeeds)
    (changes : plan.Changes) : M (St := St) (option error) :=
  let combinedChanges :=
    newShamanChanges o (plan.Create changes) (plan.UpdateNew changes)
      (plan.Delete changes) in
  submitChanges p combinedChanges.

(** The provider [p] with dry-run mode set to [b]. *)
Definition withDryRun (b : bool) (p : ShamanProvider) : ShamanProvider :=
  {| domainFilter := domainFilter p; DryRun := b |}.

(** *** Notions of the statements below *)

(** The supported records of a domain that go to the group [k]. *)
Definition groupOf (domain k : string) (rs : list DNSRecordResponse)
  : list DNSRecordResponse :=
  List.filter
    (fun r => SupportedRecordType (DNSRecordResponse.Type_ r)
              && String.eqb (domain +:+ DNSRecordResponse.Type_ r) k)
    rs.

(** The endpoint of a group of records. *)
Definition groupEndpoint (domain : string)
    (records : list DNSRecordResponse) : Endpoint :=
  match records with
  | [] => endpoint.zero
  | r0 :: _ =>
      NewEndpointWithTTL domain (DNSRecordResponse.Type_ r0)
        (uint8 (DNSRecordResponse.TTL r0))
        (map DNSRecordResponse.Address records)
  end.

Definition typeOfGroup (records : list DNSRecordResponse) : string :=
  match records with
  | [] => ""
  | r0 :: _ => DNSRecordResponse.Type_ r0
  end.

(** The records of a response with the type [t]. *)
Definition recordsOfType (t : string) (rs : list DNSRecordResponse)
  : list DNSRecordResponse :=
  List.filter (fun r => String.eqb (DNSRecordResponse.Type_ r) t) rs.

(** The endpoint of the records of type [t] of a domain: all their
    addresses, the type and the TTL of the first. *)
Definition typeEndpoint (domain t : string) (rs : list DNSRecordResponse)
  : Endpoint :=
  groupEndpoint domain (recordsOfType t rs).

(** The supported types [ts] of a response, each once. *)
Definition supportedTypes (resp : DomainResponse) (ts : list string)
  : Prop :=
  NoDup ts /\
  forall t, t ∈ ts <->
    SupportedRecordType t = true /\
    exists r, r ∈ DomainResponse.Records resp
              /\ DNSRecordResponse.Type_ r = t.

(** The response without the records of unsupported types. *)
Definition dropUnsupported (resp : DomainResponse) : DomainResponse :=
  {| DomainResponse.Domain := DomainResponse.Domain resp;
     DomainResponse.Records :=
       List.filter
         (fun r => SupportedRecordType (DNSRecordResponse.Type_ r))
         (DomainResponse.Records resp) |}.

(** The endpoints given with an action. *)
Definition endpointsOf (a : string) (cr up de : list Endpoint)
  : list Endpoint :=
  if String.eqb a shamanCreate then cr
  else if String.eqb a shamanUpdate then up else de.

(** The records asked for a domain by the endpoints of one list. *)
Definition recordsFor (d : string) (endpoints : list Endpoint)
  : list DNSRecord :=
  flat_map resourceRecordSet
    (List.filter (fun e => String.eqb (DNSName e) d) endpoints).

(** The turns of the two loops over [allendpoints], one after the
    other: an action and an endpoint each. *)
Definition work (kvs : list (string * list Endpoint))
  : list (string * Endpoint) :=
  flat_map (fun ae => map (pair ae.1) ae.2) kvs.

(** The records asked for the domain [d] with the action [a] in the
    turns [ws]. *)
Definition recordsForW (d a : string) (ws : list (string * Endpoint))
  : list DNSRecord :=
  flat_map resourceRecordSet
    (map snd
       (List.filter
          (fun we => String.eqb we.1 a && String.eqb (DNSName we.2) d)
          ws)).

(** The group of the domain [d] after the turns [ws]. *)
Definition groupAfter (ws : list (string * Endpoint)) (d : string)
  : option (gmap string (list DNSRecord)) :=
  if existsb (fun we => String.eqb (DNSName we.2) d) ws then
    Some (actionsMap (recordsForW d shamanCreate ws)
            (recordsForW d shamanUpdate ws)
            (recordsForW d shamanDelete ws))
  else None.

(** The change sets one turn of the loop over [groups] adds to
    [changes]. *)
Definition setsOf (o : RangeSeeds)
    (dv : string * gmap string (list DNSRecord)) : list shamanChangeSet :=
  map (fun avv =>
         {| shamanChangeSet.Action := avv.1;
            shamanChangeSet.ResourceRecordSet :=
              {| Domain.Domain := dv.1; Domain.Records := avv.2 |} |})
    (rangeMap (actionsSeed o dv.1) dv.2).

End Provider.

(** The client [c] answering without the records of unsupported types. *)
Definition withoutUnsupported {host : Host} {St : Type} (c : shamanDNS St)
  : shamanDNS St := {|
  GetDomains := GetDomains (shamanDNS := c);
  GetRecords := fun domainName s =>
    match GetRecords (shamanDNS := c) domainName s with
    | (Ok resp, s') => (Ok (dropUnsupported resp), s')
    | (Err err, s') => (Err err, s')
    end;
  DeleteDomain := DeleteDomain (shamanDNS := c);
  ReplaceDomainRecords := ReplaceDomainRecords (shamanDNS := c);
|}.

(** A change of the remote service, without its answer. *)
Inductive Mutation :=
| Replace (domainName : string) (records : list DNSRecord)
| Remove (domainName : string).

Definition mutationOf (e : Event) : option Mutation :=
  match e with
  | EvReplaceDomainRecords d rs _ => Some (Replace d rs)
  | EvDeleteDomain d _ => Some (Remove d)
  | _ => None
  end.

(** The change the plan of a domain asks for. *)
Definition planned (pd : Domain) : Mutation :=
  match Domain.Records pd with
  | [] => Remove (Domain.Domain pd)
  | _ :: _ => Replace (Domain.Domain pd) (Domain.Records pd)
  end.

(** The error a result stands for. *)
Definition errorOf {A : Type} (r : result A) : option error :=
  match r with
  | Ok _ => None
  | Err err => Some err
  end.

(** Code that only logs. *)
Definition Quiet {St A : Type} (m : M (St := St) A) : Prop :=
  forall w, remote (m w).2 = remote w /\ trace (m w).2 = trace w.

(** Code that adds only fetches to the trace, and whose result is an error
    exactly when a fetch failed. *)
Definition Fetching {St A : Type} (m : M (St := St) (result A)) : Prop :=
  forall w, exists evs,
    trace (m w).2 = trace w ++ evs /\
    omap mutationOf evs = [] /\
    fetchError evs = errorOf (m w).1.

(** *** Notions of the statements about the planning *)

(** What the loop over the records to create does to the planned records. *)
Definition createPlanned (plannedRecords : list DNSRecord) (ccs : DNSRecord)
  : list DNSRecord :=
  if existsb (fun pr => sameShamanDNSRecord pr ccs) plannedRecords
  then plannedRecords
  else plannedRecords ++ [ccs].

(** What the loop over the records to update does to them. *)
Definition updatePlanned (plannedRecords : list DNSRecord) (ccs : DNSRecord)
  : list DNSRecord :=
  map (fun pr => if sameShamanDNSRecord pr ccs then ccs else pr)
    plannedRecords.

(** What the loop over the records to delete does to them: the last planned
    record equal to [ccs] goes. *)
Fixpoint deletePlanned (plannedRecords : list DNSRecord) (ccs : DNSRecord)
  : list DNSRecord :=
  match plannedRecords with
  | [] => []
  | pr :: rest =>
      if existsb (fun pr => sameShamanDNSRecord pr ccs) rest
      then pr :: deletePlanned rest ccs
      else if sameShamanDNSRecord pr ccs then rest else pr :: rest
  end.

(** The index of the last planned record equal to [ccs]. *)
Fixpoint lastIndex (plannedRecords : list DNSRecord) (ccs : DNSRecord) : nat :=
  match plannedRecords with
  | [] => O
  | pr :: rest =>
      if existsb (fun pr => sameShamanDNSRecord pr ccs) rest
      then S (lastIndex rest ccs)
      else O
  end.

(** What [sameShamanDNSRecord] compares. *)
Definition recordKey (r : DNSRecord) : string * string * string :=
  (DNSRecord.Class r, DNSRecord.Type_ r, DNSRecord.Address r).

(** No two planned records are equal for [sameShamanDNSRecord]. *)
Definition distinctRecords (plannedRecords : list DNSRecord) : Prop :=
  NoDup (map recordKey plannedRecords).

(** A record of the remote service as a planned record. *)
Definition toDNSRecord (record : DNSRecordResponse) : DNSRecord :=
  {| DNSRecord.TTL := DNSRecordResponse.TTL record;
     DNSRecord.Class := DNSRecordResponse.Class record;
     DNSRecord.Type_ := DNSRecordResponse.Type_ record;
     DNSRecord.Address := DNSRecordResponse.Address record |}.

(** The plan of a domain from its current records and the change [c]:
    creates, then updates, then deletes. *)
Definition planRecords (current : list DNSRecord) (c : shamanChange)
  : list DNSRecord :=
  fold_left deletePlanned (requested shamanDelete c)
    (fold_left updatePlanned (requested shamanUpdate c)
       (fold_left createPlanned (requested shamanCreate c) current)).

(** The domain a change of the remote service is about. *)
Definition mutatedDomain (m : Mutation) : string :=
  match m with
  | Replace d _ => d
  | Remove d => d
  end.

(** The domain a fetch of records is about. *)
Definition fetchedDomain (e : Event) : option string :=
  match e with
  | EvGetRecords d _ => Some d
  | _ => None
  end.

End Shaman.

(** ** The construction of the provider *)

Module ShamanSetup.

Import Shaman.

(** The client library: [shaman.API] and [shaman.NewWithAPIToken]. *)
Class Library := {
  API : Type;
  NewWithAPIToken : string -> string -> result API;
}.

(** [NewShamanProvider], in the environment [getenv]. The provider comes
    with the API object its client wraps. *)
Definition NewShamanProvider {host : Host} {lib : Library}
    (getenv : string -> string) (domainFilter : DomainFilter) (dryRun : bool)
  : option (ShamanProvider * API) * option error :=
  if negb (String.eqb (getenv "SHAMAN_API_TOKEN") "") then
    let baseURL :=
      if negb (String.eqb (getenv "SHAMAN_BASE_URL") "")
      then getenv "SHAMAN_BASE_URL" else "" in
    match NewWithAPIToken (getenv "SHAMAN_API_TOKEN") baseURL with
    | Err err =>
        (None, Some ("failed to initialize shaman provider: " +:+ err))
    | Ok config =>
        (Some ({| Shaman.domainFilter := domainFilter;
                  Shaman.DryRun := dryRun |}, config), None)
    end
  else (None, Some "No api token provided").

End ShamanSetup.

(** ** Test doubles

    The values and the two mock clients of the provider's tests, a host with
    plain constructors, and an operating system with three paths. *)

Module Test.

Import Shaman.

Definition testHost : Host := {|
  NewEndpoint := fun dnsName recordType targets =>
    mkEndpoint dnsName targets recordType 0;
  NewEndpointWithTTL := fun dnsName recordType ttl targets =>
    mkEndpoint dnsName targets recordType ttl;
  IsConfigured := fun ttl => 0 <? ttl;
  SupportedRecordType := fun t =>
    existsb (String.eqb t) ["A"; "CNAME"; "SRV"; "TXT"];
  DomainFilter := list string;
  Match := fun filter d =>
    match filter with
    | [] => true
    | _ => existsb (String.eqb d) filter
    end;
|}.

Definition values2test_domains : DomainsResponse :=
  ["nanopack.io"; "www.3xmgroup.com"; "juanmatiasdelacamara.wordpress.com"].

Definition values2test_records : list DomainResponse :=
  [ DomainResponse.mk "nanopack.io"
      [DNSRecordResponse.mk 60 "IN" "A" "P. Sherman 42 Wallaby Way"];
    DomainResponse.mk "www.3xmgroup.com"
      [DNSRecordResponse.mk 60 "IN" "A" "0001 Cemetery Lane"];
    DomainResponse.mk "juanmatiasdelacamara.wordpress.com"
      [DNSRecordResponse.mk 60 "IN" "A" "Bag End, Bagshot Row, Hobbiton"] ].

(** [mockShamanClient]: [GetRecords] answers with the first of the test
    records whatever the domain. *)
Definition mockShamanClient : shamanDNS unit := {|
  GetDomains := fun s => (Ok values2test_domains, s);
  GetRecords := fun _ s =>
    (Ok (hd (DomainResponse.mk "" []) values2test_records), s);
  DeleteDomain := fun _ s => (Ok (mkMsgResponse ""), s);
  ReplaceDomainRecords := fun _ _ s => (Ok (DomainResponse.mk "" []), s);
|}.

(** [mockShamanClientFail] *)
Definition mockShamanClientFail : shamanDNS unit := {|
  GetDomains := fun s => (Err "Can't get domains", s);
  GetRecords := fun _ s => (Err "Where in the World Is Carmen Sandiego", s);
  DeleteDomain := fun _ s =>
    (Err "Be yourself, everyone else is already taken", s);
  ReplaceDomainRecords := fun _ _ s =>
    (Err "I may not have gone where I intended to go, but I think I have ended up where I needed to be", s);
|}.

(** A client that lists and fetches domains but refuses every change. *)
Definition readOnlyClient : shamanDNS unit := {|
  GetDomains := fun s => (Ok values2test_domains, s);
  GetRecords := fun _ s =>
    (Ok (hd (DomainResponse.mk "" []) values2test_records), s);
  DeleteDomain := fun _ s =>
    (Err "Be yourself, everyone else is already taken", s);
  ReplaceDomainRecords := fun _ _ s =>
    (Err "I may not have gone where I intended to go, but I think I have ended up where I needed to be", s);
|}.

(** A remote service with one domain and one record, of type SOA. *)
Definition soaResponse : DomainResponse :=
  DomainResponse.mk "example.org"
    [DNSRecordResponse.mk 60 "IN" "SOA" "ns1.example.org"].

Definition soaClient : shamanDNS unit := {|
  GetDomains := fun s => (Ok ["example.org"], s);
  GetRecords := fun _ s => (Ok soaResponse, s);
  DeleteDomain := fun _ s => (Ok (mkMsgResponse ""), s);
  ReplaceDomainRecords := fun _ _ s => (Ok (DomainResponse.mk "" []), s);
|}.

Definition world0 : World unit := mkWorld tt [] [].

Definition provider (dryRun : bool) : ShamanProvider (host := testHost) :=
  {| domainFilter := ([] : @DomainFilter testHost); DryRun := dryRun |}.

(** Every map ranged over in the order of its entries. *)
Definition seeds0 : RangeSeeds := mkRangeSeeds [] [] (fun _ => []).

(** The changes of [TestShamanApplyChanges]. *)
Definition testChanges : plan.Changes := {|
  plan.Create :=
    [ mkEndpoint "new.ext-dns-test.3xmgroup.com." ["target"] "" 0;
      mkEndpoint "new.ext-dns-test.unrelated.to." ["target"] "" 0 ];
  plan.Delete :=
    [ mkEndpoint "foobar.ext-dns-test.3xmgroup.com." ["target"] "" 0 ];
  plan.UpdateOld :=
    [ mkEndpoint "foobar.ext-dns-test.3xmgroup.com." ["target-old"] "" 0 ];
  plan.UpdateNew :=
    [ mkEndpoint "foobar.ext-dns-test.3xmgroup.com." ["target-new"] "" 0 ];
|}.

(** Two endpoints to create, of two domains. *)
Definition twoDomains : plan.Changes := {|
  plan.Create :=
    [ mkEndpoint "a.example.org" ["1.2.3.4"] "A" 0;
      mkEndpoint "b.example.org" ["5.6.7.8"] "A" 0 ];
  plan.UpdateOld := [];
  plan.UpdateNew := [];
  plan.Delete := [];
|}.

(** An operating system with a regular file, a directory, and nothing
    else. *)
Definition testOS : FileSource.OS := {|
  FileSource.File := list byte;
  FileSource.os_Stat := fun path =>
    if String.eqb path "/etc/endpoints.json" then
      Ok (FileSource.mkFileInfo false)
    else if String.eqb path "/etc" then Ok (FileSource.mkFileInfo true)
    else Err "no such file or directory";
  FileSource.os_IsNotExist := fun e =>
    String.eqb e "no such file or directory";
  FileSource.os_Open := fun path =>
    if String.eqb path "/etc/endpoints.json" then Ok [x5b; x5d]
    else Err "no such file or directory";
  FileSource.ioutil_ReadAll := fun f => Ok f;
  FileSource.json_Unmarshal := fun _ =>
    Ok [ FileSource.mkSourceEndpoint "dev69" ["192.168.96.101"];
         FileSource.mkSourceEndpoint "" ["192.168.96.95"];
         FileSource.mkSourceEndpoint "JSLJitsi" [] ];
|}.

End Test.

(** ** More test doubles *)

Module TestMore.

Import Shaman.

(** An operating system whose one file is empty. *)
Definition emptyFileOS : FileSource.OS := {|
  FileSource.File := list byte;
  FileSource.os_Stat := fun _ => Ok (FileSource.mkFileInfo false);
  FileSource.os_IsNotExist := fun _ => false;
  FileSource.os_Open := fun _ => Ok [];
  FileSource.ioutil_ReadAll := fun f => Ok f;
  FileSource.json_Unmarshal := fun _ => Err "unexpected end of JSON input";
|}.

(** A client library that takes every token but the empty one. *)
Definition library : ShamanSetup.Library := {|
  ShamanSetup.API := string * string;
  ShamanSetup.NewWithAPIToken := fun token baseURL =>
    if String.eqb token "" then Err "invalid credentials: token is empty"
    else Ok (token, baseURL);
|}.

(** An environment with a token and no base URL. *)
Definition environment (name : string) : string :=
  if String.eqb name "SHAMAN_API_TOKEN" then "secret" else "".

Definition recordA : DNSRecord := DNSRecord.mk 60 "IN" "A" "1.2.3.4".
Definition recordA' : DNSRecord := DNSRecord.mk 30 "IN" "A" "1.2.3.4".
Definition recordB : DNSRecord := DNSRecord.mk 60 "IN" "A" "5.6.7.8".

(** Endpoints of one domain, new.example.com. *)
Definition oneDomain : list Endpoint :=
  [ mkEndpoint "new.example.com" ["1.2.3.4"; "5.6.7.8"] "A" 0;
    mkEndpoint "new.example.com" ["1.2.3.4"] "A" 300 ].

End TestMore.

(** * Properties *)

(** ** Ranging over a map *)

Section RangeFacts.

Context {A : Type}.

Lemma rangeOrder_Permutation (seed : list nat) (l : list A) :
  rangeOrder seed l (length l) ≡ₚ l.
Proof.
  remember (length l) as n eqn:Hn.
  revert seed l Hn.
  induction n as [|n IH]; intros seed l Hn; cbn [rangeOrder].
  - symmetry in Hn. apply length_zero_iff_nil in Hn. by subst.
  - assert (Hi : (hd 0 seed mod length l < length l)%nat)
      by (apply Nat.mod_upper_bound; lia).
    destruct (lookup_lt_is_Some_2 l _ Hi) as [x Hx].
    rewrite Hx.
    transitivity (x :: delete (hd 0 seed mod length l)%nat l);
      [|symmetry; by apply delete_Permutation].
    constructor.
    apply IH.
    rewrite length_delete by eauto. lia.
Qed.

Lemma rangeOrder_complete (l l' : list A) :
  l ≡ₚ l' -> exists seed, rangeOrder seed l (length l) = l'.
Proof.
  revert l.
  induction l' as [|x l' IH]; intros l Hp.
  - apply Permutation_nil_r in Hp. subst. by exists [].
  - assert (Hx : x ∈ l) by (rewrite Hp; left).
    apply list_elem_of_lookup in Hx as [i Hi].
    pose proof (lookup_lt_Some _ _ _ Hi) as Hlt.
    assert (Hd : delete i l ≡ₚ l').
    { apply (Permutation_cons_inv (a := x)).
      by rewrite <- delete_Permutation. }
    destruct (IH _ Hd) as [seed Hseed].
    exists (i :: seed).
    destruct l as [|y l]; [cbn in Hlt; lia|].
    cbn [rangeOrder length hd tl].
    rewrite Nat.mod_small by (cbn in Hlt; lia).
    rewrite Hi. f_equal.
    rewrite length_delete in Hseed by eauto.
    cbn [length] in Hseed. by rewrite Nat.sub_1_r in Hseed.
Qed.

End RangeFacts.

Section RangeMapFacts.

Context {A : Type}.

Lemma rangeMap_Permutation (seed : list nat) (m : gmap string A) :
  rangeMap seed m ≡ₚ map_to_list m.
Proof. unfold rangeMap. apply rangeOrder_Permutation. Qed.

Lemma rangeMap_elem_of (seed : list nat) (m : gmap string A) k v :
  (k, v) ∈ rangeMap seed m <-> m !! k = Some v.
Proof. by rewrite rangeMap_Permutation, elem_of_map_to_list. Qed.

Lemma rangeMap_NoDup (seed : list nat) (m : gmap string A) :
  NoDup (rangeMap seed m).*1.
Proof. rewrite rangeMap_Permutation. apply NoDup_fst_map_to_list. Qed.

Lemma rangeMap_empty (seed : list nat) : rangeMap seed (∅ : gmap string A) = [].
Proof.
  apply Permutation_nil_r. rewrite rangeMap_Permutation.
  by rewrite map_to_list_empty.
Qed.

Lemma rangeMap_length (seed : list nat) (m : gmap string A) :
  length (rangeMap seed m) = size m.
Proof. by rewrite rangeMap_Permutation, length_map_to_list. Qed.

End RangeMapFacts.

(** ** The file source *)

Section FileSourceFacts.

Import FileSource.
Context {os : FileSource.OS} {host : Host}.

Lemma generateStep_endpointOf base eps i v :
  generateStep base eps (i, v) = <[i := Some (endpointOf base v)]> eps.
Proof.
  unfold generateStep, endpointOf.
  destruct (String.eqb (DnsName v) ""); [reflexivity|].
  destruct (Addresses v); reflexivity.
Qed.

Lemma generate_loop base (f : sourceEndpoints) :
  forall (filled : list (option Endpoint)),
    fold_left (generateStep base)
      (imap (fun i => pair (length filled + i)%nat) f)
      (filled ++ replicate (length f) None)
    = filled ++ map (fun v => Some (endpointOf base v)) f.
Proof.
  induction f as [|v f IH]; intros filled; [reflexivity|].
  cbn [imap fold_left length replicate map].
  rewrite generateStep_endpointOf, Nat.add_0_r.
  rewrite insert_app_r_alt by lia.
  rewrite Nat.sub_diag. cbn [insert list_insert].
  specialize (IH (filled ++ [Some (endpointOf base v)])).
  rewrite <- !app_assoc in IH. cbn [app] in IH.
  rewrite <- IH. f_equal.
  apply imap_ext. intros j x _. cbn.
  rewrite length_app. cbn. f_equal. lia.
Qed.

Lemma generateEndpoints_parsed fs f :
  readFileToStruct fs = (f, None) ->
  generateEndpoints fs
  = (map (fun v => Some (endpointOf (dnsNameBase fs) v)) f, None).
Proof.
  intros Hr. unfold generateEndpoints. rewrite Hr. f_equal.
  exact (generate_loop (dnsNameBase fs) f []).
Qed.

Lemma readFileToStruct_valid fs file data f :
  os_Open (fileName fs) = Ok file ->
  ioutil_ReadAll file = Ok data ->
  data <> [] ->
  json_Unmarshal data = Ok f ->
  readFileToStruct fs = (f, None).
Proof.
  intros Ho Hr Hd Hj. unfold readFileToStruct.
  rewrite Ho, Hr. destruct data as [|b data]; [done|].
  cbn [length Nat.eqb]. by rewrite Hj.
Qed.

(** C5. For a file that opens, reads and parses to the records [f],
    [Endpoints] answers without error with one endpoint for every record,
    in the order of the records: the endpoint of a record with a name and
    addresses is the host's [NewEndpoint] of the name, a dot and the base,
    the type A and the addresses as they are; the endpoint of a record
    without a name or without addresses is the empty endpoint. *)
Theorem Endpoints_one_per_record fs file data f :
  os_Open (fileName fs) = Ok file ->
  ioutil_ReadAll file = Ok data ->
  data <> [] ->
  json_Unmarshal data = Ok f ->
  exists eps,
    Endpoints fs = (eps, None) /\
    length eps = length f /\
    forall i v, f !! i = Some v ->
      exists e, eps !! i = Some (Some e) /\
        (DnsName v <> "" /\ Addresses v <> [] ->
           e = NewEndpoint (DnsName v +:+ "." +:+ dnsNameBase fs)
                 RecordTypeA (Addresses v)) /\
        (DnsName v = "" \/ Addresses v = [] -> e = endpoint.zero).
Proof.
  intros Ho Hr Hd Hj.
  pose proof (readFileToStruct_valid fs file data f Ho Hr Hd Hj) as Hf.
  apply generateEndpoints_parsed in Hf.
  eexists. split; [unfold Endpoints; rewrite Hf; reflexivity|].
  split; [by rewrite length_map|].
  intros i v Hv. exists (endpointOf (dnsNameBase fs) v).
  split.
  - change (map ?g f) with (g <$> f). by rewrite list_lookup_fmap, Hv.
  - unfold endpointOf. split.
    + intros [Hn Ha]. apply String.eqb_neq in Hn. rewrite Hn.
      by destruct (Addresses v).
    + intros [Hn | Ha].
      * apply String.eqb_eq in Hn. by rewrite Hn.
      * rewrite Ha. by destruct (String.eqb _ _).
Qed.

Lemma NewFileSource_stat_error base path e :
  os_Stat path = Err e ->
  (NewFileSource base path).1 = (None, Some e).
Proof.
  intros Hs. unfold NewFileSource. rewrite Hs.
  by destruct (os_IsNotExist e).
Qed.

Lemma NewFileSource_is_directory base path i :
  os_Stat path = Ok i -> IsDir i = true ->
  NewFileSource base path
  = ((None, None), [(Error, path +:+ " is a directory.")]).
Proof. intros Hs Hd. unfold NewFileSource. by rewrite Hs, Hd. Qed.

End FileSourceFacts.

(** The file of the test system: three records, the second without a name
    and the third without addresses. *)
Lemma Endpoints_one_per_record_witness :
  exists eps,
    FileSource.Endpoints (os := Test.testOS) (host := Test.testHost)
      (FileSource.mkFileSource "foo" "/etc/endpoints.json") = (eps, None) /\
    length eps = 3%nat.
Proof.
  destruct (Endpoints_one_per_record (os := Test.testOS) (host := Test.testHost)
              (FileSource.mkFileSource "foo" "/etc/endpoints.json")
              [x5b; x5d] [x5b; x5d]
              [ FileSource.mkSourceEndpoint "dev69" ["192.168.96.101"];
                FileSource.mkSourceEndpoint "" ["192.168.96.95"];
                FileSource.mkSourceEndpoint "JSLJitsi" [] ])
    as (eps & He & Hl & _);
    [reflexivity | reflexivity | discriminate | reflexivity |].
  exists eps. split; [exact He | exact Hl].
Defined.

(** C7. At a path that is a directory, [NewFileSource] logs that the path is
    a directory and answers with no source and with the [nil] error: [err] is
    the error of [os.Stat], which is [nil] in this branch. *)
Theorem NewFileSource_directory_nil_error :
  FileSource.NewFileSource (os := Test.testOS) "foo" "/etc"
  = ((None, None), [(Error, "/etc is a directory.")]).
Proof. reflexivity. Qed.

(** ** The provider: [Domains] and [Records] *)

Section ReadFacts.

Import Shaman.
Context {host : Host} {St : Type} {client : shamanDNS St}.

Lemma append_inj_l (s a b : string) : s +:+ a = s +:+ b -> a = b.
Proof. induction s as [|c s IH]; cbn; [done|]. intros [=]. auto. Qed.

Lemma fetchError_app evs evs' :
  fetchError (evs ++ evs')
  = match fetchError evs with
    | Some e => Some e
    | None => fetchError evs'
    end.
Proof.
  induction evs as [|ev evs IH]; [done|].
  destruct ev as [[]|? []|? ?|? ? ?]; cbn; auto.
Qed.

Lemma Domains_loop (f : DomainFilter) (res acc : list string) :
  fold_left
    (fun result d => if negb (Match f d) then result else result ++ [d])
    res acc
  = acc ++ List.filter (Match f) res.
Proof.
  revert acc. induction res as [|d res IH]; intros acc; cbn.
  - by rewrite app_nil_r.
  - rewrite IH. destruct (Match f d); cbn; [|done].
    by rewrite <- app_assoc.
Qed.

Lemma Domains_run (p : ShamanProvider) (w : World St) :
  Domains p w
  = match GetDomains (remote w) with
    | (Ok res, s) =>
        ((List.filter (Match (domainFilter p)) res, None),
         mkWorld s (trace w ++ [EvGetDomains (Ok res)]) (logs w))
    | (Err err, s) =>
        (([], Some err),
         mkWorld s (trace w ++ [EvGetDomains (Err err)]) (logs w))
    end.
Proof.
  unfold Domains, bind, call, ret.
  destruct (GetDomains (remote w)) as [[res|err] s]; [|done].
  by rewrite Domains_loop.
Qed.

(** C4. [Domains] asks the remote service for its domains once. When the
    service answers with the domains [res], [Domains] answers with the
    domains of [res] that match the filter, in the order of [res], and no
    error; when the service answers with an error, [Domains] answers with
    that error and no domain. *)
Theorem Domains_filter (p : ShamanProvider) (w : World St) :
  Domains p w
  = match GetDomains (remote w) with
    | (Ok res, s) =>
        ((List.filter (Match (domainFilter p)) res, None),
         mkWorld s (trace w ++ [EvGetDomains (Ok res)]) (logs w))
    | (Err err, s) =>
        (([], Some err),
         mkWorld s (trace w ++ [EvGetDomains (Err err)]) (logs w))
    end.
Proof.
  unfold Domains, bind, call, ret.
  destruct (GetDomains (remote w)) as [[res|err] s]; [|done].
  by rewrite Domains_loop.
Qed.

(** *** The groups of a response *)

Lemma groupStep_lookup domain groups seen r :
  (forall k, groups !! k
             = match groupOf domain k seen with [] => None | l => Some l end) ->
  forall k, groupStep domain groups r !! k
            = match groupOf domain k (seen ++ [r]) with
              | [] => None
              | l => Some l
              end.
Proof.
  intros Hinv k. unfold groupStep, groupOf in *.
  rewrite List.filter_app. cbn [List.filter].
  destruct (SupportedRecordType (DNSRecordResponse.Type_ r)); cbn [negb andb].
  2:{ rewrite app_nil_r. apply Hinv. }
  destruct (decide (domain +:+ DNSRecordResponse.Type_ r = k)) as [<-|Hne].
  - rewrite String.eqb_refl, lookup_insert_eq.
    specialize (Hinv (domain +:+ DNSRecordResponse.Type_ r)).
    destruct (groups !! _) as [l|] eqn:Hl.
    + rewrite Hl. cbn [default].
      destruct (List.filter _ seen) as [|x xs]; [done|].
      by injection Hinv as ->.
    + rewrite lookup_insert_eq. cbn [default].
      by destruct (List.filter _ seen).
  - apply String.eqb_neq in Hne as Hb. rewrite Hb, app_nil_r.
    rewrite lookup_insert_ne by done.
    destruct (groups !! (domain +:+ _)); [apply Hinv|].
    rewrite lookup_insert_ne by done. apply Hinv.
Qed.

Lemma groups_lookup domain rs :
  forall groups seen,
    (forall k, groups !! k
               = match groupOf domain k seen with
                 | [] => None
                 | l => Some l
                 end) ->
    forall k, fold_left (groupStep domain) rs groups !! k
              = match groupOf domain k (seen ++ rs) with
                | [] => None
                | l => Some l
                end.
Proof.
  induction rs as [|r rs IH]; intros groups seen Hinv k; cbn [fold_left].
  - rewrite app_nil_r. apply Hinv.
  - replace (seen ++ r :: rs) with ((seen ++ [r]) ++ rs)
      by (by rewrite <- app_assoc).
    apply IH. by apply groupStep_lookup.
Qed.

(** No group is empty: [records[0]] is in range. *)
Lemma groupStep_nonempty domain rs k g :
  fold_left (groupStep domain) rs ∅ !! k = Some g -> g <> [].
Proof.
  rewrite (groups_lookup domain rs ∅ []) by (intros; apply lookup_empty).
  rewrite app_nil_l.
  destruct (groupOf domain k rs); [done|]. by intros [= <-].
Qed.

Lemma group_is_type domain rs k g :
  fold_left (groupStep domain) rs ∅ !! k = Some g ->
  g = recordsOfType (typeOfGroup g) rs
  /\ k = domain +:+ typeOfGroup g
  /\ SupportedRecordType (typeOfGroup g) = true
  /\ exists r, r ∈ rs /\ DNSRecordResponse.Type_ r = typeOfGroup g.
Proof.
  rewrite (groups_lookup domain rs ∅ []) by (intros; apply lookup_empty).
  rewrite app_nil_l. intros Hg.
  assert (Hgo : g = groupOf domain k rs /\ g <> []).
  { destruct (groupOf domain k rs); [done|]. by injection Hg as <-. }
  destruct Hgo as [Hgo Hne].
  destruct g as [|r0 g']; [done|]. cbn [typeOfGroup].
  assert (Hr0 : In r0 (groupOf domain k rs)) by (rewrite <- Hgo; by left).
  apply filter_In in Hr0 as [Hin Hr0].
  apply andb_true_iff in Hr0 as [Hsup Hk]. apply String.eqb_eq in Hk.
  repeat split; [|done|done|].
  - rewrite Hgo. unfold groupOf, recordsOfType.
    apply List.filter_ext. intros r. subst k.
    destruct (String.eqb_spec (DNSRecordResponse.Type_ r)
                (DNSRecordResponse.Type_ r0)) as [->|Hne'].
    + by rewrite Hsup, String.eqb_refl.
    + destruct (String.eqb_spec (domain +:+ DNSRecordResponse.Type_ r)
                  (domain +:+ DNSRecordResponse.Type_ r0)) as [He|_].
      * apply append_inj_l in He. done.
      * apply andb_false_r.
  - exists r0. split; [by apply list_elem_of_In | done].
Qed.

Lemma endpoint_loop domain kvs :
  forall acc,
    Forall (fun kv : string * list DNSRecordResponse => kv.2 <> []) kvs ->
    fold_left (endpointStep domain) kvs acc
    = acc ++ map (fun kv => groupEndpoint domain kv.2) kvs.
Proof.
  induction kvs as [|[k g] kvs IH]; intros acc Hne; cbn [fold_left map].
  - by rewrite app_nil_r.
  - apply Forall_cons in Hne as [Hg Hne].
    rewrite IH by done. unfold endpointStep. cbn [snd] in *.
    destruct g as [|r0 g]; [done|]. cbn [groupEndpoint].
    by rewrite <- app_assoc.
Qed.

(** The endpoints of a response: one for every supported type in it. *)
Lemma shamanGroupByNameAndType_types seed (resp : DomainResponse) :
  exists ts,
    supportedTypes resp ts /\
    shamanGroupByNameAndType seed resp
    = map (fun t => typeEndpoint (DomainResponse.Domain resp) t
                      (DomainResponse.Records resp)) ts.
Proof.
  unfold shamanGroupByNameAndType.
  set (domain := DomainResponse.Domain resp).
  set (rs := DomainResponse.Records resp).
  set (groups := fold_left (groupStep domain) rs ∅).
  set (kvs := rangeMap seed groups).
  assert (Hkv : forall k g, (k, g) ∈ kvs -> groups !! k = Some g)
    by (intros k g; apply rangeMap_elem_of).
  exists (map (fun kv => typeOfGroup kv.2) kvs).
  split; [split|].
  - apply (NoDup_fmap_1 (String.append domain)).
    replace (String.append domain <$> map (fun kv => typeOfGroup kv.2) kvs)
      with (kvs.*1); [apply rangeMap_NoDup|].
    change (map ?f kvs) with (f <$> kvs).
    rewrite <- list_fmap_compose.
    apply list_fmap_ext. intros i [k g] Hi. cbn.
    apply list_elem_of_lookup_2, Hkv, group_is_type in Hi.
    by destruct Hi as (_ & -> & _).
  - intros t. split.
    + intros Ht. apply list_elem_of_In, in_map_iff in Ht as ([k g] & <- & Hin).
      apply list_elem_of_In, Hkv, group_is_type in Hin.
      cbn [snd]. by destruct Hin as (_ & _ & Hs & Hr).
    + intros (Hs & r & Hr & Ht).
      assert (Hr' : In r (groupOf domain (domain +:+ t) rs)).
      { apply filter_In. split; [by apply list_elem_of_In|].
        by rewrite Ht, Hs, String.eqb_refl. }
      pose proof (groups_lookup domain rs ∅ []
                    (fun k => lookup_empty k) (domain +:+ t)) as Hl.
      rewrite app_nil_l in Hl. fold groups in Hl.
      destruct (groupOf domain (domain +:+ t) rs) as [|r0 g0] eqn:Hg;
        [done|].
      apply list_elem_of_In, in_map_iff.
      exists (domain +:+ t, r0 :: g0). split.
      * apply group_is_type in Hl as (_ & Hk & _).
        cbn [snd]. by apply append_inj_l in Hk.
      * apply list_elem_of_In, rangeMap_elem_of, Hl.
  - rewrite endpoint_loop.
    + cbn [app]. rewrite map_map. apply map_ext_in.
      intros [k g] Hin. cbn [snd]. unfold typeEndpoint.
      apply list_elem_of_In, Hkv, group_is_type in Hin.
      by destruct Hin as (<- & _).
    + apply Forall_forall. intros [k g] Hin. cbn [snd].
      apply Hkv in Hin. by apply groupStep_nonempty in Hin.
Qed.

Lemma recordsLoop_endpoints (domains : list string) :
  forall (seeds : nat -> list nat) (acc : list Endpoint) (w : World St),
  exists evs,
    trace (recordsLoop seeds domains acc w).2 = trace w ++ evs /\
    (recordsLoop seeds domains acc w).1.2 = fetchError evs /\
    match (recordsLoop seeds domains acc w).1.2 with
    | Some _ => (recordsLoop seeds domains acc w).1.1 = []
    | None =>
        exists resps tss,
          evs = zip_with (fun d r => EvGetRecords d (Ok r)) domains resps /\
          length resps = length domains /\
          Forall2 supportedTypes resps tss /\
          (recordsLoop seeds domains acc w).1.1
          = acc ++ concat
              (zip_with
                 (fun r ts =>
                    map (fun t => typeEndpoint (DomainResponse.Domain r) t
                                    (DomainResponse.Records r)) ts)
                 resps tss)
    end.
Proof.
  induction domains as [|domain domains IH]; intros seeds acc w.
  - exists []. cbn. rewrite !app_nil_r. repeat split.
    exists [], []. cbn. by rewrite app_nil_r.
  - cbn [recordsLoop]. unfold bind, call.
    destruct (GetRecords domain (remote w)) as [[resp|err] s].
    + set (w' := mkWorld s (trace w ++ [EvGetRecords domain (Ok resp)])
                   (logs w)).
      destruct (IH (fun i => seeds (S i))
                  (acc ++ shamanGroupByNameAndType (seeds O) resp) w')
        as (evs & Htr & Herr & Hres).
      exists (EvGetRecords domain (Ok resp) :: evs).
      split; [by rewrite Htr; cbn; rewrite <- app_assoc|].
      split; [done|].
      destruct ((recordsLoop _ domains _ w').1.2); [done|].
      destruct Hres as (resps & tss & -> & Hlen & Hts & ->).
      destruct (shamanGroupByNameAndType_types (seeds O) resp)
        as (ts & Hsup & ->).
      exists (resp :: resps), (ts :: tss). cbn.
      repeat split; [by rewrite Hlen | by constructor |].
      by rewrite <- app_assoc.
    + exists [EvGetRecords domain (Err err)]. by cbn.
Qed.

(** C3. [Records] returns the first error a fetch answers with, and then
    no endpoint. When no fetch fails it has asked for the domains and then
    for the records of every domain that matches the filter, and it returns,
    for these domains in order, one endpoint for every supported record type
    in the answer: its targets are the addresses of the records of that
    type, its type and its TTL those of the first of them. *)
Theorem Records_endpoints (p : ShamanProvider) (seeds : nat -> list nat)
    (w : World St) :
  exists evs,
    trace (Records p seeds w).2 = trace w ++ evs /\
    (Records p seeds w).1.2 = fetchError evs /\
    match (Records p seeds w).1.2 with
    | Some _ => (Records p seeds w).1.1 = []
    | None =>
        exists ds resps tss,
          evs = EvGetDomains (Ok ds)
                :: zip_with (fun d r => EvGetRecords d (Ok r))
                     (List.filter (Match (domainFilter p)) ds) resps /\
          length resps = length (List.filter (Match (domainFilter p)) ds) /\
          Forall2 supportedTypes resps tss /\
          (Records p seeds w).1.1
          = concat
              (zip_with
                 (fun r ts =>
                    map (fun t => typeEndpoint (DomainResponse.Domain r) t
                                    (DomainResponse.Records r)) ts)
                 resps tss)
    end.
Proof.
  unfold Records, bind. rewrite Domains_run.
  destruct (GetDomains (remote w)) as [[ds|err] s].
  - set (w' := mkWorld s _ _).
    destruct (recordsLoop_endpoints
                (List.filter (Match (domainFilter p)) ds) seeds [] w')
      as (evs & Htr & Herr & Hres).
    exists (EvGetDomains (Ok ds) :: evs).
    split; [by rewrite Htr; cbn; rewrite <- app_assoc|].
    split; [done|].
    destruct ((recordsLoop _ _ _ w').1.2); [done|].
    destruct Hres as (resps & tss & -> & Hlen & Hts & Heps).
    by exists ds, resps, tss.
  - exists [EvGetDomains (Err err)]. by cbn.
Qed.

(** *** Records of unsupported types *)

Lemma groupStep_unsupported domain rs :
  forall groups,
    fold_left (groupStep domain) rs groups
    = fold_left (groupStep domain)
        (List.filter
           (fun r => SupportedRecordType (DNSRecordResponse.Type_ r)) rs)
        groups.
Proof.
  induction rs as [|r rs IH]; intros groups; [done|].
  cbn [fold_left List.filter].
  destruct (SupportedRecordType (DNSRecordResponse.Type_ r)) eqn:Hs.
  - cbn [fold_left]. apply IH.
  - rewrite <- IH. f_equal. unfold groupStep. by rewrite Hs.
Qed.

Lemma shamanGroupByNameAndType_dropUnsupported seed resp :
  shamanGroupByNameAndType seed (dropUnsupported resp)
  = shamanGroupByNameAndType seed resp.
Proof.
  unfold shamanGroupByNameAndType, dropUnsupported.
  cbn [DomainResponse.Domain DomainResponse.Records].
  by rewrite <- groupStep_unsupported.
Qed.

Lemma recordsLoop_withoutUnsupported (domains : list string) :
  forall seeds acc (w w' : World St),
    remote w = remote w' ->
    (recordsLoop (client := withoutUnsupported client) seeds domains acc w).1
    = (recordsLoop (client := client) seeds domains acc w').1.
Proof.
  induction domains as [|domain domains IH]; intros seeds acc w w' Hw;
    [done|].
  cbn [recordsLoop]. unfold bind, call. cbn [GetRecords withoutUnsupported].
  rewrite Hw.
  destruct (GetRecords domain (remote w')) as [[resp|err] s]; [|done].
  rewrite shamanGroupByNameAndType_dropUnsupported.
  by apply IH.
Qed.

(** C10. A record of an unsupported type leaves no mark on what [Records]
    returns: the endpoints of a response are those of the response without
    its records of unsupported types, every endpoint is that of a supported
    type, and [Records] returns the same endpoints and the same error as it
    does when the remote service leaves such records out. *)
Theorem Records_skips_unsupported :
  (forall seed resp,
      shamanGroupByNameAndType seed resp
      = shamanGroupByNameAndType seed (dropUnsupported resp)) /\
  (forall seed resp e,
      e ∈ shamanGroupByNameAndType seed resp ->
      exists t, SupportedRecordType t = true /\
                e = typeEndpoint (DomainResponse.Domain resp) t
                      (DomainResponse.Records resp)) /\
  (forall p seeds (w : World St),
      (Records (client := withoutUnsupported client) p seeds w).1
      = (Records (client := client) p seeds w).1).
Proof.
  split; [|split].
  - intros. symmetry. apply shamanGroupByNameAndType_dropUnsupported.
  - intros seed resp e He.
    destruct (shamanGroupByNameAndType_types seed resp)
      as (ts & [_ Hts] & Heq).
    rewrite Heq in He.
    apply list_elem_of_In, in_map_iff in He as (t & <- & Ht).
    exists t. split; [|done].
    by apply list_elem_of_In, Hts in Ht as [? _].
  - intros p seeds w. unfold Records, bind.
    change (Domains (client := withoutUnsupported client) p w)
      with (Domains (client := client) p w).
    destruct (Domains p w) as [[ds [err|]] w']; [done|].
    by apply recordsLoop_withoutUnsupported.
Qed.

End ReadFacts.

(** C3, as the specification words it, fails on a record of an unsupported
    type: the remote service has the domain example.org with a record of type
    SOA, and [Records] returns no endpoint for it, and no error. *)
Lemma Records_no_endpoint_for_unsupported_type :
  let r := Shaman.Records (host := Test.testHost) (client := Test.soaClient)
             (Test.provider false) (fun _ => []) Test.world0 in
  Shaman.trace r.2
  = [Shaman.EvGetDomains (Ok ["example.org"]);
     Shaman.EvGetRecords "example.org" (Ok Test.soaResponse)]
  /\ r.1 = ([], None).
Proof. by vm_compute. Qed.

(** ** The provider: [newShamanChanges] *)

Section ChangesFacts.

Import Shaman.
Context {host : Host}.

(** Decide the comparisons of the names of the actions. *)
Ltac eqb_actions :=
  repeat match goal with
    | |- context [String.eqb ?x ?y] =>
        is_ground x; is_ground y;
        let b := eval vm_compute in (String.eqb x y) in
        change (String.eqb x y) with b
    end;
  cbv iota.

Lemma actionsMap_lookup {V : Type} (c u d : V) a :
  actionsMap c u d !! a
  = if String.eqb a shamanCreate then Some c
    else if String.eqb a shamanUpdate then Some u
    else if String.eqb a shamanDelete then Some d
    else None.
Proof.
  unfold actionsMap.
  destruct (String.eqb_spec a shamanCreate) as [->|H1];
    [by rewrite lookup_insert_eq|].
  rewrite lookup_insert_ne by done.
  destruct (String.eqb_spec a shamanUpdate) as [->|H2];
    [by rewrite lookup_insert_eq|].
  rewrite lookup_insert_ne by done.
  destruct (String.eqb_spec a shamanDelete) as [->|H3];
    [by rewrite lookup_insert_eq|].
  by rewrite lookup_insert_ne.
Qed.

Lemma actionsMap_insert {V : Type} (c u d x : V) a :
  isAction a ->
  <[a := x]> (actionsMap c u d)
  = actionsMap (if String.eqb a shamanCreate then x else c)
      (if String.eqb a shamanUpdate then x else u)
      (if String.eqb a shamanDelete then x else d).
Proof.
  intros Ha. apply map_eq. intros k.
  rewrite lookup_insert, !actionsMap_lookup.
  destruct Ha as [->| [->| ->]]; cbn;
    case_decide as Hk; [subst k| |subst k| |subst k|]; try done.
  - by destruct (String.eqb_spec k shamanCreate).
  - destruct (String.eqb_spec k shamanCreate); [done|].
    by destruct (String.eqb_spec k shamanUpdate).
  - destruct (String.eqb_spec k shamanCreate); [done|].
    destruct (String.eqb_spec k shamanUpdate); [done|].
    by destruct (String.eqb_spec k shamanDelete).
Qed.

Lemma actionsMap_size {V : Type} (c u d : V) : size (actionsMap c u d) = 3%nat.
Proof.
  unfold actionsMap.
  rewrite !map_size_insert_None, map_size_empty; [done|..].
  - apply lookup_empty.
  - by rewrite lookup_insert_ne.
  - by rewrite !lookup_insert_ne.
Qed.

Lemma actionsMap_isAction {V : Type} (c u d : V) a v :
  actionsMap c u d !! a = Some v -> isAction a.
Proof.
  rewrite actionsMap_lookup. unfold isAction.
  destruct (String.eqb_spec a shamanCreate); [auto|].
  destruct (String.eqb_spec a shamanUpdate); [auto|].
  destruct (String.eqb_spec a shamanDelete); [auto|done].
Qed.

(** From here on [actionsMap] is known by these lemmas only. *)
#[local] Opaque actionsMap.

(** *** The first loop: the groups *)

Lemma recordsForW_snoc d x ws a e :
  recordsForW d x (ws ++ [(a, e)])
  = recordsForW d x ws
      ++ (if String.eqb a x && String.eqb (DNSName e) d
          then resourceRecordSet e else []).
Proof.
  unfold recordsForW. rewrite List.filter_app, map_app, flat_map_app.
  f_equal. cbn.
  destruct (String.eqb a x && String.eqb (DNSName e) d); cbn; [|done].
  by rewrite app_nil_r.
Qed.

Lemma recordsForW_absent d x ws :
  existsb (fun we : string * Endpoint => String.eqb (DNSName we.2) d) ws
  = false ->
  recordsForW d x ws = [].
Proof.
  unfold recordsForW. induction ws as [|[a e] ws IH]; [done|].
  cbn. intros [He Hws]%orb_false_iff.
  rewrite He, andb_false_r. by apply IH.
Qed.

Lemma addEndpoint_lookup ws a e groups :
  isAction a ->
  (forall d, groups !! d = groupAfter ws d) ->
  forall d, addEndpoint a groups e !! d = groupAfter (ws ++ [(a, e)]) d.
Proof.
  intros Ha Hinv d. unfold addEndpoint.
  set (n := DNSName e).
  set (groups' := match groups !! n with
                  | Some _ => groups
                  | None => <[n := actionsMap [] [] []]> groups
                  end).
  set (m := actionsMap (recordsForW n shamanCreate ws)
              (recordsForW n shamanUpdate ws)
              (recordsForW n shamanDelete ws)).
  assert (Hn : groups' !! n = Some m).
  { subst groups'. pose proof (Hinv n) as Hg. unfold groupAfter in Hg.
    destruct (existsb _ ws) eqn:Hex.
    - by rewrite Hg.
    - rewrite Hg, lookup_insert_eq. subst m.
      by rewrite !recordsForW_absent. }
  assert (Hd : forall d', n <> d' -> groups' !! d' = groups !! d').
  { intros d' Hne. subst groups'.
    destruct (groups !! n); [done|]. by rewrite lookup_insert_ne. }
  unfold groupAfter. rewrite existsb_app. cbn [existsb snd]. fold n.
  destruct (decide (n = d)) as [<-|Hne].
  - rewrite lookup_insert_eq, String.eqb_refl. cbn [orb].
    rewrite orb_true_r, Hn. unfold default at 2 3. cbn [from_option id].
    f_equal.
    rewrite !recordsForW_snoc. fold n. rewrite String.eqb_refl, !andb_true_r.
    subst m. rewrite actionsMap_insert, actionsMap_lookup by done.
    destruct Ha as [->| [->| ->]]; eqb_actions;
      cbn [default from_option id]; by rewrite 2!app_nil_r.
  - rewrite lookup_insert_ne, Hd, Hinv by done.
    apply String.eqb_neq in Hne. rewrite Hne. cbn [orb].
    rewrite orb_false_r. unfold groupAfter. destruct (existsb _ ws); [|done].
    rewrite !recordsForW_snoc. fold n.
    by rewrite Hne, !andb_false_r, 3!app_nil_r.
Qed.

Lemma groupEndpoints_work seed (allendpoints : gmap string (list Endpoint)) :
  groupEndpoints seed allendpoints
  = fold_left (fun groups we => addEndpoint we.1 groups we.2)
      (work (rangeMap seed allendpoints)) ∅.
Proof.
  unfold groupEndpoints, work.
  generalize (∅ : gmap string (gmap string (list DNSRecord))).
  induction (rangeMap seed allendpoints) as [|[a eps] kvs IH]; intros g;
    [done|].
  cbn [fold_left flat_map fst snd]. rewrite fold_left_app, IH. f_equal.
  generalize g. clear.
  induction eps as [|e eps IH]; intros g; [done|]. cbn. apply IH.
Qed.

Lemma addEndpoint_loop ws' :
  forall ws groups,
    Forall (fun we : string * Endpoint => isAction we.1) ws' ->
    (forall d, groups !! d = groupAfter ws d) ->
    forall d,
      fold_left (fun groups we => addEndpoint we.1 groups we.2) ws' groups
        !! d
      = groupAfter (ws ++ ws') d.
Proof.
  induction ws' as [|[a e] ws' IH]; intros ws groups Hact Hinv d.
  - cbn. by rewrite app_nil_r.
  - apply Forall_cons in Hact as [Ha Hact]. cbn [fold_left fst snd].
    replace (ws ++ (a, e) :: ws') with ((ws ++ [(a, e)]) ++ ws')
      by (by rewrite <- app_assoc).
    apply IH; [done|]. by apply addEndpoint_lookup.
Qed.

Lemma work_isAction (seed : list nat) (cr up de : list Endpoint) :
  Forall (fun we : string * Endpoint => isAction we.1)
    (work (rangeMap seed (actionsMap cr up de))).
Proof.
  apply List.Forall_forall. intros [a e] Hin. cbn [fst].
  assert (Hkvs : forall a eps,
             In (a, eps) (rangeMap seed (actionsMap cr up de)) -> isAction a).
  { intros a' eps Hkv.
    apply list_elem_of_In in Hkv.
    apply (proj1 (rangeMap_elem_of _ _ _ _)) in Hkv.
    exact (actionsMap_isAction _ _ _ _ _ Hkv). }
  revert Hkvs Hin. generalize (rangeMap seed (actionsMap cr up de)).
  intros kvs Hkvs Hin.
  apply in_flat_map in Hin as ([a' eps] & Hkv & Hin).
  apply in_map_iff in Hin as (e' & [= <- <-] & _).
  by apply Hkvs in Hkv.
Qed.

(** The group of a domain after the first loop, whatever the order of the
    range over [allendpoints]. *)
Lemma groupEndpoints_groupAfter seed (cr up de : list Endpoint) d :
  groupEndpoints seed (actionsMap cr up de) !! d
  = groupAfter (work (rangeMap seed (actionsMap cr up de))) d.
Proof.
  rewrite groupEndpoints_work.
  apply (addEndpoint_loop _ [] ∅); [apply work_isAction|].
  intros d'. apply lookup_empty.
Qed.

Lemma work_other_action kvs a (P : Endpoint -> bool) :
  a ∉ kvs.*1 ->
  List.filter (fun we : string * Endpoint => String.eqb we.1 a && P we.2)
    (work kvs) = [].
Proof.
  induction kvs as [|[a' eps] kvs IH]; [done|].
  cbn [fmap list_fmap fst]. intros Hnot.
  apply not_elem_of_cons in Hnot as [Hne Hnot].
  unfold work. cbn [flat_map fst snd]. rewrite List.filter_app.
  fold (work kvs). rewrite IH, app_nil_r by done.
  apply not_eq_sym, String.eqb_neq in Hne.
  induction eps as [|e eps IHe]; [done|]. cbn. by rewrite Hne.
Qed.

Lemma work_this_action kvs a eps (P : Endpoint -> bool) :
  NoDup kvs.*1 -> (a, eps) ∈ kvs ->
  map snd
    (List.filter (fun we : string * Endpoint => String.eqb we.1 a && P we.2)
       (work kvs))
  = List.filter P eps.
Proof.
  induction kvs as [|[a' eps'] kvs IH]; [by intros _ ?%elem_of_nil|].
  cbn [fmap list_fmap fst]. intros [Hnot Hnd]%NoDup_cons Hin.
  unfold work. cbn [flat_map fst snd]. rewrite List.filter_app, map_app.
  fold (work kvs).
  apply elem_of_cons in Hin as [[= <- <-]|Hin].
  - rewrite work_other_action, app_nil_r by done.
    clear. induction eps as [|e eps IH]; [done|].
    cbn. rewrite String.eqb_refl. cbn.
    destruct (P e); cbn; by rewrite IH.
  - rewrite IH by done.
    assert (Hne : a' <> a).
    { intros ->. apply Hnot. apply list_elem_of_fmap.
      by exists (a, eps). }
    apply String.eqb_neq in Hne.
    replace (List.filter _ (map (pair a') eps')) with
      (@nil (string * Endpoint)); [done|].
    clear -Hne. induction eps' as [|e eps' IH]; [done|].
    cbn. by rewrite Hne.
Qed.

Lemma recordsForW_work kvs a eps d :
  NoDup kvs.*1 -> (a, eps) ∈ kvs ->
  recordsForW d a (work kvs) = recordsFor d eps.
Proof.
  intros Hnd Hin. unfold recordsForW, recordsFor.
  by rewrite (work_this_action kvs a eps
                (fun e => String.eqb (DNSName e) d)).
Qed.

Lemma existsb_work kvs (Q : Endpoint -> bool) :
  existsb (fun we : string * Endpoint => Q we.2) (work kvs) = true
  <-> exists a eps e, (a, eps) ∈ kvs /\ e ∈ eps /\ Q e = true.
Proof.
  rewrite existsb_exists. split.
  - intros ([a e] & Hin & HQ).
    apply in_flat_map in Hin as ([a' eps] & Hkv & Hin).
    apply in_map_iff in Hin as (e' & [= -> ->] & He).
    exists a, eps, e. by rewrite !list_elem_of_In.
  - intros (a & eps & e & Hkv & He & HQ).
    exists (a, e). split; [|done].
    apply in_flat_map. exists (a, eps).
    split; [by apply list_elem_of_In|].
    apply in_map_iff. exists e. by rewrite <- list_elem_of_In.
Qed.

Lemma actionsMap_entry {V : Type} (c u d : V) a v :
  actionsMap c u d !! a = Some v <->
  (a = shamanCreate /\ v = c) \/ (a = shamanUpdate /\ v = u)
  \/ (a = shamanDelete /\ v = d).
Proof.
  rewrite actionsMap_lookup. split.
  - destruct (String.eqb_spec a shamanCreate); [intros [= <-]; auto|].
    destruct (String.eqb_spec a shamanUpdate); [intros [= <-]; auto|].
    destruct (String.eqb_spec a shamanDelete); [intros [= <-]; auto|done].
  - intros [[-> ->]|[[-> ->]|[-> ->]]]; by eqb_actions.
Qed.

(** The groups after the first loop, whatever the order of the range over
    [allendpoints]: a domain has a group when an endpoint names it, and
    the group holds, for every action, the records of the endpoints of
    that action with the name of the domain. *)
Lemma groupEndpoints_lookup seed (cr up de : list Endpoint) d :
  groupEndpoints seed (actionsMap cr up de) !! d
  = if existsb (fun e => String.eqb (DNSName e) d) (cr ++ up ++ de) then
      Some (actionsMap (recordsFor d cr) (recordsFor d up)
              (recordsFor d de))
    else None.
Proof.
  rewrite groupEndpoints_groupAfter. unfold groupAfter.
  pose proof (rangeMap_NoDup seed (actionsMap cr up de)) as Hnd.
  assert (Hkv : forall a eps,
             (a, eps) ∈ rangeMap seed (actionsMap cr up de) <->
             (a = shamanCreate /\ eps = cr) \/ (a = shamanUpdate /\ eps = up)
             \/ (a = shamanDelete /\ eps = de)).
  { intros a eps.
    etransitivity; [exact (rangeMap_elem_of _ _ _ _)|].
    apply actionsMap_entry. }
  revert Hnd Hkv. generalize (rangeMap seed (actionsMap cr up de)).
  intros kvs Hnd Hkv.
  rewrite (recordsForW_work kvs shamanCreate cr),
    (recordsForW_work kvs shamanUpdate up),
    (recordsForW_work kvs shamanDelete de);
    [|done|apply Hkv; auto|done|apply Hkv; auto|done|apply Hkv; auto].
  replace (existsb _ (work kvs))
    with (existsb (fun e => String.eqb (DNSName e) d) (cr ++ up ++ de));
    [done|].
  apply eq_true_iff_eq.
  rewrite (existsb_work kvs (fun e => String.eqb (DNSName e) d)).
  rewrite existsb_exists. split.
  - intros (e & He & HQ). rewrite !in_app_iff in He.
    destruct He as [He|[He|He]]; apply list_elem_of_In in He.
    + exists shamanCreate, cr, e. split; [apply Hkv; auto|done].
    + exists shamanUpdate, up, e. split; [apply Hkv; auto|done].
    + exists shamanDelete, de, e. split; [apply Hkv; auto|done].
  - intros (a & eps & e & Hin & He & HQ). exists e. split; [|done].
    apply list_elem_of_In in He. rewrite !in_app_iff.
    apply Hkv in Hin as [[_ ->]|[[_ ->]|[_ ->]]]; auto.
Qed.

(** *** The second loop: the changes *)

Lemma fold_left_snoc {A B : Type} (f : B -> A) (l : list B) :
  forall acc, fold_left (fun acc x => acc ++ [f x]) l acc = acc ++ map f l.
Proof.
  induction l as [|x l IH]; intros acc; cbn.
  - by rewrite app_nil_r.
  - by rewrite IH, <- app_assoc.
Qed.

Lemma domainStep_setsOf o changes changesResponse dv :
  domainStep o (changes, changesResponse) dv
  = (changes ++ setsOf o dv,
     changesResponse
       ++ [{| shamanChange.Domain := dv.1;
              shamanChange.Changes := changes ++ setsOf o dv |}]).
Proof.
  destruct dv as [d v]. unfold domainStep, setsOf. cbn [fst snd].
  generalize (rangeMap (actionsSeed o d) v). intros avvs.
  by rewrite (fold_left_snoc
                (fun avv : string * list DNSRecord =>
                   {| shamanChangeSet.Action := avv.1;
                      shamanChangeSet.ResourceRecordSet :=
                        {| Domain.Domain := d; Domain.Records := avv.2 |} |})).
Qed.

Lemma domainStep_loop o kvs :
  forall changes changesResponse,
    fold_left (domainStep o) kvs (changes, changesResponse)
    = (changes ++ flat_map (setsOf o) kvs,
       changesResponse
         ++ imap (fun k kv =>
                    {| shamanChange.Domain := kv.1;
                       shamanChange.Changes :=
                         changes ++ flat_map (setsOf o) (take (S k) kvs) |})
              kvs).
Proof.
  induction kvs as [|dv kvs IH]; intros changes changesResponse.
  - cbn. by rewrite !app_nil_r.
  - cbn [fold_left]. rewrite domainStep_setsOf, IH.
    cbn [flat_map imap take]. rewrite <- !app_assoc. f_equal.
    f_equal. cbn [app]. rewrite app_nil_r. f_equal.
    apply imap_ext. intros k kv _. cbn.
    by rewrite <- app_assoc.
Qed.

(** The changes [newShamanChanges] returns: the structure of the domain at
    index [k] of the range over [groups] holds the change sets of the
    domains at the indices up to [k]. *)
Lemma newShamanChanges_shape o (cr up de : list Endpoint) :
  let kvs :=
    rangeMap (groupsSeed o)
      (groupEndpoints (allendpointsSeed o) (actionsMap cr up de)) in
  newShamanChanges o cr up de
  = imap (fun k kv =>
            {| shamanChange.Domain := kv.1;
               shamanChange.Changes :=
                 flat_map (setsOf o) (take (S k) kvs) |})
      kvs.
Proof.
  intros kvs. unfold newShamanChanges. fold kvs.
  generalize kvs. clear kvs. intros kvs.
  by rewrite domainStep_loop.
Qed.

(** The entries of the range over [groups]. *)
Lemma groups_entry o (cr up de : list Endpoint) d v :
  (d, v) ∈ rangeMap (groupsSeed o)
             (groupEndpoints (allendpointsSeed o) (actionsMap cr up de))
  <-> existsb (fun e => String.eqb (DNSName e) d) (cr ++ up ++ de) = true
      /\ v = actionsMap (recordsFor d cr) (recordsFor d up)
               (recordsFor d de).
Proof.
  etransitivity; [exact (rangeMap_elem_of _ _ _ _)|].
  rewrite groupEndpoints_lookup.
  destruct (existsb _ (cr ++ up ++ de)).
  - split; [by intros [= <-]|by intros [_ ->]].
  - split; [done|by intros [? _]].
Qed.

(** The change sets of a domain: a permutation of its three actions with
    their records. *)
Lemma setsOf_Permutation o d (c u x : list DNSRecord) :
  setsOf o (d, actionsMap c u x)
  ≡ₚ [ shamanChangeSet.mk shamanCreate (Domain.mk d c);
       shamanChangeSet.mk shamanUpdate (Domain.mk d u);
       shamanChangeSet.mk shamanDelete (Domain.mk d x) ].
Proof.
  unfold setsOf. cbn [fst snd].
  assert (Hp : rangeMap (actionsSeed o d) (actionsMap c u x)
               ≡ₚ [(shamanCreate, c); (shamanUpdate, u); (shamanDelete, x)]).
  { apply NoDup_Permutation.
    - eapply NoDup_fmap_1. apply rangeMap_NoDup.
    - repeat constructor; rewrite ?elem_of_cons, ?elem_of_nil;
        intros Hin; decompose [or] Hin; try done; by simplify_eq.
    - intros [a v].
      etransitivity; [exact (rangeMap_elem_of _ _ _ _)|].
      rewrite actionsMap_entry, !elem_of_cons, elem_of_nil.
      split.
      + intros [[-> ->]|[[-> ->]|[-> ->]]]; auto.
      + intros [[= -> ->]|[[= -> ->]|[[= -> ->]|[]]]]; auto. }
  revert Hp. generalize (rangeMap (actionsSeed o d) (actionsMap c u x)).
  intros avvs Hp. change (map ?f avvs) with (f <$> avvs).
  by rewrite Hp.
Qed.

Lemma currentChangeSet_Permutation a d (c u x : list DNSRecord) sets rest :
  sets ≡ₚ [ shamanChangeSet.mk shamanCreate (Domain.mk d c);
            shamanChangeSet.mk shamanUpdate (Domain.mk d u);
            shamanChangeSet.mk shamanDelete (Domain.mk d x) ] ->
  isAction a ->
  Domain.Records
    (shamanChangeSet.ResourceRecordSet (currentChangeSet a (sets ++ rest)))
  = if String.eqb a shamanCreate then c
    else if String.eqb a shamanUpdate then u else x.
Proof.
  intros Hp Ha.
  assert (Hall : forall cs, cs ∈ sets ->
             cs = shamanChangeSet.mk shamanCreate (Domain.mk d c)
             \/ cs = shamanChangeSet.mk shamanUpdate (Domain.mk d u)
             \/ cs = shamanChangeSet.mk shamanDelete (Domain.mk d x)).
  { intros cs. rewrite Hp, !elem_of_cons, elem_of_nil. tauto. }
  assert (Hex : exists cs, cs ∈ sets /\ shamanChangeSet.Action cs = a).
  { destruct Ha as [->|[->| ->]];
      [exists (shamanChangeSet.mk shamanCreate (Domain.mk d c))
      |exists (shamanChangeSet.mk shamanUpdate (Domain.mk d u))
      |exists (shamanChangeSet.mk shamanDelete (Domain.mk d x))];
      (split; [rewrite Hp, !elem_of_cons; auto|done]). }
  clear Hp. induction sets as [|cs sets IH].
  - destruct Hex as (cs & Hin & _). by apply elem_of_nil in Hin.
  - cbn [app currentChangeSet].
    destruct (String.eqb_spec (shamanChangeSet.Action cs) a) as [Hcs|Hcs].
    + destruct (Hall cs) as [->|[->| ->]]; [by left|..];
        cbn in Hcs; subst a; by eqb_actions.
    + apply IH.
      * intros cs' Hin. apply Hall. by right.
      * destruct Hex as (cs' & Hin & Hact).
        apply elem_of_cons in Hin as [->|Hin]; [done|].
        by exists cs'.
Qed.

Lemma groups_keys o (cr up de : list Endpoint) d :
  d ∈ (rangeMap (groupsSeed o)
         (groupEndpoints (allendpointsSeed o) (actionsMap cr up de))).*1
  <-> existsb (fun e => String.eqb (DNSName e) d) (cr ++ up ++ de) = true.
Proof.
  rewrite list_elem_of_fmap. split.
  - intros ([d' v] & -> & Hin). by apply groups_entry in Hin as [? _].
  - intros Hex. eexists (d, _). split; [done|].
    apply groups_entry. by split.
Qed.

Lemma setsOf_entry o (cr up de : list Endpoint) d v cs :
  (d, v) ∈ rangeMap (groupsSeed o)
             (groupEndpoints (allendpointsSeed o) (actionsMap cr up de)) ->
  cs ∈ setsOf o (d, v) ->
  cs = shamanChangeSet.mk shamanCreate (Domain.mk d (recordsFor d cr))
  \/ cs = shamanChangeSet.mk shamanUpdate (Domain.mk d (recordsFor d up))
  \/ cs = shamanChangeSet.mk shamanDelete (Domain.mk d (recordsFor d de)).
Proof.
  intros [_ ->]%groups_entry.
  rewrite setsOf_Permutation, !elem_of_cons, elem_of_nil. tauto.
Qed.

Lemma resourceRecordSet_elem_of (e : Endpoint) r :
  r ∈ resourceRecordSet e <->
  exists target, target ∈ Targets e /\
    r = {| DNSRecord.TTL :=
             uint8 (if IsConfigured (RecordTTL e) then RecordTTL e
                    else defaultShamanRecordTTL);
           DNSRecord.Class := defaultShamanRecordClass;
           DNSRecord.Type_ := RecordType e;
           DNSRecord.Address := target |}.
Proof.
  unfold resourceRecordSet. rewrite list_elem_of_In, in_map_iff.
  split; intros (t & Ht1 & Ht2); exists t.
  - by rewrite list_elem_of_In.
  - by rewrite <- list_elem_of_In.
Qed.

Lemma recordsFor_elem_of d (eps : list Endpoint) r :
  r ∈ recordsFor d eps <->
  exists e, e ∈ eps /\ DNSName e = d /\ r ∈ resourceRecordSet e.
Proof.
  unfold recordsFor. rewrite list_elem_of_In, in_flat_map.
  split; intros (e & He & Hr); exists e.
  - apply filter_In in He as [He Hd]. apply String.eqb_eq in Hd.
    by rewrite !list_elem_of_In.
  - destruct Hr as [Hd Hr]. rewrite filter_In, <- !list_elem_of_In.
    by rewrite Hd, String.eqb_refl.
Qed.

(** Every record of every record list comes from an endpoint with the name
    of the domain of the list. *)
Lemma newShamanChanges_records o (cr up de : list Endpoint) c cs r :
  c ∈ newShamanChanges o cr up de ->
  cs ∈ shamanChange.Changes c ->
  r ∈ Domain.Records (shamanChangeSet.ResourceRecordSet cs) ->
  exists e, e ∈ cr ++ up ++ de
            /\ DNSName e
               = Domain.Domain (shamanChangeSet.ResourceRecordSet cs)
            /\ r ∈ resourceRecordSet e.
Proof.
  rewrite newShamanChanges_shape.
  assert (Hkv := setsOf_entry o cr up de).
  revert Hkv.
  generalize (rangeMap (groupsSeed o)
                (groupEndpoints (allendpointsSeed o) (actionsMap cr up de))).
  intros kvs Hkv Hc Hcs Hr.
  apply list_elem_of_lookup in Hc as [k Hc].
  apply list_lookup_imap_Some in Hc as (kv & _ & ->).
  cbn [shamanChange.Changes] in Hcs.
  apply list_elem_of_In, in_flat_map in Hcs as ([d v] & Hin & Hcs).
  apply list_elem_of_In in Hin, Hcs.
  apply subseteq_take in Hin.
  destruct (Hkv d v cs Hin Hcs) as [->|[->| ->]];
    cbn [shamanChangeSet.ResourceRecordSet Domain.Records Domain.Domain]
      in *;
    apply recordsFor_elem_of in Hr as (e & He & Hd & Hr);
    exists e; (split; [|done]); rewrite !elem_of_app; auto.
Qed.

Lemma setsOf_length o (cr up de : list Endpoint) d v :
  (d, v) ∈ rangeMap (groupsSeed o)
             (groupEndpoints (allendpointsSeed o) (actionsMap cr up de)) ->
  length (setsOf o (d, v)) = 3%nat.
Proof. intros [_ ->]%groups_entry. by rewrite setsOf_Permutation. Qed.

Lemma flat_map_length_3 {A B : Type} (f : A -> list B) (l : list A) :
  (forall x, x ∈ l -> length (f x) = 3%nat) ->
  length (flat_map f l) = (3 * length l)%nat.
Proof.
  induction l as [|x l IH]; intros Hl; [done|].
  cbn [flat_map]. rewrite length_app, Hl, IH.
  - cbn [length]. lia.
  - intros y Hy. apply Hl. by right.
  - by left.
Qed.

(** The structure at index [k] holds [3 * (k + 1)] record lists. *)
Lemma newShamanChanges_lengths o (cr up de : list Endpoint) k c :
  newShamanChanges o cr up de !! k = Some c ->
  length (shamanChange.Changes c) = (3 * (k + 1))%nat.
Proof.
  rewrite newShamanChanges_shape.
  assert (Hlen := setsOf_length o cr up de).
  revert Hlen.
  generalize (rangeMap (groupsSeed o)
                (groupEndpoints (allendpointsSeed o) (actionsMap cr up de))).
  intros kvs Hlen Hc.
  apply list_lookup_imap_Some in Hc as (kv & Hk & ->).
  cbn [shamanChange.Changes].
  rewrite flat_map_length_3.
  - apply lookup_lt_Some in Hk. rewrite length_take. lia.
  - intros [d v] Hin. apply Hlen. by apply subseteq_take in Hin.
Qed.

(** The structures after the first hold the record lists of the first
    domain in front, and these are the ones [submitChanges] finds. *)
Lemma newShamanChanges_later o (cr up de : list Endpoint) c1 rest c :
  newShamanChanges o cr up de = c1 :: rest ->
  c ∈ rest ->
  shamanChange.Domain c <> shamanChange.Domain c1
  /\ forall a, isAction a ->
       requested a c = recordsFor (shamanChange.Domain c1)
                         (endpointsOf a cr up de)
       /\ requested a c1 = recordsFor (shamanChange.Domain c1)
                             (endpointsOf a cr up de).
Proof.
  rewrite newShamanChanges_shape.
  assert (Hnd := rangeMap_NoDup (groupsSeed o)
            (groupEndpoints (allendpointsSeed o) (actionsMap cr up de))).
  assert (Hkv := fun d v => proj1 (groups_entry o cr up de d v)).
  revert Hnd Hkv.
  generalize (rangeMap (groupsSeed o)
                (groupEndpoints (allendpointsSeed o) (actionsMap cr up de))).
  intros [|[d0 v0] kvs] Hnd Hkv; [done|].
  cbn [imap]. intros [= <- <-] Hc.
  apply list_elem_of_lookup in Hc as [k Hc].
  apply list_lookup_imap_Some in Hc as ([d v] & Hk & ->).
  cbn [compose take flat_map shamanChange.Domain shamanChange.Changes fst].
  destruct (Hkv d0 v0) as [_ ->]; [by left|].
  cbn [fmap list_fmap fst] in Hnd. apply NoDup_cons in Hnd as [Hnot _].
  split.
  - intros ->. apply Hnot. apply list_elem_of_fmap. exists (d0, v).
    split; [done|]. by eapply list_elem_of_lookup_2.
  - intros a Ha. unfold requested, endpointsOf. cbn [shamanChange.Changes].
    rewrite !(currentChangeSet_Permutation a d0 (recordsFor d0 cr)
                (recordsFor d0 up) (recordsFor d0 de))
      by (done || apply setsOf_Permutation).
    by destruct (String.eqb a shamanCreate), (String.eqb a shamanUpdate).
Qed.

(** One structure for every domain an endpoint names. *)
Lemma newShamanChanges_domains o (cr up de : list Endpoint) :
  NoDup (shamanChange.Domain <$> newShamanChanges o cr up de)
  /\ forall d, d ∈ shamanChange.Domain <$> newShamanChanges o cr up de
       <-> existsb (fun e => String.eqb (DNSName e) d) (cr ++ up ++ de)
           = true.
Proof.
  rewrite newShamanChanges_shape.
  assert (Hnd := rangeMap_NoDup (groupsSeed o)
            (groupEndpoints (allendpointsSeed o) (actionsMap cr up de))).
  assert (Hkeys := groups_keys o cr up de).
  revert Hnd Hkeys.
  generalize (rangeMap (groupsSeed o)
                (groupEndpoints (allendpointsSeed o) (actionsMap cr up de))).
  intros kvs Hnd Hkeys.
  replace (shamanChange.Domain <$> imap _ kvs) with (kvs.*1); [done|].
  rewrite fmap_imap. unfold compose. cbn [shamanChange.Domain].
  symmetry. apply (imap_const fst).
Qed.

End ChangesFacts.

(** C1. With two endpoints to create, of two domains, [newShamanChanges]
    returns two structures whatever the orders of its ranges. The second has
    six record lists, not three, and the records [submitChanges] finds in it
    to create are those of the domain of the first structure, not its own:
    [changes] is never emptied between two domains. *)
Theorem newShamanChanges_two_domains (o : Shaman.RangeSeeds) :
  exists c1 c2,
    Shaman.newShamanChanges (host := Test.testHost) o
      (plan.Create Test.twoDomains) (plan.UpdateNew Test.twoDomains)
      (plan.Delete Test.twoDomains) = [c1; c2]
    /\ Shaman.shamanChange.Domain c1 <> Shaman.shamanChange.Domain c2
    /\ length (Shaman.shamanChange.Changes c2) = 6%nat
    /\ Shaman.requested Shaman.shamanCreate c2
       = Shaman.recordsFor (host := Test.testHost)
           (Shaman.shamanChange.Domain c1) (plan.Create Test.twoDomains)
    /\ Shaman.requested Shaman.shamanCreate c2
       <> Shaman.recordsFor (host := Test.testHost)
            (Shaman.shamanChange.Domain c2) (plan.Create Test.twoDomains).
Proof.
  cbn [plan.Create plan.UpdateNew plan.Delete Test.twoDomains].
  set (cr := [mkEndpoint "a.example.org" _ _ _; _]).
  destruct (newShamanChanges_domains (host := Test.testHost) o cr [] [])
    as [Hnd Hdom].
  pose proof (newShamanChanges_lengths (host := Test.testHost) o cr [] [])
    as Hlen.
  pose proof (newShamanChanges_later (host := Test.testHost) o cr [] [])
    as Hlater.
  revert Hnd Hdom Hlen Hlater.
  generalize (Shaman.newShamanChanges (host := Test.testHost) o cr [] []).
  intros res Hnd Hdom Hlen Hlater.
  assert (Hp : Shaman.shamanChange.Domain <$> res
               ≡ₚ ["a.example.org"; "b.example.org"]).
  { apply NoDup_Permutation; [done| |].
    - repeat constructor; rewrite ?elem_of_cons, ?elem_of_nil;
        intros Hin; decompose [or] Hin; done.
    - intros d. rewrite Hdom. subst cr. cbn [app existsb DNSName].
      rewrite !orb_true_iff, !String.eqb_eq, !elem_of_cons, elem_of_nil.
      intuition congruence. }
  apply Permutation_sym, Permutation_length_2_inv in Hp.
  destruct res as [|c1 [|c2 [|c3 res]]];
    try (destruct Hp as [Hp|Hp]; discriminate Hp).
  exists c1, c2.
  destruct (Hlater c1 [c2] c2 eq_refl) as [Hne Hreq]; [by left|].
  destruct (Hreq Shaman.shamanCreate) as [Hreq2 _]; [by left|].
  split; [done|]. split; [done|].
  split; [exact (Hlen 1%nat c2 eq_refl)|].
  split; [exact Hreq2|].
  rewrite Hreq2.
  destruct Hp as [[= -> ->]|[= -> ->]]; by vm_compute.
Qed.

Section TTLFacts.

Import Shaman.
Context {host : Host}.

Lemma uint8_range (x : Z) : 0 <= uint8 x < 256.
Proof. unfold uint8. apply Z.mod_pos_bound. lia. Qed.

(** C9. A TTL leaves and enters the provider through [uint8]: every record
    [newShamanChanges] makes has the TTL of one of the endpoints given, or
    60 when that is not configured, modulo 256; and every endpoint
    [shamanGroupByNameAndType] makes is built with the TTL of the first
    record of its group modulo 256. *)
Theorem TTL_truncated_to_uint8 :
  (forall o (cr up de : list Endpoint) c cs r,
      c ∈ newShamanChanges o cr up de ->
      cs ∈ shamanChange.Changes c ->
      r ∈ Domain.Records (shamanChangeSet.ResourceRecordSet cs) ->
      0 <= DNSRecord.TTL r < 256 /\
      exists e, e ∈ cr ++ up ++ de /\
        DNSRecord.TTL r
        = (if IsConfigured (RecordTTL e) then RecordTTL e
           else defaultShamanRecordTTL) mod 256) /\
  (forall seed resp ep,
      ep ∈ shamanGroupByNameAndType seed resp ->
      exists r0 g,
        recordsOfType (DNSRecordResponse.Type_ r0)
          (DomainResponse.Records resp) = r0 :: g /\
        ep = NewEndpointWithTTL (DomainResponse.Domain resp)
               (DNSRecordResponse.Type_ r0)
               (DNSRecordResponse.TTL r0 mod 256)
               (map DNSRecordResponse.Address (r0 :: g))).
Proof.
  split.
  - intros o cr up de c cs r Hc Hcs Hr.
    destruct (newShamanChanges_records o cr up de c cs r Hc Hcs Hr)
      as (e & He & _ & Hre).
    apply resourceRecordSet_elem_of in Hre as (t & _ & ->).
    cbn [DNSRecord.TTL]. split; [apply uint8_range|].
    by exists e.
  - intros seed resp ep Hep.
    destruct (shamanGroupByNameAndType_types seed resp)
      as (ts & [_ Hts] & Heq).
    rewrite Heq in Hep.
    apply list_elem_of_In, in_map_iff in Hep as (t & <- & Ht).
    apply list_elem_of_In, Hts in Ht as (_ & r & Hr & Hrt).
    unfold typeEndpoint, groupEndpoint.
    destruct (recordsOfType t (DomainResponse.Records resp))
      as [|r0 g] eqn:Hg.
    + assert (Hin : In r (recordsOfType t (DomainResponse.Records resp))).
      { apply filter_In. split; [by apply list_elem_of_In|].
        by apply String.eqb_eq. }
      by rewrite Hg in Hin.
    + exists r0, g. split; [|done].
      assert (Hr0 : In r0 (recordsOfType t (DomainResponse.Records resp)))
        by (rewrite Hg; by left).
      apply filter_In in Hr0 as [_ Hr0]. apply String.eqb_eq in Hr0.
      by rewrite Hr0.
Qed.

Lemma newShamanChanges_nil (o : RangeSeeds) : newShamanChanges o [] [] [] = [].
Proof.
  destruct (newShamanChanges_domains o [] [] []) as [_ Hdom].
  destruct (newShamanChanges o [] [] []) as [|c res]; [done|].
  specialize (Hdom (shamanChange.Domain c)). cbn in Hdom.
  assert (false = true); [|done].
  apply Hdom. by left.
Qed.

End TTLFacts.

(** ** The provider: [ApplyChanges] *)

Section ApplyFacts.

Import Shaman.
Local Open Scope go_scope.
Context {host : Host} {St : Type} {client : shamanDNS St}.

Lemma bind_run {A B : Type} (m : M (St := St) A) (k : A -> M B) w :
  bind m k w = k (m w).1 (m w).2.
Proof. unfold bind. by destruct (m w). Qed.

Lemma Quiet_ret {A : Type} (a : A) : Quiet (St := St) (ret a).
Proof. by intros w. Qed.

Lemma Quiet_log e : Quiet (St := St) (log e).
Proof. by intros w. Qed.

Lemma Quiet_bind {A B : Type} (m : M (St := St) A) (k : A -> M B) :
  Quiet m -> (forall a, Quiet (k a)) -> Quiet (bind m k).
Proof.
  intros Hm Hk w. rewrite bind_run.
  destruct (Hk (m w).1 (m w).2) as [-> ->]. apply Hm.
Qed.

Lemma Quiet_forM {A B : Type} (f : A -> B -> M (St := St) A)
    (l : list B) :
  (forall a b, Quiet (f a b)) -> forall a, Quiet (forM l f a).
Proof.
  intros Hf. induction l as [|b l IH]; intros a; cbn [forM].
  - apply Quiet_ret.
  - by apply Quiet_bind.
Qed.

Lemma Quiet_createRecord domain plannedRecords ccs :
  Quiet (St := St) (createRecord domain plannedRecords ccs).
Proof.
  apply Quiet_bind.
  - apply Quiet_forM. intros proceed pr.
    destruct (sameShamanDNSRecord pr ccs); [|apply Quiet_ret].
    apply Quiet_bind; [apply Quiet_log|intros; apply Quiet_ret].
  - intros [|]; [|apply Quiet_ret].
    apply Quiet_bind; [apply Quiet_log|intros; apply Quiet_ret].
Qed.

Lemma Quiet_updateRecord domain plannedRecords ccs :
  Quiet (St := St) (updateRecord domain plannedRecords ccs).
Proof.
  apply Quiet_bind.
  - apply Quiet_forM. intros pf ipr.
    destruct (sameShamanDNSRecord ipr.2 ccs); [|apply Quiet_ret].
    apply Quiet_bind; [apply Quiet_log|intros; apply Quiet_ret].
  - intros pf. destruct (negb pf.2); [|apply Quiet_ret].
    apply Quiet_bind; [apply Quiet_log|intros; apply Quiet_ret].
Qed.

Lemma Quiet_deleteRecord domain plannedRecords ccs :
  Quiet (St := St) (deleteRecord domain plannedRecords ccs).
Proof.
  unfold deleteRecord. destruct (_ =? -1);
    (apply Quiet_bind; [apply Quiet_log|intros; apply Quiet_ret]).
Qed.

Lemma Fetching_planChange domains c :
  Fetching (St := St) (planChange domains c).
Proof.
  intros w. unfold planChange. rewrite bind_run.
  destruct (domainFound domains (shamanChange.Domain c) =? 1).
  - rewrite bind_run. unfold call.
    destruct (GetRecords (shamanChange.Domain c) (remote w))
      as [[records|err] s]; cbn [fst snd ret].
    + exists [EvGetRecords (shamanChange.Domain c) (Ok records)].
      rewrite !bind_run. cbn [ret fst snd]. split; [|done].
      rewrite (proj2 (Quiet_forM _ _ (Quiet_deleteRecord _) _ _)).
      rewrite (proj2 (Quiet_forM _ _ (Quiet_updateRecord _) _ _)).
      by rewrite (proj2 (Quiet_forM _ _ (Quiet_createRecord _) _ _)).
    + exists [EvGetRecords (shamanChange.Domain c) (Err err)]. by cbn.
  - cbn [ret fst snd]. exists [].
    rewrite !bind_run. cbn [ret fst snd]. split; [|done].
    rewrite (proj2 (Quiet_forM _ _ (Quiet_deleteRecord _) _ _)).
    rewrite (proj2 (Quiet_forM _ _ (Quiet_updateRecord _) _ _)).
    rewrite (proj2 (Quiet_forM _ _ (Quiet_createRecord _) _ _)).
    by rewrite app_nil_r.
Qed.

Lemma Fetching_planChanges domains changes :
  forall plannedDomains,
    Fetching (St := St) (planChanges domains changes plannedDomains).
Proof.
  induction changes as [|c changes IH]; intros plannedDomains w.
  - exists []. cbn. by rewrite app_nil_r.
  - cbn [planChanges]. rewrite bind_run.
    destruct (Fetching_planChange domains c w) as (evs & Ht & Hm & He).
    destruct (planChange domains c w).1 as [pd|err].
    + destruct (IH (plannedDomains ++ [pd]) (planChange domains c w).2)
        as (evs' & Ht' & Hm' & He').
      exists (evs ++ evs'). rewrite Ht', Ht, <- app_assoc.
      split; [done|]. rewrite omap_app, Hm, Hm', fetchError_app, He.
      by cbn.
    + exists evs. by cbn [ret fst snd].
Qed.

(** *** Records that are already there, or are missing *)

Lemma world_eta (w : World St) : mkWorld (remote w) (trace w) (logs w) = w.
Proof. by destruct w. Qed.

Lemma create_loop domain ccs (plannedRecords : list DNSRecord) :
  forall (proceed : bool) (w : World St),
    forM plannedRecords
      (fun proceed pr =>
         if sameShamanDNSRecord pr ccs then
           bind
             (log (LogRecord Error
                     "Record requested to be created but already exists."
                     domain ccs shamanCreate))
             (fun _ => ret false)
         else ret proceed)
      proceed w
    = (proceed
       && negb (existsb (fun pr => sameShamanDNSRecord pr ccs) plannedRecords),
       mkWorld (remote w) (trace w)
         (logs w
            ++ replicate
                 (length
                    (List.filter (fun pr => sameShamanDNSRecord pr ccs)
                       plannedRecords))
                 (LogRecord Error
                    "Record requested to be created but already exists."
                    domain ccs shamanCreate))).
Proof.
  induction plannedRecords as [|pr pl IH]; intros proceed w.
  - cbn. by rewrite andb_true_r, app_nil_r, world_eta.
  - cbn [forM existsb List.filter]. rewrite bind_run.
    destruct (sameShamanDNSRecord pr ccs).
    + rewrite bind_run. cbn [log ret fst snd]. rewrite IH.
      cbn [remote trace logs length replicate negb orb andb].
      by rewrite andb_false_r, <- app_assoc.
    + cbn [ret fst snd]. by rewrite IH.
Qed.

(** A record to create that is already planned is not added: [createRecord]
    logs it, once for every planned record it equals, and that is all. *)
Lemma createRecord_exists domain plannedRecords ccs (w : World St) :
  existsb (fun pr => sameShamanDNSRecord pr ccs) plannedRecords = true ->
  createRecord domain plannedRecords ccs w
  = (plannedRecords,
     mkWorld (remote w) (trace w)
       (logs w
          ++ replicate
               (length
                  (List.filter (fun pr => sameShamanDNSRecord pr ccs)
                     plannedRecords))
               (LogRecord Error
                  "Record requested to be created but already exists."
                  domain ccs shamanCreate))).
Proof.
  intros Hex. unfold createRecord. rewrite bind_run, create_loop, Hex.
  by cbn.
Qed.

Lemma createRecord_new domain plannedRecords ccs (w : World St) :
  existsb (fun pr => sameShamanDNSRecord pr ccs) plannedRecords = false ->
  createRecord domain plannedRecords ccs w
  = (plannedRecords ++ [ccs],
     mkWorld (remote w) (trace w)
       (logs w
          ++ [LogRecord Info "Record requested to be created." domain ccs
                shamanCreate])).
Proof.
  intros Hex. unfold createRecord. rewrite bind_run, create_loop, Hex.
  cbn [andb negb fst snd]. rewrite bind_run. cbn [log ret fst snd].
  replace (List.filter _ plannedRecords) with (@nil DNSRecord).
  - cbn. by rewrite app_nil_r.
  - clear -Hex. induction plannedRecords as [|pr pl IH]; [done|].
    cbn in *. apply orb_false_iff in Hex as [-> Hex]. by apply IH.
Qed.

Lemma no_match_imap ccs (plannedRecords : list DNSRecord) :
  forall (f : nat -> nat),
    existsb (fun ipr : nat * DNSRecord => sameShamanDNSRecord ipr.2 ccs)
      (imap (fun i => pair (f i)) plannedRecords)
    = existsb (fun pr => sameShamanDNSRecord pr ccs) plannedRecords.
Proof.
  induction plannedRecords as [|pr pl IH]; intros f; [done|].
  cbn. f_equal. apply (IH (f ∘ S)).
Qed.

(** A record to update that is not planned changes nothing: [updateRecord]
    logs that it does not exist, and that is all. *)
Lemma updateRecord_missing domain plannedRecords ccs (w : World St) :
  existsb (fun pr => sameShamanDNSRecord pr ccs) plannedRecords = false ->
  updateRecord domain plannedRecords ccs w
  = (plannedRecords,
     mkWorld (remote w) (trace w)
       (logs w
          ++ [LogRecord Error
                "Record requested to be modified but it does not exist."
                domain ccs shamanUpdate])).
Proof.
  intros Hex. unfold updateRecord. rewrite bind_run.
  rewrite <- (no_match_imap ccs plannedRecords id) in Hex.
  change (imap (fun i => pair (id i)) plannedRecords)
    with (imap pair plannedRecords) in Hex.
  set (pf0 := (plannedRecords, false)).
  assert (Hloop : forall ipl (pf : list DNSRecord * bool) (w' : World St),
             existsb (fun ipr : nat * DNSRecord =>
                        sameShamanDNSRecord ipr.2 ccs) ipl = false ->
             forM ipl
               (fun (pf : list DNSRecord * bool) (ipr : nat * DNSRecord) =>
                  if sameShamanDNSRecord ipr.2 ccs then
                    bind
                      (log (LogRecord Info "Record requested to be modified."
                              domain ccs shamanUpdate))
                      (fun _ =>
                         ret (<[ipr.1 :=
                                  DNSRecord.mk (DNSRecord.TTL ccs)
                                    (DNSRecord.Class ccs)
                                    (DNSRecord.Type_ ccs)
                                    (DNSRecord.Address ccs)]> pf.1, true))
                  else ret pf)
               pf w' = (pf, w')).
  { induction ipl as [|ipr ipl IH]; intros pf w' Hno; [done|].
    cbn in Hno. apply orb_false_iff in Hno as [Hipr Hno].
    cbn [forM]. rewrite bind_run, Hipr. cbn [ret fst snd]. by apply IH. }
  rewrite Hloop by done. subst pf0. cbn [fst snd negb].
  rewrite bind_run. by cbn [log ret fst snd].
Qed.

(** A record to delete that is not planned changes nothing: [deleteRecord]
    logs that it does not exist, and that is all. *)
Lemma deleteRecord_missing domain plannedRecords ccs (w : World St) :
  existsb (fun pr => sameShamanDNSRecord pr ccs) plannedRecords = false ->
  deleteRecord domain plannedRecords ccs w
  = (plannedRecords,
     mkWorld (remote w) (trace w)
       (logs w
          ++ [LogRecord Error
                "Record requested to be deleted but it does not exist."
                domain ccs shamanDelete])).
Proof.
  intros Hex. unfold deleteRecord.
  rewrite <- (no_match_imap ccs plannedRecords id) in Hex.
  change (imap (fun i => pair (id i)) plannedRecords)
    with (imap pair plannedRecords) in Hex.
  replace (fold_left _ (imap pair plannedRecords) (-1)) with (-1).
  - rewrite Z.eqb_refl, bind_run. by cbn [log ret fst snd].
  - revert Hex. generalize (-1). generalize (imap pair plannedRecords).
    induction l as [|ipr ipl IH]; intros idx Hno; [done|].
    cbn in Hno. apply orb_false_iff in Hno as [Hipr Hno].
    cbn [fold_left]. rewrite Hipr. by apply IH.
Qed.


Lemma applyDomain_trace pd (w : World St) :
  exists ev entry,
    trace (applyDomain tt pd w).2 = trace w ++ [ev] /\
    logs (applyDomain tt pd w).2 = logs w ++ [entry] /\
    mutationOf ev = Some (planned pd) /\
    fetchError [ev] = None.
Proof.
  unfold applyDomain, planned.
  destruct (Domain.Records pd) as [|r rs] eqn:Hrs; cbn [length Nat.ltb Nat.leb];
    rewrite bind_run; unfold call.
  - destruct (DeleteDomain (Domain.Domain pd) (remote w)) as [[m|err] s];
      cbn; do 2 eexists; repeat split; reflexivity.
  - destruct (ReplaceDomainRecords (Domain.Domain pd) (r :: rs) (remote w))
      as [[m|err] s]; cbn; do 2 eexists; repeat split; reflexivity.
Qed.

(** The loop that applies the plan changes every planned domain, in order,
    whatever the remote service answers. *)
Lemma applyPlan_trace plannedDomains :
  forall (w : World St),
  exists evs,
    trace (forM plannedDomains applyDomain tt w).2 = trace w ++ evs /\
    omap mutationOf evs = map planned plannedDomains /\
    fetchError evs = None /\
    length (logs (forM plannedDomains applyDomain tt w).2)
    = (length (logs w) + length plannedDomains)%nat.
Proof.
  induction plannedDomains as [|pd pds IH]; intros w.
  - exists []. cbn. by rewrite app_nil_r, Nat.add_0_r.
  - cbn [forM]. rewrite bind_run.
    destruct (applyDomain_trace pd w) as (ev & entry & Ht & Hl & Hm & He).
    destruct ((applyDomain tt pd w).1).
    destruct (IH (applyDomain tt pd w).2) as (evs & Ht' & Hm' & He' & Hl').
    exists (ev :: evs). rewrite Ht', Ht, <- app_assoc, Hl', Hl, length_app.
    change (ev :: evs) with ([ev] ++ evs).
    rewrite omap_app, fetchError_app, He, He', Hm'.
    cbn [omap list_omap map length app]. rewrite Hm.
    repeat split; try done. lia.
Qed.

Lemma Domains_trace (p : ShamanProvider) (w : World St) :
  exists ev,
    trace (Domains p w).2 = trace w ++ [ev] /\
    mutationOf ev = None /\
    fetchError [ev] = (Domains p w).1.2.
Proof.
  rewrite Domains_run.
  destruct (GetDomains (remote w)) as [[res|err] s]; cbn;
    eexists; repeat split; reflexivity.
Qed.

(** C2. What [ApplyChanges] returns is the first error a fetch answered
    with, and [nil] when no fetch failed: no record that is already there
    or is missing, and no answer to a change, makes an error. When the
    domains were fetched and the planning gave a plan, [ApplyChanges]
    returns [nil] and, unless in dry-run mode, has changed every planned
    domain, in order of the plan, once, whatever the remote service
    answered: its records replaced when the plan has records for it, the
    domain deleted when it has none; and it has logged one line for every
    planned domain. A record to create that is there already, and a record to
    update or delete that is missing, are logged and left out, see
    [createRecord_exists], [updateRecord_missing], [deleteRecord_missing]. *)
Theorem ApplyChanges_error_only_from_fetch (p : ShamanProvider)
    (o : RangeSeeds) (changes : plan.Changes) (w : World St) :
  exists evs,
    trace (ApplyChanges p o changes w).2 = trace w ++ evs /\
    (ApplyChanges p o changes w).1 = fetchError evs /\
    forall domains w1 plannedDomains w2,
      newShamanChanges o (plan.Create changes) (plan.UpdateNew changes)
        (plan.Delete changes) <> [] ->
      Domains p w = ((domains, None), w1) ->
      planChanges domains
        (newShamanChanges o (plan.Create changes) (plan.UpdateNew changes)
           (plan.Delete changes)) [] w1
      = (Ok plannedDomains, w2) ->
      (ApplyChanges p o changes w).1 = None /\
      omap mutationOf evs
      = (if DryRun p then [] else map planned plannedDomains) /\
      length (logs (ApplyChanges p o changes w).2)
      = (length (logs w2)
         + if DryRun p then 0 else length plannedDomains)%nat.
Proof.
  unfold ApplyChanges.
  generalize (newShamanChanges o (plan.Create changes)
                (plan.UpdateNew changes) (plan.Delete changes)).
  clear changes. intros changes. unfold submitChanges.
  destruct changes as [|c changes].
  { exists []. cbn. by rewrite app_nil_r. }
  cbn [length Nat.eqb]. rewrite bind_run.
  destruct (Domains_trace p w) as (ev & Ht & Hm & He).
  destruct (Domains p w) as [[domains [err|]] w1]; cbn [fst snd] in *.
  { exists [ev]. by cbn [ret fst snd]. }
  rewrite bind_run.
  destruct (Fetching_planChanges domains (c :: changes) [] w1)
    as (evs & Ht' & Hm' & He').
  destruct (planChanges domains (c :: changes) [] w1) as [[pds|err] w2]
    eqn:Hplan; cbn [fst snd errorOf] in *.
  2:{ exists (ev :: evs). cbn [ret fst snd].
      rewrite Ht', Ht, <- app_assoc.
      change (ev :: evs) with ([ev] ++ evs).
      rewrite fetchError_app, He, He'. split; [done|split; [done|]].
      intros ? ? ? ? _ [= <- <-]. by rewrite Hplan. }
  assert (Hfetch : fetchError (ev :: evs) = None).
  { change (ev :: evs) with ([ev] ++ evs).
    by rewrite fetchError_app, He, He'. }
  assert (Hmut : omap mutationOf (ev :: evs) = []).
  { change (ev :: evs) with ([ev] ++ evs).
    rewrite omap_app, Hm'. cbn [omap list_omap app]. by rewrite Hm. }
  destruct (DryRun p).
  - exists (ev :: evs). cbn [ret fst snd].
    rewrite Ht', Ht, <- app_assoc. split; [done|split; [done|]].
    intros ? ? ? ? _ [= <- <-]. rewrite Hplan. intros [= <- <-].
    by rewrite Nat.add_0_r.
  - rewrite bind_run. cbn [ret fst snd].
    destruct (applyPlan_trace pds w2) as (evs2 & Ht2 & Hm2 & He2 & Hl2).
    exists ((ev :: evs) ++ evs2).
    rewrite Ht2, Ht', Ht, <- !app_assoc.
    rewrite fetchError_app, Hfetch, He2. split; [done|split; [done|]].
    intros ? ? ? ? _ [= <- <-]. rewrite Hplan. intros [= <- <-].
    by rewrite omap_app, Hmut, Hm2.
Qed.

(** C6. With nothing to create, update or delete, [ApplyChanges] returns
    [nil] and leaves the world as it is: no call to the remote service, not
    even for the domains, and no line logged. *)
Theorem ApplyChanges_empty (p : ShamanProvider) (o : RangeSeeds)
    (updateOld : list Endpoint) (w : World St) :
  ApplyChanges p o
    {| plan.Create := []; plan.UpdateOld := updateOld;
       plan.UpdateNew := []; plan.Delete := [] |} w
  = (None, w).
Proof.
  unfold ApplyChanges. cbn [plan.Create plan.UpdateNew plan.Delete].
  by rewrite newShamanChanges_nil.
Qed.

(** C8. In dry-run mode [ApplyChanges] changes nothing on the remote
    service and returns what the planning returns: the first error a fetch
    answered with, [nil] when no fetch failed. The planning is that of the
    normal mode: both modes return the same error, and when the planning
    gives a plan the dry run stops in the world the planning left, from
    which the normal mode goes on to apply that plan. *)
Theorem ApplyChanges_dry_run (p : ShamanProvider) (o : RangeSeeds)
    (changes : plan.Changes) (w : World St) :
  (exists evs,
      trace (ApplyChanges (withDryRun true p) o changes w).2
      = trace w ++ evs /\
      omap mutationOf evs = [] /\
      (ApplyChanges (withDryRun true p) o changes w).1 = fetchError evs) /\
  (ApplyChanges (withDryRun true p) o changes w).1
  = (ApplyChanges (withDryRun false p) o changes w).1 /\
  forall domains w1 plannedDomains w2,
    newShamanChanges o (plan.Create changes) (plan.UpdateNew changes)
      (plan.Delete changes) <> [] ->
    Domains p w = ((domains, None), w1) ->
    planChanges domains
      (newShamanChanges o (plan.Create changes) (plan.UpdateNew changes)
         (plan.Delete changes)) [] w1
    = (Ok plannedDomains, w2) ->
    ApplyChanges (withDryRun true p) o changes w = (None, w2) /\
    ApplyChanges (withDryRun false p) o changes w
    = (None, (forM plannedDomains applyDomain tt w2).2).
Proof.
  unfold ApplyChanges.
  generalize (newShamanChanges o (plan.Create changes)
                (plan.UpdateNew changes) (plan.Delete changes)).
  intros cs. unfold submitChanges.
  destruct cs as [|c cs].
  { cbn. split; [exists []; by rewrite app_nil_r|done]. }
  cbn [length Nat.eqb]. rewrite !bind_run.
  change (Domains (withDryRun true p) w) with (Domains p w).
  change (Domains (withDryRun false p) w) with (Domains p w).
  destruct (Domains_trace p w) as (ev & Ht & Hm & He).
  destruct (Domains p w) as [[domains [err|]] w1]; cbn [fst snd] in *.
  { cbn [ret fst snd]. split; [|done]. exists [ev].
    cbn [omap list_omap]. by rewrite Hm. }
  rewrite !bind_run.
  destruct (Fetching_planChanges domains (c :: cs) [] w1)
    as (evs & Ht' & Hm' & He').
  assert (Hmut : omap mutationOf (ev :: evs) = []).
  { change (ev :: evs) with ([ev] ++ evs).
    rewrite omap_app, Hm'. cbn [omap list_omap app]. by rewrite Hm. }
  assert (Hfetch : fetchError (ev :: evs)
                   = errorOf (planChanges domains (c :: cs) [] w1).1).
  { change (ev :: evs) with ([ev] ++ evs).
    by rewrite fetchError_app, He, He'. }
  destruct (planChanges domains (c :: cs) [] w1) as [[pds|err] w2]
    eqn:Hplan; cbn [fst snd errorOf withDryRun DryRun ret] in *.
  - rewrite bind_run. cbn [ret fst snd].
    split; [|split; [done|]].
    + exists (ev :: evs). by rewrite Ht', Ht, <- app_assoc.
    + intros ? ? ? ? _ [= <- <-]. rewrite Hplan. by intros [= <- <-].
  - split; [|split; [done|]].
    + exists (ev :: evs). by rewrite Ht', Ht, <- app_assoc.
    + intros ? ? ? ? _ [= <- <-]. by rewrite Hplan.
Qed.

End ApplyFacts.

(** C8, as the specification words it, fails when a fetch fails: in dry-run
    mode, with changes to apply and a remote service that cannot list its
    domains, [ApplyChanges] returns the error of the fetch, not [nil]. *)
Lemma ApplyChanges_dry_run_fetch_error :
  (Shaman.ApplyChanges (host := Test.testHost)
     (client := Test.mockShamanClientFail) (Test.provider true) Test.seeds0
     Test.testChanges Test.world0).1
  = Some "Can't get domains".
Proof. by vm_compute. Qed.

(** The changes of the tests against a remote service that refuses every
    change: the planning gives a plan, and [ApplyChanges] returns [nil]. *)
Lemma ApplyChanges_error_only_from_fetch_witness :
  (Shaman.ApplyChanges (host := Test.testHost) (client := Test.readOnlyClient)
     (Test.provider false) Test.seeds0 Test.testChanges Test.world0).1
  = None.
Proof.
  destruct (ApplyChanges_error_only_from_fetch (host := Test.testHost)
              (client := Test.readOnlyClient) (Test.provider false)
              Test.seeds0 Test.testChanges Test.world0)
    as (evs & _ & _ & Hplan).
  edestruct Hplan as [Hnil _];
    [vm_compute; discriminate | vm_compute; reflexivity
    | vm_compute; reflexivity |].
  exact Hnil.
Defined.

(** The changes of the tests in dry-run mode: the domains are fetched and
    nothing else is asked of the remote service. *)
Lemma ApplyChanges_dry_run_witness :
  Shaman.trace
    (Shaman.ApplyChanges (host := Test.testHost)
       (client := Test.mockShamanClient)
       (Shaman.withDryRun true (Test.provider false)) Test.seeds0
       Test.testChanges Test.world0).2
  = [Shaman.EvGetDomains (Ok Test.values2test_domains)].
Proof.
  destruct (ApplyChanges_dry_run (host := Test.testHost)
              (client := Test.mockShamanClient) (Test.provider false)
              Test.seeds0 Test.testChanges Test.world0)
    as (_ & _ & Hplan).
  edestruct Hplan as [Hdry _];
    [vm_compute; discriminate | vm_compute; reflexivity
    | vm_compute; reflexivity |].
  rewrite Hdry. reflexivity.
Defined.

(** The record of the first of two endpoints to create, its TTL not
    configured. *)
Lemma TTL_truncated_to_uint8_witness :
  let r := DNSRecord.mk 60 "IN" "A" "1.2.3.4" in
  0 <= DNSRecord.TTL r < 256 /\
  exists e, e ∈ plan.Create Test.twoDomains ++ [] ++ [] /\
    DNSRecord.TTL r
    = (if IsConfigured (Host := Test.testHost) (RecordTTL e) then RecordTTL e
       else Shaman.defaultShamanRecordTTL) mod 256.
Proof.
  apply (proj1 (TTL_truncated_to_uint8 (host := Test.testHost)) Test.seeds0
           (plan.Create Test.twoDomains) [] []
           (Shaman.shamanChange.mk "a.example.org"
              [ Shaman.shamanChangeSet.mk "CREATE"
                  (Domain.mk "a.example.org"
                     [DNSRecord.mk 60 "IN" "A" "1.2.3.4"]);
                Shaman.shamanChangeSet.mk "UPDATE"
                  (Domain.mk "a.example.org" []);
                Shaman.shamanChangeSet.mk "DELETE"
                  (Domain.mk "a.example.org" []) ])
           (Shaman.shamanChangeSet.mk "CREATE"
              (Domain.mk "a.example.org"
                 [DNSRecord.mk 60 "IN" "A" "1.2.3.4"]))).
  - vm_compute. left.
  - left.
  - left.
Defined.

(** A response with a record of type A and one of type SOA: the endpoint
    of the first. *)
Lemma Records_skips_unsupported_witness :
  exists t,
    SupportedRecordType (Host := Test.testHost) t = true /\
    mkEndpoint "nanopack.io" ["P. Sherman 42 Wallaby Way"] "A" 60
    = Shaman.typeEndpoint (host := Test.testHost) "nanopack.io" t
        [DNSRecordResponse.mk 60 "IN" "A" "P. Sherman 42 Wallaby Way";
         DNSRecordResponse.mk 60 "IN" "SOA" "ns1.nanopack.io"].
Proof.
  apply (proj1 (proj2 (Records_skips_unsupported (host := Test.testHost)
                         (client := Test.mockShamanClient))) []
           (DomainResponse.mk "nanopack.io"
              [DNSRecordResponse.mk 60 "IN" "A" "P. Sherman 42 Wallaby Way";
               DNSRecordResponse.mk 60 "IN" "SOA" "ns1.nanopack.io"])).
  vm_compute. left.
Defined.

(** ** The scenarios of the specification and the provider's tests *)

(** The remote service has nanopack.io with one A record: [Records] returns
    one endpoint, of that name and type, with the address as its target. *)
Example Records_nanopack :
  (Shaman.Records (host := Test.testHost) (client := Test.mockShamanClient)
     (@Shaman.mkShamanProvider Test.testHost ["nanopack.io"] false)
     (fun _ => []) Test.world0).1
  = ([mkEndpoint "nanopack.io" ["P. Sherman 42 Wallaby Way"] "A" 60], None).
Proof. by vm_compute. Qed.

(** [TestShamanRecords]: three endpoints from the mock client, and an error
    from the failing one. *)
Example TestShamanRecords :
  length
    (Shaman.Records (host := Test.testHost) (client := Test.mockShamanClient)
       (Test.provider false) (fun _ => []) Test.world0).1.1
  = length Test.values2test_records
  /\ (Shaman.Records (host := Test.testHost)
        (client := Test.mockShamanClientFail) (Test.provider false)
        (fun _ => []) Test.world0).1
     = ([], Some "Can't get domains").
Proof. by vm_compute. Qed.

(** Creating one endpoint of a domain the remote service does not have: one
    call, replacing the records of the domain with the one record. *)
Example ApplyChanges_create_one :
  Shaman.ApplyChanges (host := Test.testHost) (client := Test.mockShamanClient)
    (Test.provider false) Test.seeds0
    (plan.mkChanges [mkEndpoint "new.example.com" ["1.2.3.4"] "A" 0] [] [] [])
    Test.world0
  = (None,
     Shaman.mkWorld tt
       [ Shaman.EvGetDomains (Ok Test.values2test_domains);
         Shaman.EvReplaceDomainRecords "new.example.com"
           [DNSRecord.mk 60 "IN" "A" "1.2.3.4"]
           (Ok (DomainResponse.mk "" [])) ]
       [ Shaman.LogRecord Info "Record requested to be created."
           "new.example.com" (DNSRecord.mk 60 "IN" "A" "1.2.3.4") "CREATE";
         Shaman.LogDomain Debug "Record set applied to domain."
           "new.example.com" [DNSRecord.mk 60 "IN" "A" "1.2.3.4"] ]).
Proof. by vm_compute. Qed.

(** Deleting the only record of a domain: the domain is deleted, its records
    are not replaced by none. *)
Example ApplyChanges_delete_last :
  Shaman.trace
    (Shaman.ApplyChanges (host := Test.testHost)
       (client := Test.mockShamanClient) (Test.provider false) Test.seeds0
       (plan.mkChanges [] [] []
          [mkEndpoint "nanopack.io" ["P. Sherman 42 Wallaby Way"] "A" 0])
       Test.world0).2
  = [ Shaman.EvGetDomains (Ok Test.values2test_domains);
      Shaman.EvGetRecords "nanopack.io"
        (Ok (DomainResponse.mk "nanopack.io"
               [DNSRecordResponse.mk 60 "IN" "A" "P. Sherman 42 Wallaby Way"]));
      Shaman.EvDeleteDomain "nanopack.io" (Ok (mkMsgResponse "")) ].
Proof. by vm_compute. Qed.

(** [TestShamanApplyChanges]: no error, with changes and without. *)
Example TestShamanApplyChanges :
  (Shaman.ApplyChanges (host := Test.testHost)
     (client := Test.mockShamanClient) (Test.provider false) Test.seeds0
     Test.testChanges Test.world0).1 = None
  /\ (Shaman.ApplyChanges (host := Test.testHost)
        (client := Test.mockShamanClient) (Test.provider false) Test.seeds0
        (plan.mkChanges [] [] [] []) Test.world0)
     = (None, Test.world0).
Proof. by vm_compute. Qed.

(** Two endpoints to create, of two domains: whichever domain the range over
    [groups] visits first, both domains get the address of that one. *)
Example ApplyChanges_two_domains :
  omap Shaman.mutationOf
    (Shaman.trace
       (Shaman.ApplyChanges (host := Test.testHost)
          (client := Test.mockShamanClient) (Test.provider false)
          (Shaman.mkRangeSeeds [] [0%nat] (fun _ => [])) Test.twoDomains
          Test.world0).2)
  = [ Shaman.Replace "a.example.org" [DNSRecord.mk 60 "IN" "A" "1.2.3.4"];
      Shaman.Replace "b.example.org" [DNSRecord.mk 60 "IN" "A" "1.2.3.4"] ]
  /\ omap Shaman.mutationOf
       (Shaman.trace
          (Shaman.ApplyChanges (host := Test.testHost)
             (client := Test.mockShamanClient) (Test.provider false)
             (Shaman.mkRangeSeeds [] [1%nat] (fun _ => [])) Test.twoDomains
             Test.world0).2)
     = [ Shaman.Replace "b.example.org" [DNSRecord.mk 60 "IN" "A" "5.6.7.8"];
         Shaman.Replace "a.example.org" [DNSRecord.mk 60 "IN" "A" "5.6.7.8"] ].
Proof. by vm_compute. Qed.

(** ** The planning of one domain *)

Section PlanFacts.

Import Shaman.
Context {St : Type}.

Lemma same_key (a b : DNSRecord) :
  sameShamanDNSRecord a b = true <-> recordKey a = recordKey b.
Proof.
  unfold sameShamanDNSRecord, recordKey.
  rewrite !andb_true_iff, !String.eqb_eq. split.
  - by intros [[-> ->] ->].
  - intros [= -> -> ->]. done.
Qed.

Lemma same_refl (a : DNSRecord) : sameShamanDNSRecord a a = true.
Proof. by apply same_key. Qed.

Lemma same_key_l (a b x : DNSRecord) :
  recordKey a = recordKey b ->
  sameShamanDNSRecord a x = sameShamanDNSRecord b x.
Proof.
  unfold sameShamanDNSRecord, recordKey. by intros [= -> -> ->].
Qed.

Lemma no_match_key (pl : list DNSRecord) ccs :
  existsb (fun pr => sameShamanDNSRecord pr ccs) pl = false <->
  recordKey ccs ∉ map recordKey pl.
Proof.
  induction pl as [|pr pl IH]; cbn.
  - split; [intros _ Hin; by apply elem_of_nil in Hin|done].
  - rewrite orb_false_iff, IH, not_elem_of_cons. split.
    + intros [Hpr Hpl]. split; [|done].
      intros Hk. symmetry in Hk. apply same_key in Hk. congruence.
    + intros [Hpr Hpl]. split; [|done].
      destruct (sameShamanDNSRecord pr ccs) eqn:Hs; [|done].
      apply same_key in Hs. congruence.
Qed.

Lemma forM_fst {A B : Type} (f : A -> B -> M (St := St) A) (g : A -> B -> A)
    (l : list B) :
  (forall a b w, (f a b w).1 = g a b) ->
  forall a w, (forM l f a w).1 = fold_left g l a.
Proof.
  intros Hf. induction l as [|b l IH]; intros a w; [done|].
  cbn [forM fold_left]. by rewrite bind_run, IH, Hf.
Qed.

(** *** Creating *)

Lemma createRecord_fst domain pl ccs (w : World St) :
  (createRecord domain pl ccs w).1 = createPlanned pl ccs.
Proof.
  unfold createPlanned.
  destruct (existsb (fun pr => sameShamanDNSRecord pr ccs) pl) eqn:Hex.
  - by rewrite createRecord_exists.
  - by rewrite createRecord_new.
Qed.

Lemma createPlanned_has (pl : list DNSRecord) ccs :
  existsb (fun pr => sameShamanDNSRecord pr ccs) (createPlanned pl ccs) = true.
Proof.
  unfold createPlanned.
  destruct (existsb _ pl) eqn:Hex; [done|].
  rewrite existsb_app. cbn. by rewrite same_refl, orb_true_r.
Qed.

Lemma createPlanned_distinct (pl : list DNSRecord) ccs :
  distinctRecords pl -> distinctRecords (createPlanned pl ccs).
Proof.
  unfold distinctRecords, createPlanned. intros Hnd.
  destruct (existsb _ pl) eqn:Hex; [done|].
  rewrite map_app. cbn [map].
  apply NoDup_app. split; [done|]. split.
  - intros k Hk ->%list_elem_of_singleton.
    by apply no_match_key in Hex.
  - apply NoDup_singleton.
Qed.

(** *** Updating *)

Lemma update_loop domain ccs (todo : list DNSRecord) :
  forall (filled : list DNSRecord) (found : bool) (w : World St),
    forM (imap (fun i => pair (length filled + i)%nat) todo)
      (fun (pf : list DNSRecord * bool) (ipr : nat * DNSRecord) =>
         if sameShamanDNSRecord ipr.2 ccs then
           bind
             (log (LogRecord Info "Record requested to be modified."
                     domain ccs shamanUpdate))
             (fun _ =>
                ret (<[ipr.1 :=
                         DNSRecord.mk (DNSRecord.TTL ccs) (DNSRecord.Class ccs)
                           (DNSRecord.Type_ ccs) (DNSRecord.Address ccs)]>
                       pf.1, true))
         else ret pf)
      (filled ++ todo, found) w
    = ((filled ++ updatePlanned todo ccs,
        found || existsb (fun pr => sameShamanDNSRecord pr ccs) todo),
       mkWorld (remote w) (trace w)
         (logs w
            ++ replicate
                 (length
                    (List.filter (fun pr => sameShamanDNSRecord pr ccs) todo))
                 (LogRecord Info "Record requested to be modified." domain
                    ccs shamanUpdate))).
Proof.
  assert (Heta : DNSRecord.mk (DNSRecord.TTL ccs) (DNSRecord.Class ccs)
                  (DNSRecord.Type_ ccs) (DNSRecord.Address ccs) = ccs)
    by (by destruct ccs).
  rewrite Heta.
  induction todo as [|pr rest IH]; intros filled found w.
  - cbn. by rewrite orb_false_r, !app_nil_r, world_eta.
  - cbn [imap forM]. rewrite bind_run. cbn [snd fst].
    unfold updatePlanned. cbn [map existsb List.filter].
    fold (updatePlanned rest ccs).
    rewrite (imap_ext _ (fun i => pair (length (filled ++ [pr]) + i)%nat))
      by (intros; cbn; rewrite length_app; cbn; f_equal; lia).
    destruct (sameShamanDNSRecord pr ccs).
    + rewrite bind_run. cbn [log ret fst snd].
      rewrite Nat.add_0_r, insert_app_r_alt, Nat.sub_diag by lia.
      cbn [insert list_insert].
      replace (filled ++ ccs :: rest) with ((filled ++ [ccs]) ++ rest)
        by (by rewrite <- app_assoc).
      rewrite (imap_ext _ (fun i => pair (length (filled ++ [ccs]) + i)%nat))
        by (intros; cbn; rewrite !length_app; done).
      rewrite IH. cbn [remote trace logs length replicate orb].
      by rewrite orb_true_r, <- !app_assoc.
    + cbn [ret fst snd].
      replace (filled ++ pr :: rest) with ((filled ++ [pr]) ++ rest)
        by (by rewrite <- app_assoc).
      rewrite IH. cbn [orb]. by rewrite <- !app_assoc.
Qed.

Lemma updateRecord_fst domain pl ccs (w : World St) :
  (updateRecord domain pl ccs w).1 = updatePlanned pl ccs.
Proof.
  unfold updateRecord. rewrite bind_run.
  pose proof (update_loop domain ccs pl [] false w) as Hloop.
  cbn [length app Nat.add] in Hloop.
  change (imap (fun i => pair i) pl) with (imap pair pl) in Hloop.
  rewrite Hloop. cbn [fst snd orb].
  destruct (negb _); [by rewrite bind_run|done].
Qed.

Lemma updatePlanned_keys (pl : list DNSRecord) ccs :
  map recordKey (updatePlanned pl ccs) = map recordKey pl.
Proof.
  unfold updatePlanned. rewrite map_map. apply map_ext. intros pr.
  destruct (sameShamanDNSRecord pr ccs) eqn:Hs; [|done].
  symmetry. by apply same_key.
Qed.

(** *** Deleting *)

Lemma delete_idx ccs (pl : list DNSRecord) :
  forall (k : nat) (idx : Z),
    fold_left
      (fun (idx : Z) (ipr : nat * DNSRecord) =>
         if sameShamanDNSRecord ipr.2 ccs then Z.of_nat ipr.1 else idx)
      (imap (fun i => pair (k + i)%nat) pl) idx
    = if existsb (fun pr => sameShamanDNSRecord pr ccs) pl
      then Z.of_nat (k + lastIndex pl ccs) else idx.
Proof.
  induction pl as [|pr rest IH]; intros k idx; [done|].
  cbn [imap fold_left existsb lastIndex snd fst].
  rewrite (imap_ext _ (fun i => pair (S k + i)%nat))
    by (intros; cbn; f_equal; lia).
  rewrite IH.
  destruct (existsb _ rest).
  - rewrite orb_true_r. f_equal. lia.
  - rewrite orb_false_r. destruct (sameShamanDNSRecord pr ccs); [|done].
    f_equal.
Qed.

Lemma deletePlanned_no_match (pl : list DNSRecord) ccs :
  existsb (fun pr => sameShamanDNSRecord pr ccs) pl = false ->
  deletePlanned pl ccs = pl.
Proof.
  destruct pl as [|pr rest]; [done|]. cbn.
  intros [-> ->]%orb_false_iff. done.
Qed.

Lemma delete_take_drop (pl : list DNSRecord) ccs :
  existsb (fun pr => sameShamanDNSRecord pr ccs) pl = true ->
  take (lastIndex pl ccs) pl ++ drop (S (lastIndex pl ccs)) pl
  = deletePlanned pl ccs.
Proof.
  induction pl as [|pr rest IH]; [done|].
  cbn [existsb lastIndex deletePlanned]. intros Hex.
  destruct (existsb _ rest) eqn:Hrest.
  - cbn. f_equal. by apply IH.
  - rewrite orb_false_r in Hex. rewrite Hex. by cbn.
Qed.

Lemma deleteRecord_fst domain pl ccs (w : World St) :
  (deleteRecord domain pl ccs w).1 = deletePlanned pl ccs.
Proof.
  unfold deleteRecord.
  pose proof (delete_idx ccs pl 0 (-1)) as Hidx.
  cbn [Nat.add] in Hidx.
  change (imap (fun i => pair i) pl) with (imap pair pl) in Hidx.
  rewrite Hidx.
  destruct (existsb (fun pr => sameShamanDNSRecord pr ccs) pl) eqn:Hex.
  - destruct (Z.eqb_spec (Z.of_nat (lastIndex pl ccs)) (-1)) as [Heq|_];
      [lia|].
    rewrite bind_run. cbn [log ret fst snd].
    rewrite Nat2Z.id.
    replace (Z.to_nat (Z.of_nat (lastIndex pl ccs) + 1))
      with (S (lastIndex pl ccs)) by lia.
    by apply delete_take_drop.
  - rewrite Z.eqb_refl, bind_run. cbn [log ret fst snd].
    by rewrite deletePlanned_no_match.
Qed.

Lemma deletePlanned_sublist (pl : list DNSRecord) ccs :
  sublist (deletePlanned pl ccs) pl.
Proof.
  induction pl as [|pr rest IH]; [done|]. cbn.
  destruct (existsb _ rest).
  - by apply sublist_skip.
  - destruct (sameShamanDNSRecord pr ccs); [by apply sublist_cons|done].
Qed.

Lemma deletePlanned_distinct (pl : list DNSRecord) ccs :
  distinctRecords pl -> distinctRecords (deletePlanned pl ccs).
Proof.
  unfold distinctRecords. intros Hnd.
  eapply sublist_NoDup; [exact Hnd|].
  change (map recordKey ?l) with (recordKey <$> l).
  apply fmap_sublist, deletePlanned_sublist.
Qed.

Lemma deletePlanned_gone (pl : list DNSRecord) ccs :
  distinctRecords pl ->
  existsb (fun pr => sameShamanDNSRecord pr ccs) (deletePlanned pl ccs)
  = false.
Proof.
  unfold distinctRecords.
  induction pl as [|pr rest IH]; [done|].
  cbn [map deletePlanned]. intros [Hnot Hnd]%NoDup_cons.
  destruct (existsb (fun pr => sameShamanDNSRecord pr ccs) rest) eqn:Hrest.
  - cbn [existsb]. rewrite IH, orb_false_r by done.
    destruct (sameShamanDNSRecord pr ccs) eqn:Hs; [|done].
    exfalso. apply Hnot. apply same_key in Hs. rewrite Hs.
    destruct (decide (recordKey ccs ∈ map recordKey rest)) as [|Hn]; [done|].
    apply no_match_key in Hn. congruence.
  - destruct (sameShamanDNSRecord pr ccs) eqn:Hs; [done|].
    cbn [existsb]. by rewrite Hs, Hrest.
Qed.

Lemma create_delete_planned (pl : list DNSRecord) ccs :
  existsb (fun pr => sameShamanDNSRecord pr ccs) pl = false ->
  deletePlanned (createPlanned pl ccs) ccs = pl.
Proof.
  unfold createPlanned. intros Hex. rewrite Hex.
  induction pl as [|pr rest IH].
  - cbn. by rewrite same_refl.
  - cbn in Hex. apply orb_false_iff in Hex as [Hpr Hrest].
    cbn [app deletePlanned]. rewrite existsb_app. cbn [existsb].
    rewrite same_refl, orb_true_r. cbn [orb]. f_equal. by apply IH.
Qed.

End PlanFacts.

(** ** What the three loops over the requested records do *)

Section RecordLoops.

Import Shaman.
Context {St : Type}.

Lemma deletePlanned_last (before after : list DNSRecord) pr ccs :
  sameShamanDNSRecord pr ccs = true ->
  existsb (fun pr => sameShamanDNSRecord pr ccs) after = false ->
  deletePlanned (before ++ pr :: after) ccs = before ++ after.
Proof.
  intros Hpr Hafter. induction before as [|b before IH].
  - cbn. by rewrite Hafter, Hpr.
  - cbn [app deletePlanned]. rewrite existsb_app. cbn [existsb].
    rewrite Hpr, orb_true_r. cbn [orb]. by rewrite IH.
Qed.

Lemma updatePlanned_twice (pl : list DNSRecord) ccs :
  updatePlanned (updatePlanned pl ccs) ccs = updatePlanned pl ccs.
Proof.
  unfold updatePlanned. rewrite map_map. apply map_ext. intros pr.
  destruct (sameShamanDNSRecord pr ccs) eqn:Hs; [|by rewrite Hs].
  by rewrite same_refl.
Qed.

(** X1. [createRecord] appends the record to the planned records, unless
    one of them has its class, type and address: then the planned records
    stay as they are. Either way the records it returns hold a record with
    that class, type and address, and the remote service is not called. *)
Theorem createRecord_appends_unless_there domain
    (plannedRecords : list DNSRecord) ccs (w : World St) :
  (createRecord domain plannedRecords ccs w).1
  = (if existsb (fun pr => sameShamanDNSRecord pr ccs) plannedRecords
     then plannedRecords else plannedRecords ++ [ccs]) /\
  existsb (fun pr => sameShamanDNSRecord pr ccs)
    (createRecord domain plannedRecords ccs w).1 = true /\
  remote (createRecord domain plannedRecords ccs w).2 = remote w /\
  trace (createRecord domain plannedRecords ccs w).2 = trace w.
Proof.
  rewrite createRecord_fst. split; [done|].
  split; [apply createPlanned_has|].
  apply Quiet_createRecord.
Qed.

(** X2. [updateRecord] puts the record in the place of every planned record
    with its class, type and address and leaves the others: the planned
    records keep their number, and class, type and address at every
    position, so that only a TTL can change. The remote service is not
    called. *)
Theorem updateRecord_replaces_same domain
    (plannedRecords : list DNSRecord) ccs (w : World St) :
  (updateRecord domain plannedRecords ccs w).1
  = map (fun pr => if sameShamanDNSRecord pr ccs then ccs else pr)
      plannedRecords /\
  length (updateRecord domain plannedRecords ccs w).1
  = length plannedRecords /\
  map recordKey (updateRecord domain plannedRecords ccs w).1
  = map recordKey plannedRecords /\
  remote (updateRecord domain plannedRecords ccs w).2 = remote w /\
  trace (updateRecord domain plannedRecords ccs w).2 = trace w.
Proof.
  rewrite updateRecord_fst. split; [done|].
  split; [unfold updatePlanned; by rewrite length_map|].
  split; [apply updatePlanned_keys|].
  apply Quiet_updateRecord.
Qed.

(** X3. [deleteRecord] takes out one record only, the last of the planned
    records with the class, type and address of the record: the records
    before it and after it stay, in order, also those before it that have
    the same class, type and address. *)
Theorem deleteRecord_removes_last domain (before after : list DNSRecord)
    pr ccs (w : World St) :
  sameShamanDNSRecord pr ccs = true ->
  existsb (fun pr => sameShamanDNSRecord pr ccs) after = false ->
  (deleteRecord domain (before ++ pr :: after) ccs w).1 = before ++ after /\
  remote (deleteRecord domain (before ++ pr :: after) ccs w).2 = remote w /\
  trace (deleteRecord domain (before ++ pr :: after) ccs w).2 = trace w.
Proof.
  intros Hpr Hafter. rewrite deleteRecord_fst.
  split; [by apply deletePlanned_last|].
  apply Quiet_deleteRecord.
Qed.

(** X4. When no two planned records have the same class, type and address,
    this is still so after [createRecord], after [updateRecord] and after
    [deleteRecord], and after [deleteRecord] no planned record has the
    class, type and address of the deleted one. *)
Theorem planned_records_stay_distinct domain
    (plannedRecords : list DNSRecord) ccs (w : World St) :
  distinctRecords plannedRecords ->
  distinctRecords (createRecord domain plannedRecords ccs w).1 /\
  distinctRecords (updateRecord domain plannedRecords ccs w).1 /\
  distinctRecords (deleteRecord domain plannedRecords ccs w).1 /\
  existsb (fun pr => sameShamanDNSRecord pr ccs)
    (deleteRecord domain plannedRecords ccs w).1 = false.
Proof.
  intros Hnd.
  rewrite createRecord_fst, updateRecord_fst, deleteRecord_fst.
  split; [by apply createPlanned_distinct|].
  split; [unfold distinctRecords; by rewrite updatePlanned_keys|].
  split; [by apply deletePlanned_distinct|by apply deletePlanned_gone].
Qed.

(** X5. Deleting a record that has just been created gives back the planned
    records from before, when none of them had its class, type and
    address. *)
Theorem create_then_delete domain (plannedRecords : list DNSRecord) ccs
    (w w' : World St) :
  existsb (fun pr => sameShamanDNSRecord pr ccs) plannedRecords = false ->
  (deleteRecord domain (createRecord domain plannedRecords ccs w).1 ccs w').1
  = plannedRecords.
Proof.
  intros Hex. rewrite createRecord_fst, deleteRecord_fst.
  by apply create_delete_planned.
Qed.

(** X6. Creating a record twice plans what creating it once plans, and so
    does updating: the second call leaves the planned records as the first
    returned them. *)
Theorem create_and_update_twice domain (plannedRecords : list DNSRecord)
    ccs (w w' : World St) :
  (createRecord domain (createRecord domain plannedRecords ccs w).1 ccs w').1
  = (createRecord domain plannedRecords ccs w).1 /\
  (updateRecord domain (updateRecord domain plannedRecords ccs w).1 ccs w').1
  = (updateRecord domain plannedRecords ccs w).1.
Proof.
  rewrite !createRecord_fst, !updateRecord_fst. split.
  - unfold createPlanned at 1. by rewrite createPlanned_has.
  - apply updatePlanned_twice.
Qed.

End RecordLoops.

(** Of two records for 1.2.3.4 and one for 5.6.7.8 between them, the
    second for 1.2.3.4 goes. *)
Lemma deleteRecord_removes_last_witness :
  (Shaman.deleteRecord "example.com"
     [TestMore.recordA; TestMore.recordB; TestMore.recordA'] TestMore.recordA
     Test.world0).1
  = [TestMore.recordA; TestMore.recordB].
Proof.
  exact (proj1 (deleteRecord_removes_last "example.com"
                  [TestMore.recordA; TestMore.recordB] [] TestMore.recordA'
                  TestMore.recordA Test.world0 eq_refl eq_refl)).
Defined.

Lemma planned_records_stay_distinct_witness :
  Shaman.distinctRecords
    (Shaman.createRecord "example.com" [TestMore.recordA] TestMore.recordB
       Test.world0).1.
Proof.
  apply (planned_records_stay_distinct "example.com" [TestMore.recordA]
           TestMore.recordB Test.world0).
  unfold Shaman.distinctRecords. cbn. apply NoDup_singleton.
Defined.

Lemma create_then_delete_witness :
  (Shaman.deleteRecord "example.com"
     (Shaman.createRecord "example.com" [TestMore.recordA] TestMore.recordB
        Test.world0).1 TestMore.recordB Test.world0).1
  = [TestMore.recordA].
Proof.
  apply (create_then_delete "example.com" [TestMore.recordA]
           TestMore.recordB Test.world0 Test.world0).
  reflexivity.
Defined.

(** ** The plan of a domain, and of all of them *)

Section PlanningFacts.

Import Shaman.
Context {host : Host} {St : Type} {client : shamanDNS St}.

Lemma domainFound_listed (domains : DomainsResponse) name :
  domainFound domains name
  = if existsb (fun d => String.eqb d name) domains then 1 else 0.
Proof.
  unfold domainFound. generalize 0.
  induction domains as [|d domains IH]; intros found; [done|].
  cbn [fold_left existsb]. rewrite IH.
  destruct (existsb _ domains); [by rewrite orb_true_r|].
  by rewrite orb_false_r.
Qed.

Lemma seed_loop (records : list DNSRecordResponse) :
  forall plannedRecords : list DNSRecord,
    fold_left
      (fun plannedRecords record =>
         plannedRecords ++
           [{| DNSRecord.TTL := DNSRecordResponse.TTL record;
               DNSRecord.Class := DNSRecordResponse.Class record;
               DNSRecord.Type_ := DNSRecordResponse.Type_ record;
               DNSRecord.Address := DNSRecordResponse.Address record |}])
      records plannedRecords
    = plannedRecords ++ map toDNSRecord records.
Proof.
  induction records as [|r records IH]; intros plannedRecords.
  - by rewrite app_nil_r.
  - cbn [fold_left map]. rewrite IH, <- app_assoc. done.
Qed.

(** The three loops of a turn, from the records [current]. *)
Lemma plan_loops domain c (current : list DNSRecord) (w : World St) :
  let m :=
    bind (forM (requested shamanCreate c) (createRecord domain) current)
      (fun plannedRecords =>
         bind (forM (requested shamanUpdate c) (updateRecord domain)
                 plannedRecords)
           (fun plannedRecords =>
              bind (forM (requested shamanDelete c) (deleteRecord domain)
                      plannedRecords)
                (fun plannedRecords =>
                   ret (Ok {| Domain.Domain := domain;
                              Domain.Records := plannedRecords |})))) in
  (m w).1 = Ok (Domain.mk domain (planRecords current c)) /\
  remote (m w).2 = remote w /\ trace (m w).2 = trace w.
Proof.
  intros m. unfold m. rewrite !bind_run. cbn [ret fst snd]. split.
  - unfold planRecords.
    rewrite (forM_fst _ deletePlanned)
      by (intros; apply deleteRecord_fst).
    rewrite (forM_fst _ updatePlanned)
      by (intros; apply updateRecord_fst).
    by rewrite (forM_fst _ createPlanned)
      by (intros; apply createRecord_fst).
  - destruct (Quiet_forM _ (requested shamanDelete c)
                (Quiet_deleteRecord domain)
                (forM (requested shamanUpdate c) (updateRecord domain)
                   (forM (requested shamanCreate c) (createRecord domain)
                      current w).1
                   (forM (requested shamanCreate c) (createRecord domain)
                      current w).2).1
                (forM (requested shamanUpdate c) (updateRecord domain)
                   (forM (requested shamanCreate c) (createRecord domain)
                      current w).1
                   (forM (requested shamanCreate c) (createRecord domain)
                      current w).2).2) as [-> ->].
    destruct (Quiet_forM _ (requested shamanUpdate c)
                (Quiet_updateRecord domain)
                (forM (requested shamanCreate c) (createRecord domain)
                   current w).1
                (forM (requested shamanCreate c) (createRecord domain)
                   current w).2) as [-> ->].
    apply (Quiet_forM _ (requested shamanCreate c)
             (Quiet_createRecord domain)).
Qed.

Lemma planChange_unlisted (domains : DomainsResponse) c (w : World St) :
  existsb (fun d => String.eqb d (shamanChange.Domain c)) domains = false ->
  (planChange domains c w).1
  = Ok (Domain.mk (shamanChange.Domain c) (planRecords [] c)) /\
  remote (planChange domains c w).2 = remote w /\
  trace (planChange domains c w).2 = trace w.
Proof.
  intros Hex. unfold planChange.
  rewrite domainFound_listed, Hex. cbn [Z.eqb].
  rewrite bind_run. cbn [ret fst snd].
  apply plan_loops.
Qed.

Lemma planChange_listed (domains : DomainsResponse) c (w : World St) :
  existsb (fun d => String.eqb d (shamanChange.Domain c)) domains = true ->
  match GetRecords (shamanChange.Domain c) (remote w) with
  | (Ok records, s) =>
      (planChange domains c w).1
      = Ok (Domain.mk (shamanChange.Domain c)
              (planRecords (map toDNSRecord (DomainResponse.Records records))
                 c)) /\
      remote (planChange domains c w).2 = s /\
      trace (planChange domains c w).2
      = trace w ++ [EvGetRecords (shamanChange.Domain c) (Ok records)]
  | (Err err, s) =>
      planChange domains c w
      = (Err err,
         mkWorld s
           (trace w ++ [EvGetRecords (shamanChange.Domain c) (Err err)])
           (logs w))
  end.
Proof.
  intros Hex. unfold planChange.
  rewrite domainFound_listed, Hex. cbn [Z.eqb Pos.eqb].
  rewrite !bind_run. unfold call.
  destruct (GetRecords (shamanChange.Domain c) (remote w))
    as [[records|err] s]; cbn [ret fst snd]; [|done].
  rewrite seed_loop. cbn [app].
  apply (plan_loops (shamanChange.Domain c) c
           (map toDNSRecord (DomainResponse.Records records))
           (mkWorld s
              (trace w ++ [EvGetRecords (shamanChange.Domain c) (Ok records)])
              (logs w))).
Qed.

Lemma planChanges_run (domains : DomainsResponse) changes :
  forall plannedDomains (w : World St),
  exists evs,
    trace (planChanges domains changes plannedDomains w).2 = trace w ++ evs /\
    match (planChanges domains changes plannedDomains w).1 with
    | Ok pds =>
        map Domain.Domain pds
        = map Domain.Domain plannedDomains
            ++ map shamanChange.Domain changes /\
        map fetchedDomain evs
        = map Some
            (List.filter
               (fun name => existsb (fun d => String.eqb d name) domains)
               (map shamanChange.Domain changes))
    | Err err =>
        map fetchedDomain evs
        `prefix_of`
        map Some
          (List.filter
             (fun name => existsb (fun d => String.eqb d name) domains)
             (map shamanChange.Domain changes)) /\
        exists evs0 d,
          evs = evs0 ++ [EvGetRecords d (Err err)] /\ fetchError evs0 = None
    end.
Proof.
  induction changes as [|c changes IH]; intros plannedDomains w.
  - exists []. cbn. by rewrite !app_nil_r.
  - cbn [planChanges map List.filter]. rewrite bind_run.
    destruct (existsb (fun d => String.eqb d (shamanChange.Domain c)) domains)
      eqn:Hex.
    + pose proof (planChange_listed domains c w Hex) as Hc.
      destruct (GetRecords (shamanChange.Domain c) (remote w))
        as [[records|err] s].
      * destruct Hc as (-> & _ & Ht).
        destruct (IH (plannedDomains
                        ++ [Domain.mk (shamanChange.Domain c)
                              (planRecords
                                 (map toDNSRecord
                                    (DomainResponse.Records records)) c)])
                    (planChange domains c w).2) as (evs & Ht' & Hres).
        exists (EvGetRecords (shamanChange.Domain c) (Ok records) :: evs).
        split; [by rewrite Ht', Ht, <- app_assoc|].
        cbn [map fetchedDomain].
        destruct (planChanges _ _ _ _).1 as [pds|err].
        -- destruct Hres as [-> ->]. split; [|done].
           by rewrite map_app, <- app_assoc.
        -- destruct Hres as (Hpre & evs0 & d & -> & He).
           split; [by apply prefix_cons|].
           by exists (EvGetRecords (shamanChange.Domain c) (Ok records)
                        :: evs0), d.
      * rewrite Hc. cbn [ret fst snd trace].
        exists [EvGetRecords (shamanChange.Domain c) (Err err)].
        split; [done|]. cbn [map fetchedDomain].
        split; [apply prefix_cons, prefix_nil|].
        by exists [], (shamanChange.Domain c).
    + destruct (planChange_unlisted domains c w Hex) as (-> & _ & Ht).
      destruct (IH (plannedDomains
                      ++ [Domain.mk (shamanChange.Domain c)
                            (planRecords [] c)])
                  (planChange domains c w).2) as (evs & Ht' & Hres).
      exists evs. split; [by rewrite Ht', Ht|].
      destruct (planChanges _ _ _ _).1 as [pds|err]; [|done].
      destruct Hres as [-> ->]. split; [|done].
      by rewrite map_app, <- app_assoc.
Qed.

(** X7. One turn of the planning fetches the records of the domain of the
    change only when the remote service lists that domain, and then once:
    a failed fetch ends the turn with its error and nothing logged; the
    plan is made from the records fetched, or from none for a domain that is
    not listed, by creating, then updating, then deleting the records the
    change asks for. *)
Theorem planChange_plan (domains : DomainsResponse) c (w : World St) :
  if existsb (fun d => String.eqb d (shamanChange.Domain c)) domains then
    match GetRecords (shamanChange.Domain c) (remote w) with
    | (Ok records, s) =>
        (planChange domains c w).1
        = Ok (Domain.mk (shamanChange.Domain c)
                (fold_left deletePlanned (requested shamanDelete c)
                   (fold_left updatePlanned (requested shamanUpdate c)
                      (fold_left createPlanned (requested shamanCreate c)
                         (map toDNSRecord
                            (DomainResponse.Records records)))))) /\
        remote (planChange domains c w).2 = s /\
        trace (planChange domains c w).2
        = trace w ++ [EvGetRecords (shamanChange.Domain c) (Ok records)]
    | (Err err, s) =>
        planChange domains c w
        = (Err err,
           mkWorld s
             (trace w ++ [EvGetRecords (shamanChange.Domain c) (Err err)])
             (logs w))
    end
  else
    (planChange domains c w).1
    = Ok (Domain.mk (shamanChange.Domain c)
            (fold_left deletePlanned (requested shamanDelete c)
               (fold_left updatePlanned (requested shamanUpdate c)
                  (fold_left createPlanned (requested shamanCreate c) []))))
    /\ remote (planChange domains c w).2 = remote w
    /\ trace (planChange domains c w).2 = trace w.
Proof.
  destruct (existsb _ domains) eqn:Hex.
  - by apply planChange_listed.
  - by apply planChange_unlisted.
Qed.

(** X8. The planning makes one plan for every change, in the order of the
    changes and with the domain of each, and all it calls is [GetRecords]:
    once for every change whose domain the remote service lists, in the
    order of the changes, and for no other. When a fetch fails, the fetches
    stop there. *)
Theorem planChanges_fetches_listed (domains : DomainsResponse) changes
    (w : World St) :
  exists evs,
    trace (planChanges domains changes [] w).2 = trace w ++ evs /\
    match (planChanges domains changes [] w).1 with
    | Ok pds =>
        map Domain.Domain pds = map shamanChange.Domain changes /\
        map fetchedDomain evs
        = map Some
            (List.filter
               (fun name => existsb (fun d => String.eqb d name) domains)
               (map shamanChange.Domain changes))
    | Err err =>
        map fetchedDomain evs
        `prefix_of`
        map Some
          (List.filter
             (fun name => existsb (fun d => String.eqb d name) domains)
             (map shamanChange.Domain changes)) /\
        exists evs0 d,
          evs = evs0 ++ [EvGetRecords d (Err err)] /\ fetchError evs0 = None
    end.
Proof.
  destruct (planChanges_run domains changes [] w) as (evs & Ht & Hres).
  by exists evs.
Qed.

End PlanningFacts.

(** ** The structures of [newShamanChanges], again *)

Section ChangesMore.

Import Shaman.
Context {host : Host}.

Lemma named_domain (eps : list Endpoint) d :
  existsb (fun e => String.eqb (DNSName e) d) eps = true
  <-> exists e, e ∈ eps /\ DNSName e = d.
Proof.
  rewrite existsb_exists. split; intros (e & He & Hd); exists e.
  - by rewrite list_elem_of_In, <- String.eqb_eq.
  - by rewrite <- list_elem_of_In, String.eqb_eq.
Qed.

Lemma recordsFor_all d (eps : list Endpoint) :
  Forall (fun e => DNSName e = d) eps ->
  recordsFor d eps = flat_map resourceRecordSet eps.
Proof.
  unfold recordsFor. induction 1 as [|e eps He _ IH]; [done|].
  cbn [List.filter]. rewrite He, String.eqb_refl. cbn [flat_map].
  by rewrite IH.
Qed.

Lemma endpointsOf_actions (cr up de : list Endpoint) :
  endpointsOf shamanCreate cr up de = cr /\
  endpointsOf shamanUpdate cr up de = up /\
  endpointsOf shamanDelete cr up de = de.
Proof. by vm_compute. Qed.

(** The structure of the first domain of the range over [groups] holds the
    three record lists of that domain, and no other. *)
Lemma newShamanChanges_first o (cr up de : list Endpoint) c1 rest :
  newShamanChanges o cr up de = c1 :: rest ->
  length (shamanChange.Changes c1) = 3%nat /\
  forall a, isAction a ->
    requested a c1
    = recordsFor (shamanChange.Domain c1) (endpointsOf a cr up de).
Proof.
  rewrite newShamanChanges_shape.
  assert (Hkv := fun d v => proj1 (groups_entry o cr up de d v)).
  revert Hkv.
  generalize (rangeMap (groupsSeed o)
                (groupEndpoints (allendpointsSeed o) (actionsMap cr up de))).
  intros [|[d0 v0] kvs] Hkv; [done|].
  cbn [imap]. intros [= <- _].
  cbn [take flat_map shamanChange.Domain shamanChange.Changes fst].
  destruct (Hkv d0 v0) as [_ ->]; [by left|].
  split.
  - rewrite length_app. cbn [length]. by rewrite setsOf_Permutation.
  - intros a Ha. unfold requested, endpointsOf. cbn [shamanChange.Changes].
    rewrite !(currentChangeSet_Permutation a d0 (recordsFor d0 cr)
                (recordsFor d0 up) (recordsFor d0 de))
      by (done || apply setsOf_Permutation).
    by destruct (String.eqb a shamanCreate), (String.eqb a shamanUpdate).
Qed.

(** Endpoints of one domain make one structure. *)
Lemma newShamanChanges_single o (cr up de : list Endpoint) d :
  Forall (fun e => DNSName e = d) (cr ++ up ++ de) ->
  cr ++ up ++ de <> [] ->
  exists c,
    newShamanChanges o cr up de = [c] /\
    shamanChange.Domain c = d /\
    requested shamanCreate c = flat_map resourceRecordSet cr /\
    requested shamanUpdate c = flat_map resourceRecordSet up /\
    requested shamanDelete c = flat_map resourceRecordSet de.
Proof.
  intros Hall Hne.
  destruct (newShamanChanges_domains o cr up de) as [Hnd Hdom].
  pose proof (newShamanChanges_first o cr up de) as Hfirst.
  revert Hnd Hdom Hfirst.
  generalize (newShamanChanges o cr up de). intros res Hnd Hdom Hfirst.
  assert (Hd : forall d', d' ∈ shamanChange.Domain <$> res -> d' = d).
  { intros d' Hin. apply Hdom, named_domain in Hin as (e & He & <-).
    by eapply List.Forall_forall in Hall; [|by apply list_elem_of_In]. }
  assert (Hin : d ∈ shamanChange.Domain <$> res).
  { apply Hdom, named_domain.
    destruct (cr ++ up ++ de) as [|e eps]; [done|].
    exists e. split; [by left|]. by apply Forall_cons in Hall as [? _]. }
  destruct res as [|c1 [|c2 res]].
  - by apply elem_of_nil in Hin.
  - exists c1. split; [done|].
    assert (Hc1 : shamanChange.Domain c1 = d) by (apply Hd; by left).
    split; [done|].
    destruct (Hfirst c1 [] eq_refl) as [_ Hreq].
    apply Forall_app in Hall as [Hcr Hall].
    apply Forall_app in Hall as [Hup Hde].
    destruct (endpointsOf_actions cr up de) as (Hc & Hu & Hx).
    rewrite (Hreq shamanCreate), (Hreq shamanUpdate), (Hreq shamanDelete)
      by (unfold isAction; auto).
    rewrite Hc, Hu, Hx, Hc1. by rewrite !recordsFor_all.
  - exfalso. cbn [fmap list_fmap] in Hnd, Hd.
    apply NoDup_cons in Hnd as [Hnot _]. apply Hnot.
    rewrite (Hd (shamanChange.Domain c1)) by (by left).
    rewrite <- (Hd (shamanChange.Domain c2)) by (right; by left).
    by left.
Qed.

(** X9. [newShamanChanges] returns one structure for every domain an
    endpoint to create, update or delete names, and no other: the domains
    of the structures are the names of the endpoints, each once, in the
    order of the range over [groups]. *)
Theorem newShamanChanges_one_structure_per_name o
    (cr up de : list Endpoint) :
  map shamanChange.Domain (newShamanChanges o cr up de)
  ≡ₚ remove_dups (map DNSName (cr ++ up ++ de)).
Proof.
  destruct (newShamanChanges_domains o cr up de) as [Hnd Hdom].
  apply NoDup_Permutation; [done|apply NoDup_remove_dups|].
  intros d. rewrite elem_of_remove_dups.
  change (map shamanChange.Domain ?l) with (shamanChange.Domain <$> l).
  rewrite Hdom, named_domain.
  change (map DNSName ?l) with (DNSName <$> l).
  rewrite list_elem_of_fmap. split.
  - intros (e & He & <-). by exists e.
  - intros (e & -> & He). by exists e.
Qed.

(** X10. The first structure [newShamanChanges] returns is the one of its
    domain: it has three record lists, and the records [submitChanges]
    finds in it to create, to update and to delete are those of the
    endpoints to create, to update and to delete that name its domain, one
    record for every target, in the order of the endpoints. *)
Theorem newShamanChanges_first_structure o (cr up de : list Endpoint)
    c1 rest :
  newShamanChanges o cr up de = c1 :: rest ->
  length (shamanChange.Changes c1) = 3%nat /\
  requested shamanCreate c1
  = flat_map resourceRecordSet
      (List.filter
         (fun e => String.eqb (DNSName e) (shamanChange.Domain c1)) cr) /\
  requested shamanUpdate c1
  = flat_map resourceRecordSet
      (List.filter
         (fun e => String.eqb (DNSName e) (shamanChange.Domain c1)) up) /\
  requested shamanDelete c1
  = flat_map resourceRecordSet
      (List.filter
         (fun e => String.eqb (DNSName e) (shamanChange.Domain c1)) de).
Proof.
  intros Hres.
  destruct (newShamanChanges_first o cr up de c1 rest Hres) as [Hlen Hreq].
  split; [done|].
  destruct (endpointsOf_actions cr up de) as (Hc & Hu & Hx).
  rewrite (Hreq shamanCreate), (Hreq shamanUpdate), (Hreq shamanDelete)
    by (unfold isAction; auto).
  rewrite Hc, Hu, Hx. unfold recordsFor. by split; [|split].
Qed.

End ChangesMore.

(** ** [ApplyChanges], from the endpoints to the remote service *)

Section ApplyMore.

Import Shaman.
Context {host : Host} {St : Type} {client : shamanDNS St}.

Lemma mutatedDomain_planned pd : mutatedDomain (planned pd) = Domain.Domain pd.
Proof. unfold planned. by destruct (Domain.Records pd). Qed.

Lemma not_listed (domains : list string) d :
  d ∉ domains -> existsb (fun x => String.eqb x d) domains = false.
Proof.
  intros Hd. destruct (existsb _ domains) eqn:Hex; [|done].
  apply existsb_exists in Hex as (x & Hx & ->%String.eqb_eq).
  by apply list_elem_of_In in Hx.
Qed.

(** What [submitChanges] does with changes, once the domains are there
    and the planning went through. *)
Lemma submitChanges_run (p : ShamanProvider) c changes (w : World St)
    domains w1 plannedDomains w2 :
  Domains p w = ((domains, None), w1) ->
  planChanges domains (c :: changes) [] w1 = (Ok plannedDomains, w2) ->
  submitChanges p (c :: changes) w
  = (None,
     if DryRun p then w2 else (forM plannedDomains applyDomain tt w2).2).
Proof.
  intros Hd Hp. unfold submitChanges. cbn [length Nat.eqb].
  rewrite bind_run, Hd. cbn [fst snd]. rewrite bind_run, Hp. cbn [fst snd].
  destruct (DryRun p); [done|]. by rewrite bind_run.
Qed.

(** X11. When [ApplyChanges], not in dry-run mode, returns [nil], it has
    changed on the remote service the domains the endpoints to create, to
    update and to delete name, each of them once, and no other domain:
    also a domain the filter of the provider does not match. *)
Theorem ApplyChanges_changes_each_domain_once (p : ShamanProvider)
    (o : RangeSeeds) (changes : plan.Changes) (w : World St) :
  DryRun p = false ->
  (ApplyChanges p o changes w).1 = None ->
  exists evs,
    trace (ApplyChanges p o changes w).2 = trace w ++ evs /\
    NoDup (map mutatedDomain (omap mutationOf evs)) /\
    forall d,
      d ∈ map mutatedDomain (omap mutationOf evs)
      <-> exists e,
            e ∈ plan.Create changes ++ plan.UpdateNew changes
                  ++ plan.Delete changes
            /\ DNSName e = d.
Proof.
  intros Hdry. unfold ApplyChanges.
  destruct (newShamanChanges_domains o (plan.Create changes)
              (plan.UpdateNew changes) (plan.Delete changes)) as [Hnd Hdom].
  revert Hnd Hdom.
  generalize (newShamanChanges o (plan.Create changes)
                (plan.UpdateNew changes) (plan.Delete changes)).
  intros cs Hnd Hdom Hnil.
  assert (Hcs : exists evs,
             trace (submitChanges p cs w).2 = trace w ++ evs /\
             map mutatedDomain (omap mutationOf evs)
             = shamanChange.Domain <$> cs).
  { destruct cs as [|c cs]; [exists []; cbn; by rewrite app_nil_r|].
    unfold submitChanges in Hnil. cbn [length Nat.eqb] in Hnil.
    rewrite bind_run in Hnil.
    destruct (Domains_trace p w) as (ev & Ht & Hm & _).
    destruct (Domains p w) as [[domains [err|]] w1] eqn:Hd;
      cbn [fst snd] in *; [done|].
    rewrite bind_run in Hnil.
    destruct (planChanges_run domains (c :: cs) [] w1) as (evs & Ht' & Hres).
    destruct (Fetching_planChanges domains (c :: cs) [] w1)
      as (evs' & Ht'' & Hm' & _).
    rewrite Ht' in Ht''. apply app_inv_head in Ht''. subst evs'.
    destruct (planChanges domains (c :: cs) [] w1) as [[pds|err] w2] eqn:Hp;
      cbn [fst snd] in *; [|done].
    rewrite (submitChanges_run p c cs w domains w1 pds w2 Hd Hp), Hdry.
    cbn [snd].
    destruct (applyPlan_trace pds w2) as (evs2 & Ht2 & Hm2 & _).
    exists ((ev :: evs) ++ evs2).
    rewrite Ht2, Ht', Ht, <- !app_assoc. split; [done|].
    change ((ev :: evs) ++ evs2) with ([ev] ++ (evs ++ evs2)).
    rewrite !omap_app, Hm', Hm2. cbn [omap list_omap app]. rewrite Hm.
    cbn [app]. rewrite map_map, (map_ext _ Domain.Domain)
      by (intros; apply mutatedDomain_planned).
    by destruct Hres as [-> _]. }
  destruct Hcs as (evs & Ht & Hds). exists evs.
  rewrite Hds. split; [done|]. split; [done|].
  intros d. by rewrite Hdom, named_domain.
Qed.

(** X12. When [ApplyChanges] returns an error, it has changed nothing on
    the remote service: the error is that of the fetch it made last, and
    every call before it was a fetch that went through. *)
Theorem ApplyChanges_error_changes_nothing (p : ShamanProvider)
    (o : RangeSeeds) (changes : plan.Changes) (w : World St) err :
  (ApplyChanges p o changes w).1 = Some err ->
  exists evs0 ev,
    trace (ApplyChanges p o changes w).2 = trace w ++ evs0 ++ [ev] /\
    fetchError evs0 = None /\
    fetchError [ev] = Some err /\
    omap mutationOf (evs0 ++ [ev]) = [].
Proof.
  unfold ApplyChanges.
  generalize (newShamanChanges o (plan.Create changes)
                (plan.UpdateNew changes) (plan.Delete changes)).
  clear changes. intros changes.
  unfold submitChanges. destruct changes as [|c changes]; [done|].
  cbn [length Nat.eqb]. rewrite bind_run.
  destruct (Domains_trace p w) as (ev & Ht & Hm & He).
  destruct (Domains p w) as [[domains [err'|]] w1]; cbn [fst snd] in *.
  { intros [= ->]. exists [], ev. cbn [app omap list_omap].
    by rewrite Hm. }
  rewrite bind_run.
  destruct (planChanges_run domains (c :: changes) [] w1)
    as (evs & Ht' & Hres).
  destruct (Fetching_planChanges domains (c :: changes) [] w1)
    as (evs' & Ht'' & Hm' & _).
  rewrite Ht' in Ht''. apply app_inv_head in Ht''. subst evs'.
  destruct (planChanges domains (c :: changes) [] w1) as [[pds|err'] w2];
    cbn [fst snd] in *.
  { destruct (DryRun p); [done|]. by rewrite bind_run. }
  intros [= ->].
  destruct Hres as (_ & evs0 & d & -> & Hf).
  exists (ev :: evs0), (EvGetRecords d (Err err)).
  cbn [ret snd]. rewrite Ht', Ht, <- !app_assoc. split; [done|].
  split.
  { change (ev :: evs0) with ([ev] ++ evs0).
    by rewrite fetchError_app, He, Hf. }
  split; [done|].
  change ((ev :: evs0) ++ [EvGetRecords d (Err err)])
    with ([ev] ++ (evs0 ++ [EvGetRecords d (Err err)])).
  rewrite omap_app, Hm'. cbn [omap list_omap app]. by rewrite Hm.
Qed.

(** X13. Creating endpoints that all name one domain, which is not among
    the domains of the remote service that match the filter: [ApplyChanges]
    fetches the domains and no records, and replaces the records of the
    domain by those of the endpoints, one for every target, in order and
    without a second record of the same class, type and address; it
    deletes the domain when the endpoints have no target. This is also what
    happens to a domain the remote service has but the filter does not
    match. *)
Theorem ApplyChanges_create_unlisted (p : ShamanProvider) (o : RangeSeeds)
    (cr updateOld : list Endpoint) d ds s (w : World St) :
  DryRun p = false ->
  cr <> [] ->
  Forall (fun e => DNSName e = d) cr ->
  GetDomains (remote w) = (Ok ds, s) ->
  d ∉ List.filter (Match (domainFilter p)) ds ->
  (ApplyChanges p o (plan.mkChanges cr updateOld [] []) w).1 = None /\
  exists ev,
    trace (ApplyChanges p o (plan.mkChanges cr updateOld [] []) w).2
    = trace w ++ [EvGetDomains (Ok ds); ev] /\
    mutationOf ev
    = Some (planned
              (Domain.mk d
                 (fold_left createPlanned (flat_map resourceRecordSet cr)
                    []))).
Proof.
  intros Hdry Hne Hall Hget Hd. unfold ApplyChanges.
  cbn [plan.Create plan.UpdateNew plan.Delete].
  destruct (newShamanChanges_single o cr [] [] d)
    as (c & -> & Hc & Hcr & Hup & Hde).
  { by rewrite !app_nil_r. }
  { by rewrite !app_nil_r. }
  assert (Hdom : Domains p w
                 = ((List.filter (Match (domainFilter p)) ds, None),
                    mkWorld s (trace w ++ [EvGetDomains (Ok ds)]) (logs w))).
  { by rewrite Domains_run, Hget. }
  set (w1 := mkWorld s (trace w ++ [EvGetDomains (Ok ds)]) (logs w)) in *.
  destruct (planChange_unlisted (List.filter (Match (domainFilter p)) ds)
              c w1) as (Hpd & _ & Ht).
  { rewrite Hc. by apply not_listed. }
  assert (Hplan : planChanges (List.filter (Match (domainFilter p)) ds) [c]
                    [] w1
                  = (Ok [Domain.mk d
                           (fold_left createPlanned
                              (flat_map resourceRecordSet cr) [])],
                     (planChange (List.filter (Match (domainFilter p)) ds)
                        c w1).2)).
  { cbn [planChanges]. rewrite bind_run, Hpd. cbn [ret app].
    unfold planRecords. rewrite Hcr, Hup, Hde, Hc. done. }
  rewrite (submitChanges_run p c [] w _ _ _ _ Hdom Hplan), Hdry.
  split; [done|]. cbn [snd forM]. rewrite bind_run. cbn [ret snd].
  destruct (applyDomain_trace
              (Domain.mk d
                 (fold_left createPlanned (flat_map resourceRecordSet cr)
                    []))
              (planChange (List.filter (Match (domainFilter p)) ds) c w1).2)
    as (ev & _ & Htr & _ & Hm & _).
  exists ev. rewrite Htr, Ht. unfold w1. cbn [trace].
  by rewrite <- app_assoc.
Qed.

End ApplyMore.

(** ** [Records], again *)

Section RecordsMore.

Import Shaman.
Context {host : Host} {St : Type} {client : shamanDNS St}.


Lemma shamanGroupByNameAndType_Permutation seed seed' resp :
  shamanGroupByNameAndType seed resp ≡ₚ shamanGroupByNameAndType seed' resp.
Proof.
  destruct (shamanGroupByNameAndType_types seed resp)
    as (ts & [Hnd Hts] & ->).
  destruct (shamanGroupByNameAndType_types seed' resp)
    as (ts' & [Hnd' Hts'] & ->).
  apply Permutation_map, NoDup_Permutation; [done|done|].
  intros t. by rewrite Hts, Hts'.
Qed.

Lemma recordsLoop_Permutation (domains : list string) :
  forall (seeds seeds' : nat -> list nat) (acc acc' : list Endpoint)
         (w : World St),
    acc ≡ₚ acc' ->
    (recordsLoop seeds domains acc w).2 = (recordsLoop seeds' domains acc' w).2
    /\ (recordsLoop seeds domains acc w).1.2
       = (recordsLoop seeds' domains acc' w).1.2
    /\ (recordsLoop seeds domains acc w).1.1
       ≡ₚ (recordsLoop seeds' domains acc' w).1.1.
Proof.
  induction domains as [|domain domains IH]; intros seeds seeds' acc acc' w Hp.
  - by cbn.
  - cbn [recordsLoop]. unfold bind, call.
    destruct (GetRecords domain (remote w)) as [[resp|err] s]; [|done].
    apply IH. apply Permutation_app; [done|].
    apply shamanGroupByNameAndType_Permutation.
Qed.


(** X15. The order in which Go ranges over the groups of a domain changes
    only the order of the endpoints [Records] returns: with any two orders
    the endpoints are the same up to their order, and the error and the
    calls made are the same. *)
Theorem Records_any_range_order (p : ShamanProvider)
    (seeds seeds' : nat -> list nat) (w : World St) :
  (Records p seeds w).1.1 ≡ₚ (Records p seeds' w).1.1 /\
  (Records p seeds w).1.2 = (Records p seeds' w).1.2 /\
  (Records p seeds w).2 = (Records p seeds' w).2.
Proof.
  unfold Records, bind.
  destruct (Domains p w) as [[ds [err|]] w']; [done|].
  destruct (recordsLoop_Permutation ds seeds seeds' [] [] w')
    as (Hw & He & Hp); done.
Qed.

End RecordsMore.

(** ** The file source, again *)

Section FileSourceMore.

Import FileSource.
Context {os : FileSource.OS} {host : Host}.

Lemma generateEndpoints_failed fs f err :
  readFileToStruct fs = (f, Some err) ->
  generateEndpoints fs = ([], Some err).
Proof. intros Hr. unfold generateEndpoints. by rewrite Hr. Qed.

Lemma Endpoints_of_read fs :
  Endpoints fs
  = match readFileToStruct fs with
    | (_, Some err) => ([], Some err)
    | (f, None) =>
        (map (fun v => Some (endpointOf (dnsNameBase fs) v)) f, None)
    end.
Proof.
  unfold Endpoints.
  destruct (readFileToStruct fs) as [f [err|]] eqn:Hr.
  - by rewrite (generateEndpoints_failed fs f err Hr).
  - by rewrite (generateEndpoints_parsed fs f Hr).
Qed.

(** X16. What [Endpoints] answers, case by case: the error of opening the
    file, of reading it or of parsing it, with no endpoint; no endpoint and
    no error for a file of length zero, which is never parsed; and for a
    file that parses, one endpoint for every record, in order, and no error.
    No entry of the answer is [nil]. *)
Theorem Endpoints_cases fs :
  Endpoints fs
  = match os_Open (fileName fs) with
    | Err err => ([], Some err)
    | Ok jsonFile =>
        match ioutil_ReadAll jsonFile with
        | Err err => ([], Some err)
        | Ok [] => ([], None)
        | Ok (b :: data) =>
            match json_Unmarshal (b :: data) with
            | Err err => ([], Some err)
            | Ok f =>
                (map (fun v => Some (endpointOf (dnsNameBase fs) v)) f,
                 None)
            end
        end
    end /\
  (None ∉ (Endpoints fs).1) /\
  ((Endpoints fs).2 <> None -> (Endpoints fs).1 = []).
Proof.
  rewrite Endpoints_of_read. unfold readFileToStruct.
  destruct (os_Open (fileName fs)) as [jsonFile|err];
    [|by split; [|split; [apply not_elem_of_nil|]]].
  destruct (ioutil_ReadAll jsonFile) as [[|b data]|err];
    [by split; [|split; [apply not_elem_of_nil|]]|
    |by split; [|split; [apply not_elem_of_nil|]]].
  cbn [length Nat.eqb].
  destruct (json_Unmarshal (b :: data)) as [f|err];
    [|by split; [|split; [apply not_elem_of_nil|]]].
  split; [done|]. split; [|done]. cbn [fst].
  intros Hin. apply list_elem_of_In, in_map_iff in Hin as (v & Hv & _).
  done.
Qed.

(** X17. [NewFileSource] answers either with a source that has the
    template and the file name given, no error and no line logged at error
    level, or with no source and one such line; with a source exactly when
    the path is there and is not a directory; and with the error of
    [os.Stat] when that fails. *)
Theorem NewFileSource_source_or_line fqdnTemplate sourceFileName :
  let r := NewFileSource fqdnTemplate sourceFileName in
  (r = ((Some (mkFileSource fqdnTemplate sourceFileName), None), [])
   \/ (r.1.1 = None /\ exists line, r.2 = [(Error, line)])) /\
  (r.1.1 <> None
   <-> exists i, os_Stat sourceFileName = Ok i /\ IsDir i = false) /\
  (forall e, os_Stat sourceFileName = Err e -> r.1.2 = Some e).
Proof.
  unfold NewFileSource.
  destruct (os_Stat sourceFileName) as [i|e].
  - destruct (IsDir i) eqn:Hdir; cbn.
    + split; [right; split; [done|by eexists]|].
      split; [|done]. split; [done|]. intros (i' & [= <-] & Hi).
      congruence.
    + split; [by left|]. split; [|done].
      split; [|done]. intros _. by exists i.
  - destruct (os_IsNotExist e); cbn.
    + split; [right; split; [done|by eexists]|].
      split; [|by intros ? [= <-]].
      split; [done|]. by intros (i & Hi & _).
    + split; [right; split; [done|by eexists]|].
      split; [|by intros ? [= <-]].
      split; [done|]. by intros (i & Hi & _).
Qed.

End FileSourceMore.

(** ** The construction of the provider *)

Section SetupFacts.

Import Shaman ShamanSetup.
Context {host : Host} {lib : Library}.


End SetupFacts.

(** ** What [ApplyChanges] fetches, and what it sends *)

Section FetchFacts.

Import Shaman.
Context {host : Host} {St : Type} {client : shamanDNS St}.

Lemma fold_left_inv {A B : Type} (P : A -> Prop) (g : A -> B -> A)
    (l : list B) :
  (forall a b, P a -> P (g a b)) -> forall a, P a -> P (fold_left g l a).
Proof.
  intros Hg. induction l as [|b l IH]; intros a Ha; [done|].
  cbn [fold_left]. by apply IH, Hg.
Qed.

Lemma planRecords_distinct (current : list DNSRecord) c :
  distinctRecords current -> distinctRecords (planRecords current c).
Proof.
  intros Hnd. unfold planRecords.
  apply fold_left_inv; [intros; by apply deletePlanned_distinct|].
  apply fold_left_inv;
    [intros; unfold distinctRecords; by rewrite updatePlanned_keys|].
  apply fold_left_inv; [intros; by apply createPlanned_distinct|done].
Qed.

Lemma omap_Some_prefix {A B : Type} (f : A -> option B) (l : list A) :
  forall k : list B,
    map f l `prefix_of` map Some k -> omap f l `prefix_of` k.
Proof.
  induction l as [|a l IH]; intros k Hpre; [apply prefix_nil|].
  destruct k as [|b k]; [by apply prefix_nil_not in Hpre|].
  cbn [map] in Hpre. cbn [omap list_omap].
  rewrite (prefix_cons_inv_1 _ _ _ _ Hpre). cbn.
  apply prefix_cons, IH. by apply prefix_cons_inv_2 in Hpre.
Qed.

Lemma prefix_is_sublist {A : Type} (l k : list A) :
  l `prefix_of` k -> l `sublist_of` k.
Proof. intros [k' ->]. by apply sublist_inserts_r. Qed.

Lemma filter_is_sublist {A : Type} (f : A -> bool) (l : list A) :
  List.filter f l `sublist_of` l.
Proof.
  induction l as [|a l IH]; [done|]. cbn [List.filter].
  destruct (f a); [by apply sublist_skip|by apply sublist_cons].
Qed.

Lemma applyDomain_no_fetch pd (w : World St) :
  exists ev,
    trace (applyDomain tt pd w).2 = trace w ++ [ev] /\
    fetchedDomain ev = None.
Proof.
  unfold applyDomain.
  destruct (0 <? length (Domain.Records pd))%nat; rewrite bind_run;
    unfold call.
  - destruct (ReplaceDomainRecords _ _ (remote w)) as [[m|err] s];
      cbn; by eexists.
  - destruct (DeleteDomain _ (remote w)) as [[m|err] s]; cbn; by eexists.
Qed.

Lemma applyPlan_no_fetch plannedDomains :
  forall (w : World St),
  exists evs,
    trace (forM plannedDomains applyDomain tt w).2 = trace w ++ evs /\
    omap fetchedDomain evs = [].
Proof.
  induction plannedDomains as [|pd pds IH]; intros w.
  - exists []. cbn. by rewrite app_nil_r.
  - cbn [forM]. rewrite bind_run.
    destruct (applyDomain_no_fetch pd w) as (ev & Ht & Hf).
    destruct ((applyDomain tt pd w).1).
    destruct (IH (applyDomain tt pd w).2) as (evs & Ht' & Hf').
    exists (ev :: evs). rewrite Ht', Ht, <- app_assoc.
    split; [done|]. cbn [omap list_omap]. by rewrite Hf, Hf'.
Qed.

(** The records [submitChanges] fetches. *)
Lemma submitChanges_fetches (p : ShamanProvider) changes (w : World St) :
  exists evs,
    trace (submitChanges p changes w).2 = trace w ++ evs /\
    omap fetchedDomain evs
    `prefix_of`
    List.filter
      (fun name => existsb (fun d => String.eqb d name) (Domains p w).1.1)
      (map shamanChange.Domain changes).
Proof.
  unfold submitChanges. destruct changes as [|c changes].
  { exists []. cbn. by rewrite app_nil_r. }
  cbn [length Nat.eqb]. rewrite bind_run.
  rewrite Domains_run.
  destruct (GetDomains (remote w)) as [[ds|err] s]; cbn [fst snd].
  2:{ exists [EvGetDomains (Err err)]. cbn [ret snd trace].
      split; [done|]. apply prefix_nil. }
  rewrite bind_run.
  set (w1 := mkWorld s (trace w ++ [EvGetDomains (Ok ds)]) (logs w)).
  destruct (planChanges_run (List.filter (Match (domainFilter p)) ds)
              (c :: changes) [] w1) as (evs & Ht & Hres).
  destruct (planChanges _ (c :: changes) [] w1) as [[pds|err] w2];
    cbn [fst snd] in *.
  - destruct Hres as [_ Hf].
    assert (Hpre : omap fetchedDomain evs
                   `prefix_of`
                   List.filter
                     (fun name =>
                        existsb (fun d => String.eqb d name)
                          (List.filter (Match (domainFilter p)) ds))
                     (map shamanChange.Domain (c :: changes))).
    { apply omap_Some_prefix. by rewrite Hf. }
    destruct (DryRun p).
    + exists (EvGetDomains (Ok ds) :: evs). cbn [ret snd].
      rewrite Ht. unfold w1. cbn [trace]. by rewrite <- app_assoc.
    + rewrite bind_run. cbn [ret snd].
      destruct (applyPlan_no_fetch pds w2) as (evs2 & Ht2 & Hf2).
      exists (EvGetDomains (Ok ds) :: evs ++ evs2).
      rewrite Ht2, Ht. unfold w1. cbn [trace]. rewrite <- !app_assoc.
      split; [done|]. cbn [omap list_omap fetchedDomain].
      by rewrite omap_app, Hf2, app_nil_r.
  - destruct Hres as [Hpre _].
    exists (EvGetDomains (Ok ds) :: evs). cbn [ret snd].
    rewrite Ht. unfold w1. cbn [trace]. rewrite <- app_assoc.
    split; [done|]. cbn [omap list_omap fetchedDomain].
    by apply omap_Some_prefix.
Qed.

(** X19. [ApplyChanges] fetches the records of a domain at most once, and
    only of a domain that an endpoint to create, to update or to delete
    names and that is among the domains of the remote service that match
    the filter. *)
Theorem ApplyChanges_fetches_named_once (p : ShamanProvider)
    (o : RangeSeeds) (changes : plan.Changes) (w : World St) :
  exists evs,
    trace (ApplyChanges p o changes w).2 = trace w ++ evs /\
    NoDup (omap fetchedDomain evs) /\
    forall d, d ∈ omap fetchedDomain evs ->
      (exists e,
          e ∈ plan.Create changes ++ plan.UpdateNew changes
                ++ plan.Delete changes
          /\ DNSName e = d) /\
      exists ds s,
        GetDomains (remote w) = (Ok ds, s) /\
        d ∈ List.filter (Match (domainFilter p)) ds.
Proof.
  unfold ApplyChanges.
  destruct (newShamanChanges_domains o (plan.Create changes)
              (plan.UpdateNew changes) (plan.Delete changes)) as [Hnd Hdom].
  revert Hnd Hdom.
  generalize (newShamanChanges o (plan.Create changes)
                (plan.UpdateNew changes) (plan.Delete changes)).
  intros cs Hnd Hdom.
  destruct (submitChanges_fetches p cs w) as (evs & Ht & Hpre).
  exists evs. split; [done|].
  apply prefix_is_sublist in Hpre.
  assert (Hsub : omap fetchedDomain evs
                 `sublist_of` map shamanChange.Domain cs)
    by (etransitivity; [exact Hpre|apply filter_is_sublist]).
  split; [by eapply sublist_NoDup|].
  intros d Hd. split.
  - apply named_domain, Hdom. by eapply sublist_subseteq.
  - eapply sublist_subseteq in Hd; [|exact Hpre].
    apply list_elem_of_In, filter_In in Hd as [_ Hd].
    rewrite Domains_run in Hd.
    destruct (GetDomains (remote w)) as [[ds|err] s]; [|done].
    exists ds, s. split; [done|]. cbn [fst] in Hd.
    apply existsb_exists in Hd as (x & Hx & ->%String.eqb_eq).
    by apply list_elem_of_In.
Qed.

(** X20. The plan of a domain holds no two records of the same class, type
    and address, when the records fetched for it hold no two such: always,
    then, for a domain the remote service does not list. *)
Theorem planChange_plan_distinct (domains : DomainsResponse) c
    (w : World St) pd :
  (planChange domains c w).1 = Ok pd ->
  (forall records s,
      existsb (fun d => String.eqb d (shamanChange.Domain c)) domains
      = true ->
      GetRecords (shamanChange.Domain c) (remote w) = (Ok records, s) ->
      distinctRecords (map toDNSRecord (DomainResponse.Records records))) ->
  distinctRecords (Domain.Records pd).
Proof.
  intros Hpd Hcur.
  destruct (existsb (fun d => String.eqb d (shamanChange.Domain c)) domains)
    eqn:Hex.
  - pose proof (planChange_listed domains c w Hex) as Hc.
    destruct (GetRecords (shamanChange.Domain c) (remote w))
      as [[records|err] s].
    + destruct Hc as (Hc & _). rewrite Hc in Hpd.
      injection Hpd as <-. cbn [Domain.Records].
      apply planRecords_distinct. by eapply Hcur.
    + rewrite Hc in Hpd. done.
  - destruct (planChange_unlisted domains c w Hex) as (Hc & _).
    rewrite Hc in Hpd. injection Hpd as <-. cbn [Domain.Records].
    apply planRecords_distinct. apply NoDup_nil_2.
Qed.

End FetchFacts.

(** ** The properties above, on test values *)

(** The two endpoints of new.example.com make one structure, with the three
    records of the two endpoints to create. *)
Lemma newShamanChanges_first_structure_witness :
  let res :=
    Shaman.newShamanChanges (host := Test.testHost) Test.seeds0
      TestMore.oneDomain [] [] in
  length (Shaman.shamanChange.Changes
            (hd (Shaman.shamanChange.mk "" []) res)) = 3%nat.
Proof.
  refine (proj1 (newShamanChanges_first_structure (host := Test.testHost)
                   Test.seeds0 TestMore.oneDomain [] [] _
                   (tl (Shaman.newShamanChanges (host := Test.testHost)
                          Test.seeds0 TestMore.oneDomain [] []))
                   _)).
  vm_compute. reflexivity.
Defined.

(** The changes of the provider's test, with the mock client. *)
Lemma ApplyChanges_changes_each_domain_once_witness :
  exists evs,
    Shaman.trace
      (Shaman.ApplyChanges (host := Test.testHost)
         (client := Test.mockShamanClient) (Test.provider false)
         Test.seeds0 Test.testChanges Test.world0).2
    = Shaman.trace Test.world0 ++ evs /\
    NoDup (map Shaman.mutatedDomain (omap Shaman.mutationOf evs)).
Proof.
  destruct (ApplyChanges_changes_each_domain_once (host := Test.testHost)
              (client := Test.mockShamanClient) (Test.provider false)
              Test.seeds0 Test.testChanges Test.world0)
    as (evs & Ht & Hnd & _);
    [reflexivity | vm_compute; reflexivity |].
  exists evs. split; [exact Ht | exact Hnd].
Defined.

(** The changes of the provider's test, with the failing client. *)
Lemma ApplyChanges_error_changes_nothing_witness :
  exists evs0 ev,
    Shaman.trace
      (Shaman.ApplyChanges (host := Test.testHost)
         (client := Test.mockShamanClientFail) (Test.provider false)
         Test.seeds0 Test.testChanges Test.world0).2
    = Shaman.trace Test.world0 ++ evs0 ++ [ev] /\
    omap Shaman.mutationOf (evs0 ++ [ev]) = [].
Proof.
  destruct (ApplyChanges_error_changes_nothing (host := Test.testHost)
              (client := Test.mockShamanClientFail) (Test.provider false)
              Test.seeds0 Test.testChanges Test.world0 "Can't get domains")
    as (evs0 & ev & Ht & _ & _ & Hm);
    [vm_compute; reflexivity |].
  exists evs0, ev. split; [exact Ht | exact Hm].
Defined.

(** The two endpoints of new.example.com, a domain the mock client does not
    list. *)
Lemma ApplyChanges_create_unlisted_witness :
  exists ev,
    Shaman.trace
      (Shaman.ApplyChanges (host := Test.testHost)
         (client := Test.mockShamanClient) (Test.provider false)
         Test.seeds0 (plan.mkChanges TestMore.oneDomain [] [] [])
         Test.world0).2
    = Shaman.trace Test.world0
        ++ [Shaman.EvGetDomains (Ok Test.values2test_domains); ev] /\
    Shaman.mutationOf ev
    = Some (Shaman.Replace "new.example.com"
              [ DNSRecord.mk 60 "IN" "A" "1.2.3.4";
                DNSRecord.mk 60 "IN" "A" "5.6.7.8" ]).
Proof.
  destruct (ApplyChanges_create_unlisted (host := Test.testHost)
              (client := Test.mockShamanClient) (Test.provider false)
              Test.seeds0 TestMore.oneDomain [] "new.example.com"
              Test.values2test_domains tt Test.world0)
    as (_ & ev & Ht & Hm).
  - reflexivity.
  - discriminate.
  - repeat constructor.
  - reflexivity.
  - apply (bool_decide_unpack _). vm_compute. reflexivity.
  - exists ev. split; [exact Ht | exact Hm].
Defined.

(** Without a base URL in the environment the library gets the empty one. *)
Example NewShamanProvider_environment :
  ShamanSetup.NewShamanProvider (host := Test.testHost)
    (lib := TestMore.library) TestMore.environment [] true
  = (Some (@Shaman.mkShamanProvider Test.testHost [] true, ("secret", "")),
     None)
  /\ ShamanSetup.NewShamanProvider (host := Test.testHost)
       (lib := TestMore.library) (fun _ => "") [] true
     = (None, Some "No api token provided").
Proof. by vm_compute. Qed.

(** A file of length zero: no endpoint and no error, though the parser
    would refuse it. *)
Example Endpoints_empty_file :
  FileSource.Endpoints (os := TestMore.emptyFileOS) (host := Test.testHost)
    (FileSource.mkFileSource "foo" "/etc/endpoints.json")
  = ([], None).
Proof. reflexivity. Qed.

(** The plan for new.example.com, a domain the mock client does not list:
    the second 1.2.3.4 is left out. *)
Lemma planChange_plan_distinct_witness :
  Shaman.distinctRecords
    [ DNSRecord.mk 60 "IN" "A" "1.2.3.4"; DNSRecord.mk 60 "IN" "A" "5.6.7.8" ].
Proof.
  apply (planChange_plan_distinct (client := Test.mockShamanClient)
           Test.values2test_domains
           (hd (Shaman.shamanChange.mk "" [])
              (Shaman.newShamanChanges (host := Test.testHost) Test.seeds0
                 TestMore.oneDomain [] []))
           Test.world0
           (Domain.mk "new.example.com"
              [ DNSRecord.mk 60 "IN" "A" "1.2.3.4";
                DNSRecord.mk 60 "IN" "A" "5.6.7.8" ])).
  - vm_compute. reflexivity.
  - intros records s Hlisted. vm_compute in Hlisted. discriminate Hlisted.
Defined.
